(** * CreatorPulse: a shallow embedding of the repository's pure cores

    The Python sources are embedded function by function.  Each Rocq
    definition carries the name of the Python function it embeds and is
    written to follow its control flow, so that the two can be read side by
    side.

    Conventions.
    - A Python [str] is a [list ascii], one [ascii] per code point; the
      embedding covers text whose code points are below 256, with the
      character classes Python's [re] and [str] methods assign to them.
    - A regular expression of the source is embedded as the scanner that
      finds its matches from left to right, as [re] does.
    - A [dict] built by the aggregator (an "article") is a record with one
      field per key the aggregator always sets; a [dict] in insertion
      order whose order matters is an association list, and the set of
      seen keys is a [gset].
    - A call on the hosted backend is a function on tables (lists of rows);
      a filter of the query builder is a predicate on rows.  The handle
      returned by [get_supabase_client] is taken as configured.
    - A call that may raise returns a [Result]; code that talks to the
      completion service runs in a monad that logs the requests.
    - Floats are used through the interface [FloatOps] only.
    - What the code gets from outside (the feeds, the parser of dates, the
      clock, the mail server, the environment) is a variable of the section
      that embeds the code; an answer that may change from one call to the
      next takes the number of the call. *)

From Stdlib Require Import Ascii String ZArith QArith Lia.
From Stdlib Require Import Sorting.Sorted Sorting.Permutation DecimalString.
From stdpp Require Import base decidable list strings gmap.

Local Open Scope nat_scope.
Set Warnings "-clear-no-such-hyp".

(** ** Python strings *)

Module PyStr.

Abbreviation str := (list ascii).

(** A literal: [lit "abc"] is the Python string ['abc']. *)
Definition lit (s : string) : str := list_ascii_of_string s.
Arguments lit : simpl never.

Definition code (c : ascii) : nat := nat_of_ascii c.

Definition in_range (lo hi : nat) (c : ascii) : bool :=
  (lo <=? code c) && (code c <=? hi).

(** [\s] of [re] and [str.isspace]: 9-13, 28-32, 133 and 160. *)
Definition is_space (c : ascii) : bool :=
  in_range 9 13 c || in_range 28 32 c || (code c =? 133) || (code c =? 160).

(** [\d]: the decimal digits. *)
Definition is_digit (c : ascii) : bool := in_range 48 57 c.

Definition is_ascii_upper (c : ascii) : bool := in_range 65 90 c.
Definition is_ascii_lower (c : ascii) : bool := in_range 97 122 c.

(** [[a-zA-Z]] *)
Definition is_ascii_alpha (c : ascii) : bool :=
  is_ascii_upper c || is_ascii_lower c.

(** [\w]: what [str.isalnum] accepts, and the underscore. *)
Definition is_word (c : ascii) : bool :=
  is_digit c || is_ascii_alpha c || (code c =? 95)
  || (code c =? 170) || in_range 178 179 c || (code c =? 181)
  || in_range 185 186 c || in_range 188 190 c
  || in_range 192 214 c || in_range 216 246 c || in_range 248 255 c.

(** [str.lower] on one code point. *)
Definition lower_char (c : ascii) : ascii :=
  if is_ascii_upper c || (in_range 192 222 c && negb (code c =? 215))
  then ascii_of_nat (code c + 32) else c.

Definition upper_ascii_char (c : ascii) : ascii :=
  if is_ascii_lower c then ascii_of_nat (code c - 32) else c.

Definition lower (s : str) : str := map lower_char s.

(** [s.lstrip()], [s.rstrip()], [s.strip()] *)
Fixpoint lstrip (s : str) : str :=
  match s with
  | c :: s' => if is_space c then lstrip s' else s
  | [] => []
  end.

Definition rstrip (s : str) : str := rev (lstrip (rev s)).

Definition strip (s : str) : str := rstrip (lstrip s).

(** [s.split()]: the maximal runs of non-whitespace. *)
Fixpoint split_ws_go (cur : str) (s : str) : list str :=
  match s with
  | [] => match cur with [] => [] | _ => [cur] end
  | c :: s' =>
      if is_space c
      then match cur with
           | [] => split_ws_go [] s'
           | _ => cur :: split_ws_go [] s'
           end
      else split_ws_go (cur ++ [c]) s'
  end.

Definition split_ws (s : str) : list str := split_ws_go [] s.

(** [sep.join(parts)] *)
Fixpoint join (sep : str) (parts : list str) : str :=
  match parts with
  | [] => []
  | [p] => p
  | p :: ps => p ++ sep ++ join sep ps
  end.

(** [s.startswith(p)] *)
Fixpoint startswith (p s : str) : bool :=
  match p, s with
  | [], _ => true
  | a :: p', b :: s' => bool_decide (a = b) && startswith p' s'
  | _ :: _, [] => false
  end.

(** [s.split(sep)] for a non-empty separator: scan from the left, cut at
    each occurrence and resume after it.  [skip] counts the characters of
    an occurrence still to be passed over. *)
Fixpoint split_go (sep : str) (skip : nat) (cur : str) (s : str) : list str :=
  match s with
  | [] => [cur]
  | c :: s' =>
      match skip with
      | S k => split_go sep k cur s'
      | O =>
          if startswith sep s
          then cur :: split_go sep (length sep - 1) [] s'
          else split_go sep 0 (cur ++ [c]) s'
      end
  end.

Definition split_on (sep : str) (s : str) : list str := split_go sep 0 [] s.

(** [s.count(sub)] for a non-empty [sub]: non-overlapping occurrences. *)
Fixpoint count_go (sub : str) (skip : nat) (s : str) : nat :=
  match s with
  | [] => 0
  | _ :: s' =>
      match skip with
      | S k => count_go sub k s'
      | O =>
          if startswith sub s
          then S (count_go sub (length sub - 1) s')
          else count_go sub 0 s'
      end
  end.

Definition count_sub (sub s : str) : nat := count_go sub 0 s.

(** [sub in s] *)
Fixpoint contains (sub s : str) : bool :=
  startswith sub s ||
  match s with
  | [] => false
  | _ :: s' => contains sub s'
  end.





(** The slice [s[:k]]: a negative [k] counts from the end. *)
Definition slice_to {A : Type} (k : Z) (s : list A) : list A :=
  if (0 <=? k)%Z then take (Z.to_nat k) s
  else take (Z.to_nat (Z.of_nat (length s) + k)) s.

(** The slice [s[-k:]] for [k > 0]: the last [k] elements. *)
Definition last_n {A : Type} (k : nat) (s : list A) : list A :=
  drop (length s - k) s.

(** The line feed. *)
Definition nl : str := ["010"%char].

(** The lines of a literal block, joined by line feeds. *)
Definition text_block (lines : list string) : str :=
  join nl (map lit lines).

(** A literal of markup: a backquote in [s] stands for the double quote
    of the source text. *)
Definition tpl (s : string) : str :=
  map (fun c => if bool_decide (c = "`"%char) then ascii_of_nat 34 else c)
      (list_ascii_of_string s).

(** [str(n)] for a non-negative integer. *)
Definition str_of_nat (n : nat) : str :=
  lit (NilEmpty.string_of_uint (Nat.to_uint n)).

(** [s.title()] on text made of ASCII letters and uncased characters:
    the first letter of every run of letters in upper case, the others in
    lower case. *)
Fixpoint title_go (in_run : bool) (s : str) : str :=
  match s with
  | [] => []
  | c :: s' =>
      if is_ascii_alpha c
      then (if in_run then lower_char c else upper_ascii_char c)
             :: title_go true s'
      else c :: title_go false s'
  end.

Definition title_case (s : str) : str := title_go false s.

End PyStr.

Import PyStr.

(** ** Errors *)

Inductive Result (A : Type) : Type :=
| Ok (a : A)
| Raise (msg : str).
Arguments Ok {A} a.
Arguments Raise {A} msg.

(** ** Sorting and floats *)

Module PyList.

Section Sorted.
Context {A : Type} (key : A -> Z).

(** [sorted(l, key=key, reverse=True)]: stable, so that of two elements
    with the same key the one that came first stays first. *)
Fixpoint insert_desc (x : A) (l : list A) : list A :=
  match l with
  | [] => [x]
  | y :: l' => if (key x <? key y)%Z then y :: insert_desc x l' else x :: l
  end.

Definition sort_desc (l : list A) : list A := foldr insert_desc [] l.

(** The order of the result: keys never increase. *)
Definition desc (x y : A) : Prop := (key y <= key x)%Z.
End Sorted.

End PyList.

(** Python floats, by their operations: the embedding fixes no
    representation, and what is proved of code that computes with floats
    holds for every interpretation of these operations. *)
Class FloatOps (F : Type) := {
  f_of_Q : Q -> F;          (* the value of a literal or of an [int] *)
  f_add : F -> F -> F;
  f_mul : F -> F -> F;
  f_div : F -> F -> F;
  f_ltb : F -> F -> bool;   (* [a < b] *)
  f_round : nat -> F -> F   (* [round(x, ndigits)] *)
}.

Definition f_of_nat `{FloatOps F} (n : nat) : F := f_of_Q (Z.of_nat n # 1).

(** [sum(xs)]: the additions start from the integer 0. *)
Definition f_sum `{FloatOps F} (xs : list F) : F :=
  fold_left f_add xs (f_of_Q 0).

(** Exact rational arithmetic as one interpretation, rounding half to even.
    It is not Python's binary floating point, from which it can differ at
    a decimal tie; the theorems are proved for every interpretation, and
    this one only serves to run the functions on sample inputs. *)
Definition Q_round (ndigits : nat) (x : Q) : Q :=
  let scale := (10 ^ Z.of_nat ndigits)%Z in
  let n := (Qnum x * scale)%Z in
  let d := Z.pos (Qden x) in
  let fl := (n / d)%Z in
  let r := (n mod d)%Z in
  let up := (d <? 2 * r)%Z || ((2 * r =? d)%Z && Z.odd fl) in
  Qred ((if up then fl + 1 else fl)%Z # Z.to_pos scale).

#[global] Instance Q_float : FloatOps Q := {|
  f_of_Q := fun q => q;
  f_add := Qplus;
  f_mul := Qmult;
  f_div := Qdiv;
  f_ltb := fun a b => negb (Qle_bool b a);
  f_round := Q_round
|}.

(** ** content_aggregator.py *)

Module ContentAggregator.

(** An article as the aggregator builds it. [likes] is the
    ["engagement"]["likes"] entry, present on scraped posts only. *)
Record Article := {
  title : str;
  link : str;
  summary : str;
  published : str;
  author : str;
  source : str;
  likes : option nat
}.

(** [clean_title_for_comparison]: drop what is neither [\w] nor [\s] from
    the lower-cased title, keep the first five words. *)
Definition clean_title_for_comparison (t : str) : str :=
  let t1 := List.filter (fun c => is_word c || is_space c) (lower t) in
  join (lit " ") (take 5 (split_ws t1)).

(** The key computed in the loop body of [remove_duplicate_articles]. *)
Definition unique_key (a : Article) : str :=
  let title_key := clean_title_for_comparison (title a) in
  match link a with
  | _ :: _ => link a
  | [] => title_key ++ lit "|" ++ source a
  end.

(** One iteration of the loop: the state is [(unique_articles, seen_keys)]. *)
Definition dedup_step (st : list Article * gset str) (a : Article)
  : list Article * gset str :=
  let '(unique_articles, seen_keys) := st in
  let k := unique_key a in
  if decide (k ∈ seen_keys)
  then (unique_articles, seen_keys)
  else (unique_articles ++ [a], {[ k ]} ∪ seen_keys).

Definition remove_duplicate_articles (articles : list Article) : list Article :=
  fst (fold_left dedup_step articles ([], ∅)).

(** What the loop appends when it runs over [articles] from a state whose
    [seen_keys] is [seen]. *)
Fixpoint dedup_from (seen : gset str) (articles : list Article) : list Article :=
  match articles with
  | [] => []
  | a :: rest =>
      if decide (unique_key a ∈ seen) then dedup_from seen rest
      else a :: dedup_from ({[ unique_key a ]} ∪ seen) rest
  end.

(** The first article of a list that has the key [k]. *)
Definition first_with_key (k : str) (articles : list Article) : option Article :=
  List.find (fun a => bool_decide (unique_key a = k)) articles.

(** *** Trend extraction *)

(** The stop words of [extract_keywords_from_text]. *)
Definition stop_words : list str := map lit
  [ "the"; "a"; "an"; "and"; "or"; "but"; "in"; "on"; "at"; "to"; "for";
    "of"; "with"; "by"; "is"; "are"; "was"; "were"; "be"; "been"; "have";
    "has"; "had"; "do"; "does"; "did"; "will"; "would"; "could"; "should";
    "may"; "might"; "can"; "this"; "that"; "these"; "those"; "i"; "you";
    "he"; "she"; "it"; "we"; "they"; "new"; "more"; "most"; "also"; "get";
    "go"; "make"; "see"; "know"; "think"; "take"; "come"; "say"; "use"
  ]%string.

(** The maximal runs of [\w] characters of a text, in order. *)
Fixpoint word_runs_go (cur : str) (s : str) : list str :=
  match s with
  | [] => match cur with [] => [] | _ => [cur] end
  | c :: s' =>
      if is_word c then word_runs_go (cur ++ [c]) s'
      else match cur with
           | [] => word_runs_go [] s'
           | _ => cur :: word_runs_go [] s'
           end
  end.

(** [re.findall(r'\b[a-zA-Z]{3,}\b', text)].  A match starts and ends at
    a boundary between [\w] and non-[\w], so it is a whole run of [\w]
    characters; it is made of ASCII letters only and has three of them
    or more. *)
Definition findall_words (text : str) : list str :=
  List.filter (fun w => forallb is_ascii_alpha w && (3 <=? length w))
              (word_runs_go [] text).

(** [collections.Counter]: a dictionary in insertion order. *)
Fixpoint counter_add (w : str) (cnt : list (str * nat)) : list (str * nat) :=
  match cnt with
  | [] => [(w, 1)]
  | (k, c) :: rest =>
      if decide (w = k) then (k, S c) :: rest
      else (k, c) :: counter_add w rest
  end.

Definition Counter (ws : list str) : list (str * nat) :=
  fold_left (fun cnt w => counter_add w cnt) ws [].

(** The key of [most_common]: the count of an item. *)
Definition count_key (kc : str * nat) : Z := Z.of_nat (snd kc).

(** [Counter.most_common(n)]: [heapq.nlargest(n, items, key=count)], which
    is the first [n] items of the stable descending sort, and nothing for
    [n <= 0]. *)
Definition most_common (n : Z) (cnt : list (str * nat)) : list (str * nat) :=
  take (Z.to_nat n) (PyList.sort_desc count_key cnt).

(** The words [extract_keywords_from_text] counts: the matches in the
    lower-cased text that are no stop words. *)
Definition filtered_words (text : str) : list str :=
  let words := findall_words (lower text) in
  List.filter (fun w => negb (bool_decide (w ∈ stop_words))) words.

Definition extract_keywords_from_text (text : str) : list (str * nat) :=
  Counter (filtered_words text).

(** How often [w] occurs in a list of words. *)
Definition occurrences (w : str) (ws : list str) : nat :=
  length (List.filter (fun x => bool_decide (x = w)) ws).

(** [find_representative_article]: the loop keeps [(best_article, best_score)]. *)
Definition article_score (keyword : str) (a : Article) : nat :=
  let title_l := lower (title a) in
  let summary_l := lower (summary a) in
  let content := title_l ++ lit " " ++ summary_l in
  let score := count_sub (lower keyword) content in
  if contains (lower keyword) title_l then score + 2 else score.

Definition find_representative_article (articles : list Article) (keyword : str)
  : option Article :=
  fst (fold_left
         (fun (st : option Article * nat) a =>
            let score := article_score keyword a in
            if snd st <? score then (Some a, score) else st)
         articles (None, 0)).

Definition generate_trend_explanation (keyword : str) (frequency : nat)
    (articles : list Article) : str :=
  lit "'" ++ title_case keyword ++ lit "' appears frequently across "
    ++ str_of_nat frequency
    ++ lit " recent articles, indicating growing interest in this topic.".

Record Trend := {
  trend_title : str;
  explainer : str;
  source_link : str;
  frequency : nat;
  related_articles : list Article
}.

(** The body of the loop of [extract_trends] for one qualifying keyword. *)
Definition make_trend (articles : list Article) (kc : str * nat) : Trend :=
  let '(keyword, count) := kc in
  let representative_article := find_representative_article articles keyword in
  {| trend_title := title_case keyword;
     explainer := generate_trend_explanation keyword count articles;
     source_link := match representative_article with
                    | Some a => link a
                    | None => lit "#"
                    end;
     frequency := count;
     related_articles :=
       take 3 (List.filter
                 (fun a => contains (lower keyword)
                             (lower (title a ++ lit " " ++ summary a)))
                 articles) |}.

(** The guard of the loop: [len(keyword) > 3 and count > 1]. *)
Definition qualifies (kc : str * nat) : bool :=
  (3 <? length (fst kc)) && (1 <? snd kc).

Definition all_text (articles : list Article) : str :=
  join (lit " ") (flat_map (fun a => [title a; summary a]) articles).

Definition extract_trends (articles : list Article) (max_trends : Z) : list Trend :=
  match articles with
  | [] => []
  | _ =>
      let keywords := extract_keywords_from_text (all_text articles) in
      map (make_trend articles)
          (List.filter qualifies (most_common max_trends keywords))
  end.

(** *** HTML clean-up *)

(** [re.sub(r'<[^>]+>', '', s)].  A match starts at a ['<'], runs over one
    or more characters other than ['>'] and ends at the first ['>'] after
    them.  [pending] holds the characters read since a ['<'] that may
    still open a match: the match is there once ['>'] is read and
    [pending] is not empty; ['<>'] and a ['<'] with no ['>'] after it are
    no match and are kept. *)
Fixpoint strip_tags_go (pending : option str) (s : str) : str :=
  match s with
  | [] =>
      match pending with
      | None => []
      | Some buf => lit "<" ++ buf
      end
  | c :: s' =>
      match pending with
      | None =>
          if bool_decide (c = "<"%char) then strip_tags_go (Some []) s'
          else c :: strip_tags_go None s'
      | Some buf =>
          if bool_decide (c = ">"%char) then
            match buf with
            | [] => lit "<>" ++ strip_tags_go None s'
            | _ :: _ => strip_tags_go None s'
            end
          else strip_tags_go (Some (buf ++ [c])) s'
      end
  end.

Definition strip_tags (s : str) : str := strip_tags_go None s.

(** [re.sub(r'\s+', ' ', s)]: every maximal run of whitespace becomes one
    space. *)
Fixpoint collapse_ws_go (in_ws : bool) (s : str) : str :=
  match s with
  | [] => []
  | c :: s' =>
      if is_space c
      then (if in_ws then collapse_ws_go true s'
            else " "%char :: collapse_ws_go true s')
      else c :: collapse_ws_go false s'
  end.

Definition collapse_ws (s : str) : str := collapse_ws_go false s.

Definition clean_html (html_content : str) : str :=
  match html_content with
  | [] => []
  | _ =>
      let clean_text := strip_tags html_content in
      let clean_text := strip (collapse_ws clean_text) in
      if 300 <? length clean_text
      then take 300 clean_text ++ lit "..."
      else clean_text
  end.

(** *** What "stripped" and "collapsed" mean *)

(** [<[^>]+>] matches somewhere in [s]. *)
Definition has_tag (s : str) : Prop :=
  exists a m b, s = a ++ "<"%char :: m ++ ">"%char :: b
                /\ m <> [] /\ ">"%char ∉ m.

Definition starts_gt (s : str) : bool := bool_decide (head s = Some ">"%char).
Definition no_gt (s : str) : bool := bool_decide (">"%char ∉ s).

(** Every ['<'] of [s] is followed at once by ['>'], or by no ['>'] at all. *)
Fixpoint tagless (s : str) : bool :=
  match s with
  | [] => true
  | c :: s' =>
      (if bool_decide (c = "<"%char) then starts_gt s' || no_gt s' else true)
      && tagless s'
  end.

Definition starts_space (s : str) : bool := from_option is_space false (head s).

(** Every whitespace character of [s] is a space, and the next character
    is not whitespace. *)
Fixpoint single_spaced (s : str) : bool :=
  match s with
  | [] => true
  | c :: s' =>
      (if is_space c then bool_decide (c = " "%char) && negb (starts_space s')
       else true)
      && single_spaced s'
  end.

(** *** Reading feeds *)

(** What [feedparser.parse] gives for a feed, as far as [parse_rss_feed]
    reads it; an attribute an entry lacks is [None]. *)
Record Entry := {
  e_title : option str;
  e_link : option str;
  e_summary : option str;
  e_published : option str;
  e_author : option str
}.

Record Feed := {
  feed_title : option str;
  entries : list Entry
}.

(** [format_publish_date], on the string [feedparser] gives. *)
Definition format_publish_date (date_str : str) : str :=
  match date_str with
  | [] => lit "Recently"
  | _ :: _ => date_str
  end.

(** The dictionary [parse_rss_feed] builds for an entry; the key ["tags"],
    which no function embedded here reads, is not carried. *)
Definition article_of_entry (feed : Feed) (entry : Entry) : Article :=
  {| title := default (lit "Untitled") (e_title entry);
     link := default [] (e_link entry);
     summary := clean_html (default [] (e_summary entry));
     published := format_publish_date (default [] (e_published entry));
     author := default (lit "Unknown") (e_author entry);
     source := default (lit "Unknown Source") (feed_title feed);
     likes := None |}.

(** [article["title"] and article["link"]] *)
Definition has_title_and_link (a : Article) : bool :=
  negb (bool_decide (title a = [])) && negb (bool_decide (link a = [])).

Section Feeds.
(** [feedparser.parse(url)]: the answer to the [n]-th call, or an
    exception. *)
Variable fetch : nat -> str -> Result Feed.
(** [datetime.strptime] with the first of the five formats of [parse_date]
    that accepts the text, as an instant; [None] when none does. *)
Variable strptime : str -> option Z.
(** The reading of the clock at the [n]-th call of [parse_date]. *)
Variable clock : nat -> Z.

(** [parse_rss_feed(rss_url, max_articles)], as the [n]-th call. *)
Definition parse_rss_feed (n : nat) (rss_url : str) (max_articles : Z)
  : list Article :=
  match fetch n rss_url with
  | Raise _ => []
  | Ok feed =>
      List.filter has_title_and_link
        (map (article_of_entry feed) (slice_to max_articles (entries feed)))
  end.

(** [parse_date(date_str)] at the instant [now]. *)
Definition parse_date (now : Z) (date_str : str) : Z :=
  if bool_decide (date_str = []) || bool_decide (date_str = lit "Recently")
  then now
  else match strptime date_str with
       | Some parsed_date => parsed_date
       | None => now
       end.

(** The keys [list.sort] computes, one call of [parse_date] per article,
    in the order of the list. *)
Definition date_keys (articles : list Article) : list (Z * Article) :=
  imap (fun i a => (parse_date (clock i) (published a), a)) articles.

(** [articles.sort(key=lambda x: parse_date(x.get("published", "")),
    reverse=True)] *)
Definition sort_by_date (articles : list Article) : list Article :=
  map snd (PyList.sort_desc fst (date_keys articles)).

(** [parse_multiple_feeds(rss_urls, max_articles_per_feed)] *)
Definition parse_multiple_feeds (rss_urls : list str)
    (max_articles_per_feed : Z) : list Article :=
  let all_articles :=
    concat (imap (fun n url => parse_rss_feed n url max_articles_per_feed)
                 rss_urls) in
  let unique_articles := remove_duplicate_articles all_articles in
  sort_by_date unique_articles.
End Feeds.

(** *** Scraped posts *)

(** [http\S+|www\S+] matches at the start of [s]: the letters, and one
    character more that is not whitespace. *)
Definition url_at (s : str) : bool :=
  (startswith (lit "http") s
   && from_option (fun c => negb (is_space c)) false (s !! 4))
  || (startswith (lit "www") s
      && from_option (fun c => negb (is_space c)) false (s !! 3)).

(** [re.sub(r'http\S+|www\S+', '', text)]: a match runs to the next
    whitespace; [skipping] is true inside a match. *)
Fixpoint remove_urls_go (skipping : bool) (s : str) : str :=
  match s with
  | [] => []
  | c :: s' =>
      if skipping
      then (if is_space c then c :: remove_urls_go false s'
            else remove_urls_go true s')
      else if url_at s then remove_urls_go true s'
      else c :: remove_urls_go false s'
  end.

Definition remove_urls (text : str) : str := remove_urls_go false text.

(** [clean_tweet_text(text)] *)
Definition clean_tweet_text (text : str) : str :=
  match text with
  | [] => []
  | _ :: _ =>
      let text := remove_urls text in
      let text := strip (collapse_ws text) in
      if 280 <? length text then take 280 text ++ lit "..." else text
  end.

(** No match of [http\S+|www\S+] starts anywhere in [s]. *)
Fixpoint url_free (s : str) : bool :=
  match s with
  | [] => true
  | _ :: s' => negb (url_at s) && url_free s'
  end.

(** The characters of [t] before its first whitespace are the first
    characters of [s]. *)
Fixpoint run_prefix (t s : str) : bool :=
  match t with
  | [] => true
  | c :: t' =>
      if is_space c then true
      else match s with
           | d :: s' => bool_decide (c = d) && run_prefix t' s'
           | [] => false
           end
  end.

End ContentAggregator.

(** ** The completion service *)

Module Llm.

(** A call [client.chat.completions.create(model, messages, temperature,
    max_tokens)] with one system and one user message. *)
Record Request := {
  model : str;
  system_content : str;
  user_content : str;
  temperature : Q;
  max_tokens : nat
}.

(** The service answers a request with the text of
    [choices[0].message.content] or raises; the answer may depend on the
    requests made before. *)
Definition Client := list Request -> Request -> Result str.

(** Code that calls the service threads the log of the requests made. *)
Definition M (A : Type) : Type := list Request -> A * list Request.

#[global] Instance M_ret : MRet M := fun A (a : A) log => (a, log).

#[global] Instance M_bind : MBind M :=
  fun A B (f : A -> M B) (m : M A) log => let '(a, log') := m log in f a log'.

Definition create (client : Client) (req : Request) : M (Result str) :=
  fun log => (client log req, log ++ [req]).

Definition llama : str := lit "llama-3.3-70b-versatile".

End Llm.

(** ** social_media_generator.py *)

Module SocialMediaGenerator.

Fixpoint drop_digits (s : str) : str :=
  match s with
  | c :: s' => if is_digit c then drop_digits s' else s
  | [] => []
  end.

(** A prefix [\d+[closers]] of [line]: what follows it, if it is there. *)
Definition match_number (closers : str) (line : str) : option str :=
  match line with
  | c :: _ =>
      if is_digit c then
        match drop_digits line with
        | d :: rest => if bool_decide (d ∈ closers) then Some rest else None
        | [] => None
        end
      else None
  | [] => None
  end.

(** A prefix [Tweet \d+:] of [line]. *)
Definition match_tweet_label (line : str) : option str :=
  if startswith (lit "Tweet ") line then match_number (lit ":") (drop 6 line)
  else None.

(** [re.sub(r'^\d+[/\.\)]\s*', '', line)] *)
Definition sub_numbering (line : str) : str :=
  match match_number (lit "/.)") line with
  | Some rest => lstrip rest
  | None => line
  end.

(** [re.sub(r'^Tweet \d+:\s*', '', line)] *)
Definition sub_tweet_label (line : str) : str :=
  match match_tweet_label line with
  | Some rest => lstrip rest
  | None => line
  end.

(** [re.match(pattern, line)] for some pattern of
    [[r'\d+[/\.]', r'Tweet \d+:', r'\n\n']]. *)
Definition starts_new_tweet (line : str) : bool :=
  bool_decide (is_Some (match_number (lit "/.") line))
  || bool_decide (is_Some (match_tweet_label line))
  || startswith (nl ++ nl) line.

(** One iteration of the loop over the lines; the state is
    [(tweets, current_tweet)]. *)
Definition parse_step (st : list str * str) (raw_line : str) : list str * str :=
  let '(tweets, current_tweet) := st in
  let line := strip raw_line in
  match line with
  | [] => st
  | _ :: _ =>
      let is_new_tweet := starts_new_tweet line in
      let line :=
        if is_new_tweet then sub_tweet_label (sub_numbering line) else line in
      match is_new_tweet, current_tweet with
      | true, _ :: _ => (tweets ++ [strip current_tweet], line)
      | _, _ => (tweets, current_tweet ++ lit " " ++ line)
      end
  end.

Definition parse_twitter_thread (thread_text : str) : list str :=
  let '(tweets, current_tweet) :=
    fold_left parse_step (split_on nl thread_text) ([], []) in
  let tweets :=
    match current_tweet with
    | _ :: _ => tweets ++ [strip current_tweet]
    | [] => tweets
    end in
  let tweets :=
    match tweets with
    | [] =>
        List.filter (fun t => negb (bool_decide (t = [])))
                    (map strip (split_on (nl ++ nl) thread_text))
    | _ :: _ => tweets
    end in
  take 6 tweets.

Definition truncate_tweet_to (max_length : Z) (tweet : str) : str :=
  if (Z.of_nat (length tweet) <=? max_length)%Z then tweet
  else slice_to (max_length - 3) tweet ++ lit "...".

(** [truncate_tweet(tweet)], with the default [max_length=280]. *)
Definition truncate_tweet (tweet : str) : str := truncate_tweet_to 280 tweet.

(** The dictionary [generate_twitter_thread] returns on success. *)
Record Thread := {
  platform : str;
  posts : list str;
  full_text : str;
  char_counts : list nat;
  created_at : str
}.

Definition twitter_prompt (content articles trends tone : str) : str :=
  nl ++
  text_block
    [ "    Create a Twitter/X thread from this newsletter content. Follow these rules STRICTLY:";
      "    ";
      "    RULES:";
      "    - Each tweet must be UNDER 280 characters (including spaces)";
      "    - Create 4-6 tweets total";
      "    - First tweet: Hook that grabs attention";
      "    - Middle tweets: Key insights (one per tweet)";
      "    - Last tweet: Call-to-action";
      "    - Use emojis sparingly (1-2 per tweet max)";
      "    - Tone: " ]%string
  ++ tone ++ nl ++
  text_block
    [ "    - Number each tweet (1/, 2/, 3/, etc.)";
      "    ";
      "    Newsletter Summary:";
      "    " ]%string
  ++ take 500 content ++ nl ++
  text_block [ "    "; "    Key Articles:"; "    " ]%string
  ++ articles ++ nl ++
  text_block [ "    "; "    Trending Topics:"; "    " ]%string
  ++ trends ++ nl ++
  text_block
    [ "    ";
      "    Generate the thread now. Format each tweet on a new line starting with the number.";
      "    " ]%string.

Definition twitter_request (content articles trends tone : str) : Llm.Request :=
  {| Llm.model := Llm.llama;
     Llm.system_content :=
       lit "You are a social media expert who creates engaging Twitter threads. Keep tweets under 280 characters.";
     Llm.user_content := twitter_prompt content articles trends tone;
     Llm.temperature := 7 # 10;
     Llm.max_tokens := 1000 |}.

(** [generate_twitter_thread]: [now] is [datetime.now(UTC).isoformat()].
    An exception of the call is returned as [{"error": str(e)}]. *)
Definition generate_twitter_thread (client : Llm.Client)
    (content articles trends tone : str) (now : str)
  : Llm.M (Result Thread) :=
  completion ← Llm.create client (twitter_request content articles trends tone);
  match completion with
  | Raise e => mret (Raise e)
  | Ok thread_text =>
      let tweets := parse_twitter_thread thread_text in
      let tweets := map truncate_tweet tweets in
      mret (Ok {| platform := lit "twitter";
                  posts := tweets;
                  full_text := thread_text;
                  char_counts := map length tweets;
                  created_at := now |})
  end.

(** [clean_html_for_ai(html_content)] *)
Definition clean_html_for_ai (html_content : str) : str :=
  let clean := ContentAggregator.strip_tags html_content in
  let clean := strip (ContentAggregator.collapse_ws clean) in
  take 1000 clean.

(** [re.findall(r'#\w+', text)]: [cur] is the run of word characters read
    after a ['#'], when the scanner is inside a candidate. *)
Definition emit_hashtag (cur : option str) : list str :=
  match cur with
  | Some (c :: run) => [("#"%char :: c :: run)]
  | _ => []
  end.

Fixpoint extract_hashtags_go (cur : option str) (text : str) : list str :=
  match text with
  | [] => emit_hashtag cur
  | c :: text' =>
      match cur with
      | Some run =>
          if is_word c then extract_hashtags_go (Some (run ++ [c])) text'
          else emit_hashtag cur
               ++ extract_hashtags_go
                    (if bool_decide (c = "#"%char) then Some [] else None) text'
      | None =>
          extract_hashtags_go
            (if bool_decide (c = "#"%char) then Some [] else None) text'
      end
  end.

Definition extract_hashtags (text : str) : list str :=
  extract_hashtags_go None text.

(** [prepare_articles_summary(articles)] *)
Definition prepare_articles_summary (articles : list ContentAggregator.Article)
  : str :=
  join nl
    (imap (fun i article =>
             str_of_nat (S i) ++ lit ". " ++ ContentAggregator.title article
             ++ lit " - " ++ take 100 (ContentAggregator.summary article))
          (take 5 articles)).

(** [prepare_trends_summary(trends)] *)
Definition prepare_trends_summary (trends : list ContentAggregator.Trend)
  : str :=
  join nl
    (imap (fun i trend =>
             str_of_nat (S i) ++ lit ". " ++ ContentAggregator.trend_title trend
             ++ lit " - " ++ take 100 (ContentAggregator.explainer trend))
          (take 3 trends)).

(** The prompt of [generate_linkedin_post]; the arrows of the source text
    are carried as their UTF-8 bytes. *)
Definition linkedin_prompt (content articles trends tone : str) : str :=
  nl ++
  text_block
    [ "    Create a LinkedIn post from this newsletter content. Follow these rules:";
      "    ";
      "    RULES:";
      "    - Length: 1200-1500 characters (LinkedIn sweet spot)";
      "    - Structure: Hook → Key insights → Call-to-action";
      "    - Use line breaks for readability";
      "    - Professional tone but engaging";
      "    - Include 3-5 relevant hashtags at the end";
      "    - Tone: " ]%string
  ++ tone ++ nl ++
  text_block
    [ "    ";
      "    Newsletter Summary:";
      "    " ]%string
  ++ take 600 content ++ nl ++
  text_block [ "    "; "    Key Articles:"; "    " ]%string
  ++ articles ++ nl ++
  text_block [ "    "; "    Trending Topics:"; "    " ]%string
  ++ trends ++ nl ++
  text_block
    [ "    ";
      "    Generate the LinkedIn post now.";
      "    " ]%string.

Definition linkedin_request (content articles trends tone : str) : Llm.Request :=
  {| Llm.model := Llm.llama;
     Llm.system_content :=
       lit "You are a LinkedIn content strategist who creates engaging professional posts.";
     Llm.user_content := linkedin_prompt content articles trends tone;
     Llm.temperature := 7 # 10;
     Llm.max_tokens := 1200 |}.

(** The dictionary [generate_linkedin_post] returns on success. *)
Record LinkedinPost := {
  li_platform : str;
  li_posts : list str;
  li_full_text : str;
  li_char_count : nat;
  li_hashtags : list str;
  li_created_at : str
}.

Definition generate_linkedin_post (client : Llm.Client)
    (content articles trends tone : str) (now : str)
  : Llm.M (Result LinkedinPost) :=
  completion ← Llm.create client (linkedin_request content articles trends tone);
  match completion with
  | Raise e => mret (Raise e)
  | Ok post_text =>
      let hashtags := extract_hashtags post_text in
      mret (Ok {| li_platform := lit "linkedin";
                  li_posts := [post_text];
                  li_full_text := post_text;
                  li_char_count := length post_text;
                  li_hashtags := hashtags;
                  li_created_at := now |})
  end.

(** What [generate_social_posts] returns when no error is reported. *)
Inductive SocialPosts :=
| TwitterThread (thread : Thread)
| LinkedinText (post : LinkedinPost).

(** [generate_social_posts]; [Groq(api_key=api_key)] builds the handle
    [client] and calls nothing.  [Raise e] is the dictionary
    [{"error": e}]. *)
Definition generate_social_posts (client : Llm.Client)
    (newsletter_content : str) (articles : list ContentAggregator.Article)
    (trends : list ContentAggregator.Trend) (platform_name tone : str)
    (now : str) : Llm.M (Result SocialPosts) :=
  let clean_content := clean_html_for_ai newsletter_content in
  let articles_summary := prepare_articles_summary (take 5 articles) in
  let trends_summary := prepare_trends_summary (take 3 trends) in
  if bool_decide (platform_name = lit "twitter") then
    posts ← generate_twitter_thread client clean_content articles_summary
              trends_summary tone now;
    mret (match posts with
          | Ok thread => Ok (TwitterThread thread)
          | Raise e => Raise e
          end)
  else if bool_decide (platform_name = lit "linkedin") then
    posts ← generate_linkedin_post client clean_content articles_summary
              trends_summary tone now;
    mret (match posts with
          | Ok post => Ok (LinkedinText post)
          | Raise e => Raise e
          end)
  else mret (Raise (lit "Unsupported platform")).

(** *** What the parsers return *)

(** [h] is a match of [#\w+] in [text]: a ['#'] and a run of word
    characters that goes on as far as it can. *)
Definition hashtag_at (text h : str) : Prop :=
  exists a b run,
    text = a ++ h ++ b
    /\ h = "#"%char :: run
    /\ run <> []
    /\ forallb is_word run = true
    /\ from_option is_word false (head b) = false.

(** No whitespace at either end. *)
Definition trimmed (t : str) : Prop :=
  ContentAggregator.starts_space t = false
  /\ from_option is_space false (last t) = false.

(** The state of the loop of [parse_twitter_thread] once a line with text
    has been read. *)
Definition progressed (st : list str * str) : Prop :=
  fst st <> [] \/ snd st <> [].

End SocialMediaGenerator.

(** ** draft_generator.py *)

Module DraftGenerator.
Import ContentAggregator.

(** The markup of the templates is given without the indentation and the
    line breaks that separate its tags in the source; the symbols outside
    ASCII are carried as their UTF-8 bytes. *)

Definition trends_section (trends : list Trend) : str :=
  match trends with
  | [] => []
  | _ :: _ =>
      let trend_items :=
        map (fun t => lit "<strong>" ++ trend_title t ++ lit "</strong>")
            (take 3 trends) in
      tpl "<section style=`padding: 20px 0;`>"
      ++ tpl "<h2 style=`color: #3b82f6; margin-bottom: 15px; font-size: 20px;`>🔥 Trending Today</h2>"
      ++ tpl "<div style=`background: #f0f9ff; padding: 15px; border-radius: 8px; border-left: 4px solid #3b82f6;`>"
      ++ lit "<p style='margin: 0; color: #1e293b;'>Key topics today: "
      ++ join (lit ", ") trend_items ++ lit "</p>"
      ++ lit "</div></section>"
  end.

Definition top_stories_heading : str :=
  tpl "<h2 style=`color: #1e293b; margin-bottom: 20px; font-size: 22px; border-bottom: 2px solid #e2e8f0; padding-bottom: 10px;`>📰 Today's Top Stories</h2>".

(** One pass of the loop over [enumerate(zip(rss_articles, article_summaries), 1)]. *)
Definition article_entry (i : nat) (p : Article * str) : str :=
  let '(article, summary_text) := p in
  tpl "<article style=`margin-bottom: 25px; padding-bottom: 20px; border-bottom: 1px solid #e2e8f0;`>"
  ++ tpl "<h3 style=`margin: 0 0 8px 0; font-size: 18px; line-height: 1.4;`>"
  ++ tpl "<a href=`" ++ link article
  ++ tpl "` target=`_blank` style=`color: #1e293b; text-decoration: none;`>"
  ++ str_of_nat i ++ lit ". " ++ title article
  ++ lit "</a></h3>"
  ++ tpl "<p style=`color: #64748b; margin: 0 0 10px 0; font-size: 13px;`>"
  ++ lit "📍 " ++ source article ++ lit " · 📅 " ++ take 15 (published article)
  ++ lit "</p>"
  ++ tpl "<p style=`color: #475569; margin: 0 0 10px 0; line-height: 1.6; font-size: 15px;`>"
  ++ summary_text ++ lit "</p>"
  ++ tpl "<a href=`" ++ link article
  ++ tpl "` target=`_blank` style=`color: #3b82f6; text-decoration: none; font-weight: 600; font-size: 14px;`>"
  ++ lit "Read full story →</a></article>".

(** The words of the heading, by which the section is recognised. *)
Definition top_stories_words : str := lit "Today's Top Stories".

(** [articles_html]: the section is built only [if rss_articles and
    article_summaries]. *)
Definition articles_section (rss_articles : list Article)
    (article_summaries : list str) : str :=
  match rss_articles, article_summaries with
  | _ :: _, _ :: _ =>
      tpl "<section style=`padding: 20px 0;`>" ++ top_stories_heading
      ++ concat (imap (fun i p => article_entry (S i) p)
                      (zip rss_articles article_summaries))
      ++ lit "</section>"
  | _, _ => []
  end.

Definition tweet_entry (tweet : Article) : str :=
  let likes_n := default 0 (likes tweet) in
  tpl "<div style=`background: #f8fafc; padding: 15px; margin-bottom: 15px; border-radius: 8px; border-left: 3px solid #1da1f2;`>"
  ++ tpl "<p style=`color: #64748b; margin: 0 0 8px 0; font-size: 13px;`>"
  ++ lit "<strong>" ++ author tweet ++ lit "</strong> · "
  ++ take 15 (published tweet) ++ lit "</p>"
  ++ tpl "<p style=`color: #1e293b; margin: 0; line-height: 1.5; font-size: 15px;`>"
  ++ take 200 (summary tweet)
  ++ (if 200 <? length (summary tweet) then lit "..." else [])
  ++ lit "</p>"
  ++ tpl "<p style=`color: #64748b; margin: 8px 0 0 0; font-size: 13px;`>"
  ++ lit "❤️ " ++ str_of_nat likes_n ++ tpl " · <a href=`" ++ link tweet
  ++ tpl "` style=`color: #1da1f2; text-decoration: none;`>View tweet →</a>"
  ++ lit "</p></div>".

Definition twitter_section (twitter_posts : list Article) : str :=
  match twitter_posts with
  | [] => []
  | _ :: _ =>
      tpl "<section style=`padding: 20px 0;`>"
      ++ tpl "<h2 style=`color: #1da1f2; margin-bottom: 15px; font-size: 20px;`>🐦 From Twitter</h2>"
      ++ concat (map tweet_entry twitter_posts)
      ++ lit "</section>"
  end.

Definition video_entry (video : Article) : str :=
  tpl "<div style=`background: #fef2f2; padding: 15px; margin-bottom: 15px; border-radius: 8px; border-left: 3px solid #ff0000;`>"
  ++ tpl "<h3 style=`margin: 0 0 8px 0; font-size: 16px;`>"
  ++ tpl "<a href=`" ++ link video
  ++ tpl "` target=`_blank` style=`color: #1e293b; text-decoration: none;`>"
  ++ lit "🎬 " ++ title video ++ lit "</a></h3>"
  ++ tpl "<p style=`color: #64748b; margin: 0 0 10px 0; font-size: 13px;`>"
  ++ lit "📺 " ++ author video ++ lit " · " ++ take 15 (published video)
  ++ lit "</p>"
  ++ tpl "<a href=`" ++ link video
  ++ tpl "` target=`_blank` style=`display: inline-block; padding: 6px 12px; background: #ff0000; color: white; text-decoration: none; border-radius: 4px; font-size: 13px;`>"
  ++ lit "▶️ Watch Now</a></div>".

Definition youtube_section (youtube_videos : list Article) : str :=
  match youtube_videos with
  | [] => []
  | _ :: _ =>
      tpl "<section style=`padding: 20px 0;`>"
      ++ tpl "<h2 style=`color: #ff0000; margin-bottom: 15px; font-size: 20px;`>🎥 Watch This</h2>"
      ++ concat (map video_entry youtube_videos)
      ++ lit "</section>"
  end.

(** The final f-string of [create_html_newsletter_v3]; [today] is
    [datetime.now().strftime('%B %d, %Y')]. *)
Definition html_document (title_text topic today intro : str)
    (trends_html articles_html twitter_html youtube_html : str)
    (conclusion : str) : str :=
  tpl "<div style=`max-width: 600px; margin: 0 auto; font-family: -apple-system, BlinkMacSystemFont, 'Segoe UI', Roboto, sans-serif; line-height: 1.6; color: #333; background: #ffffff;`>"
  ++ lit "<!-- Header -->"
  ++ tpl "<header style=`text-align: center; padding: 30px 20px; background: linear-gradient(135deg, #667eea 0%, #764ba2 100%); color: white;`>"
  ++ tpl "<h1 style=`margin: 0 0 5px 0; font-size: 26px; font-weight: 700;`>"
  ++ title_text ++ lit "</h1>"
  ++ tpl "<p style=`margin: 0; font-size: 14px; opacity: 0.9;`>"
  ++ topic ++ lit " · " ++ today ++ lit "</p></header>"
  ++ lit "<!-- Intro -->"
  ++ tpl "<section style=`padding: 25px 20px 15px 20px;`>"
  ++ tpl "<p style=`color: #1e293b; line-height: 1.6; margin: 0; font-size: 15px;`>"
  ++ intro ++ lit "</p></section>"
  ++ lit "<!-- Trends -->"
  ++ tpl "<div style=`padding: 0 20px;`>" ++ trends_html ++ lit "</div>"
  ++ lit "<!-- Main Articles -->"
  ++ tpl "<div style=`padding: 0 20px;`>" ++ articles_html ++ lit "</div>"
  ++ lit "<!-- Twitter -->"
  ++ tpl "<div style=`padding: 0 20px;`>" ++ twitter_html ++ lit "</div>"
  ++ lit "<!-- YouTube -->"
  ++ tpl "<div style=`padding: 0 20px;`>" ++ youtube_html ++ lit "</div>"
  ++ lit "<!-- Conclusion -->"
  ++ tpl "<section style=`padding: 20px; background: #f8fafc; margin: 20px 20px 0 20px; border-radius: 8px;`>"
  ++ tpl "<p style=`color: #475569; line-height: 1.6; margin: 0; font-size: 14px; text-align: center;`>"
  ++ conclusion ++ lit "</p></section>"
  ++ lit "<!-- Footer -->"
  ++ tpl "<footer style=`text-align: center; padding: 20px; color: #94a3b8; font-size: 12px;`>"
  ++ tpl "<p style=`margin: 0;`>CreatorPulse · " ++ today
  ++ lit "</p></footer></div>".

Definition create_html_newsletter_v3 (today : str)
    (title_text topic tone intro : str) (article_summaries : list str)
    (conclusion : str)
    (rss_articles twitter_posts youtube_videos : list Article)
    (trends : list Trend) : str :=
  html_document title_text topic today intro
    (trends_section trends)
    (articles_section rss_articles article_summaries)
    (twitter_section twitter_posts)
    (youtube_section youtube_videos)
    conclusion.

Definition create_template_only_newsletter (today : str)
    (title_text topic tone : str)
    (rss_articles twitter_posts youtube_videos : list Article)
    (trends : list Trend) : str :=
  let intro :=
    lit "Welcome to " ++ title_text ++ lit "! Today we're covering "
    ++ str_of_nat (length rss_articles) ++ lit " articles" in
  let intro :=
    match twitter_posts with
    | _ :: _ => intro ++ lit ", " ++ str_of_nat (length twitter_posts) ++ lit " tweets"
    | [] => intro
    end in
  let intro :=
    match youtube_videos with
    | _ :: _ => intro ++ lit ", and " ++ str_of_nat (length youtube_videos) ++ lit " videos"
    | [] => intro
    end in
  let intro := intro ++ lit " in " ++ topic ++ lit "." in
  let conclusion :=
    lit "Thanks for reading! Stay tuned for more " ++ topic ++ lit " updates." in
  create_html_newsletter_v3 today title_text topic tone intro [] conclusion
    rss_articles twitter_posts youtube_videos trends.

Definition summary_request (article : Article) (tone : str) : Llm.Request :=
  {| Llm.model := Llm.llama;
     Llm.system_content :=
       lit "You write concise, punchy newsletter summaries. No essays. Maximum 3 sentences.";
     Llm.user_content :=
       nl ++
       text_block
         [ "You are a professional newsletter editor. Write a CONCISE 2-3 sentence summary of this article.";
           EmptyString;
           "Article Title: " ]%string
       ++ title article ++ nl ++ lit "Article Text: " ++ summary article ++ nl ++
       text_block
         [ EmptyString;
           "Requirements:";
           "- Maximum 3 sentences (50-80 words total)";
           "- First sentence: What happened";
           "- Second sentence: Why it matters";
           "- Third sentence (optional): Key implication";
           "- " ]%string
       ++ tone ++
       text_block
         [ " tone";
           "- No fluff, no filler phrases";
           "- Get straight to the point";
           EmptyString;
           "Write ONLY the summary, nothing else.";
           EmptyString ]%string;
     Llm.temperature := 4 # 10;
     Llm.max_tokens := 150 |}.

Definition intro_request (combined_title trend_titles tone : str) : Llm.Request :=
  {| Llm.model := Llm.llama;
     Llm.system_content :=
       lit "You write concise newsletter intros. Maximum 75 words.";
     Llm.user_content :=
       nl ++ tpl "Write a brief 50-75 word welcome paragraph for the newsletter `"
       ++ combined_title ++ tpl "`." ++ nl ++
       text_block [ EmptyString; "Include:"; "- Quick welcome"; "- Today's focus: " ]%string
       ++ trend_titles ++ nl ++ lit "- " ++ tone ++
       text_block
         [ " tone";
           EmptyString;
           "Keep it SHORT and punchy. No lengthy explanations.";
           EmptyString ]%string;
     Llm.temperature := 5 # 10;
     Llm.max_tokens := 150 |}.

Definition conclusion_request (combined_title tone : str) : Llm.Request :=
  {| Llm.model := Llm.llama;
     Llm.system_content :=
       lit "You write brief, friendly newsletter conclusions. Maximum 3 sentences.";
     Llm.user_content :=
       nl ++ tpl "Write a brief 2-3 sentence closing for `"
       ++ combined_title ++ tpl "`." ++ nl ++
       text_block
         [ EmptyString; "Include:"; "- Thanks for reading";
           "- Invitation to stay tuned"; "- " ]%string
       ++ tone ++
       text_block [ " tone"; EmptyString; "Maximum 40 words."; EmptyString ]%string;
     Llm.temperature := 4 # 10;
     Llm.max_tokens := 80 |}.

(** The loop over [articles_to_process]: a failed call falls back on the
    first two sentences of the article's own summary. *)
Fixpoint summarize (client : Llm.Client) (tone : str)
    (articles_to_process : list Article) : Llm.M (list str) :=
  match articles_to_process with
  | [] => mret []
  | article :: rest =>
      response ← Llm.create client (summary_request article tone);
      let summary_text :=
        match response with
        | Ok content => strip content
        | Raise _ =>
            join (lit ". ") (take 2 (split_on (lit ".") (summary article)))
            ++ lit "."
        end in
      article_summaries ← summarize client tone rest;
      mret (summary_text :: article_summaries)
  end.

Definition is_rss (a : Article) : bool :=
  negb (bool_decide (source a ∈ [lit "Twitter"; lit "YouTube"])).

(** [generate_newsletter_with_ai].  [Groq(api_key=api_key)] builds the
    handle [client] and calls nothing; [user_id] is not used. *)
Definition generate_newsletter_with_ai (client : Llm.Client) (today : str)
    (articles : list Article) (trends : list Trend)
    (title_text topic tone : str) (max_articles : Z)
  : Llm.M (Result str) :=
  let combined_title :=
    if contains (lower topic) (lower title_text) then strip title_text
    else strip title_text ++ lit " " ++ strip topic in
  let rss_articles := List.filter is_rss articles in
  let twitter_posts :=
    List.filter (fun a => bool_decide (source a = lit "Twitter")) articles in
  let youtube_videos :=
    List.filter (fun a => bool_decide (source a = lit "YouTube")) articles in
  if length rss_articles <? 1 then
    mret (Ok (create_template_only_newsletter today combined_title topic tone
                rss_articles twitter_posts youtube_videos trends))
  else
    let articles_to_process := slice_to max_articles rss_articles in
    article_summaries ← summarize client tone articles_to_process;
    let trend_titles :=
      match trends with
      | _ :: _ => join (lit ", ") (map trend_title (take 3 trends))
      | [] => lit "key topics"
      end in
    intro_response ← Llm.create client (intro_request combined_title trend_titles tone);
    match intro_response with
    | Raise e => mret (Raise e)
    | Ok intro_text =>
        let intro := strip intro_text in
        conclusion_response ← Llm.create client (conclusion_request combined_title tone);
        match conclusion_response with
        | Raise e => mret (Raise e)
        | Ok conclusion_text =>
            let conclusion := strip conclusion_text in
            mret (Ok (create_html_newsletter_v3 today combined_title topic tone
                        intro article_summaries conclusion
                        articles_to_process (take 3 twitter_posts)
                        (take 3 youtube_videos) (take 5 trends)))
        end
    end.

End DraftGenerator.

(** ** The hosted backend *)

Module Supabase.

(** Rows of the tables, with the columns the code reads or writes.
    Instants are seconds on the backend's clock. *)
Record Newsletter := {
  n_id : str;
  n_user_id : str;
  n_title : str;
  n_content : str;
  n_status : str;
  n_created_at : Z;
  n_accepted_at : option Z;
  n_sent_at : option Z
}.

Record UserSource := {
  s_id : str;
  s_user_id : str;
  s_name : str;
  s_url : str;
  s_type : str;
  s_active : bool;
  s_created_at : Z
}.

Record DiffSummary (F : Type) := {
  lines_added : nat;
  lines_deleted : nat;
  original_word_count : nat;
  edited_word_count : nat;
  edit_ratio : F
}.
Arguments lines_added {F} _.
Arguments lines_deleted {F} _.
Arguments original_word_count {F} _.
Arguments edited_word_count {F} _.
Arguments edit_ratio {F} _.

Record Feedback (F : Type) := {
  fb_newsletter_id : str;
  fb_user_id : str;
  fb_reaction : str;
  fb_created_at : Z;
  fb_edit_diff : option (DiffSummary F);
  fb_was_edited : bool
}.
Arguments fb_newsletter_id {F} _.
Arguments fb_user_id {F} _.
Arguments fb_reaction {F} _.
Arguments fb_created_at {F} _.
Arguments fb_edit_diff {F} _.
Arguments fb_was_edited {F} _.

Record Metric (F : Type) := {
  m_newsletter_id : str;
  m_metric_type : str;
  m_value : F;
  m_recorded_at : Z
}.
Arguments m_newsletter_id {F} _.
Arguments m_metric_type {F} _.
Arguments m_value {F} _.
Arguments m_recorded_at {F} _.

Record ScheduledDelivery := {
  sd_user_id : str;
  sd_schedule_time : str;
  sd_timezone : str;
  sd_delivery_method : str;
  sd_telegram_chat_id : option str;
  sd_is_active : bool;
  sd_last_delivered_at : option Z
}.

(** The store.  [available] is false when a call on it raises.  Where
    the outcome depends on which call of a function raises
    ([record_feedback], [generate_and_send_newsletter]), the function
    takes the answer to each later call as an argument, and makes that
    call on [answering db answered]. *)
Record Database (F : Type) := {
  newsletters : list Newsletter;
  user_sources : list UserSource;
  newsletter_feedback : list (Feedback F);
  newsletter_metrics : list (Metric F);
  scheduled_deliveries : list ScheduledDelivery;
  available : bool
}.
Arguments newsletters {F} _.
Arguments user_sources {F} _.
Arguments newsletter_feedback {F} _.
Arguments newsletter_metrics {F} _.
Arguments scheduled_deliveries {F} _.
Arguments available {F} _.

(** *** The query builder *)

Section Query.
Context {R : Type}.

(** A chain of filters selects the rows that pass all of them. *)
Definition matches (filters : list (R -> bool)) (r : R) : bool :=
  forallb (fun f => f r) filters.

(** [.eq(column, value)] *)
Definition eq_ {V : Type} `{EqDecision V} (column : R -> V) (value : V)
  : R -> bool :=
  fun r => bool_decide (column r = value).

(** [.gte(column, value)] *)
Definition gte_ (column : R -> Z) (value : Z) : R -> bool :=
  fun r => (value <=? column r)%Z.

(** [.in_(column, values)] *)
Definition in_ {V : Type} `{EqDecision V} (column : R -> V) (values : list V)
  : R -> bool :=
  fun r => bool_decide (column r ∈ values).

(** [table.select(...).filters] *)
Definition select (filters : list (R -> bool)) (rows : list R) : list R :=
  List.filter (matches filters) rows.

(** [table.update(fields).filters]: the table afterwards, and the rows
    that were written ([response.data]). *)
Definition update (fields : R -> R) (filters : list (R -> bool))
    (rows : list R) : list R * list R :=
  (map (fun r => if matches filters r then fields r else r) rows,
   map fields (select filters rows)).

(** [table.insert(row)] *)
Definition insert (row : R) (rows : list R) : list R * list R :=
  (rows ++ [row], [row]).
End Query.

(** [.execute()] *)
Definition execute {F A : Type} (db : Database F) (a : A) : Result A :=
  if available db then Ok a else Raise (lit "backend call failed").

(** The store as a later call of the same function finds it: [answered]
    tells whether that call is answered. *)
Definition answering {F : Type} (db : Database F) (answered : bool)
  : Database F :=
  {| newsletters := newsletters db;
     user_sources := user_sources db;
     newsletter_feedback := newsletter_feedback db;
     newsletter_metrics := newsletter_metrics db;
     scheduled_deliveries := scheduled_deliveries db;
     available := answered |}.

End Supabase.

(** ** models.py *)

Module Models.
Import Supabase.

Section Models.
Context {F : Type}.

Definition set_newsletters (db : Database F) (rows : list Newsletter)
  : Database F :=
  {| newsletters := rows;
     user_sources := user_sources db;
     newsletter_feedback := newsletter_feedback db;
     newsletter_metrics := newsletter_metrics db;
     scheduled_deliveries := scheduled_deliveries db;
     available := available db |}.

Definition fetch_newsletters (db : Database F) (user_id : str)
  : list Newsletter :=
  match execute db
          (PyList.sort_desc n_created_at
             (select [eq_ n_user_id user_id] (newsletters db))) with
  | Ok data => data
  | Raise _ => []
  end.

(** [update_newsletter(newsletter_id, updates, user_id)] *)
Definition update_newsletter (db : Database F) (newsletter_id : str)
    (updates : Newsletter -> Newsletter) (user_id : str)
  : Database F * bool :=
  match execute db
          (update updates [eq_ n_id newsletter_id; eq_ n_user_id user_id]
                  (newsletters db)) with
  | Ok (rows, data) =>
      (set_newsletters db rows, negb (bool_decide (data = [])))
  | Raise _ => (db, false)
  end.

(** [delete_newsletter(newsletter_id, user_id)] *)
Definition delete_newsletter (db : Database F) (newsletter_id user_id : str)
  : Database F * bool :=
  let filters := [eq_ n_id newsletter_id; eq_ n_user_id user_id] in
  match execute db (select filters (newsletters db)) with
  | Ok data =>
      (set_newsletters db
         (List.filter (fun r => negb (matches filters r)) (newsletters db)),
       negb (bool_decide (data = [])))
  | Raise _ => (db, false)
  end.

Definition get_user_sources (db : Database F) (user_id : str)
  : list UserSource :=
  match execute db
          (PyList.sort_desc s_created_at
             (select [eq_ s_user_id user_id; eq_ s_active true]
                     (user_sources db))) with
  | Ok data => data
  | Raise _ => []
  end.

Record UserStats := {
  total_newsletters : nat;
  draft_newsletters : nat;
  published_newsletters : nat;
  total_sources : nat;
  active_sources : nat;
  last_newsletter_date : option Z
}.

Definition get_user_stats (db : Database F) (user_id : str) : UserStats :=
  let newsletters := fetch_newsletters db user_id in
  let sources := get_user_sources db user_id in
  {| total_newsletters := length newsletters;
     draft_newsletters :=
       length (List.filter
                 (fun n => bool_decide (n_status n = lit "draft")) newsletters);
     published_newsletters :=
       length (List.filter
                 (fun n => bool_decide (n_status n = lit "published")) newsletters);
     total_sources := length sources;
     active_sources := length (List.filter s_active sources);
     last_newsletter_date :=
       match newsletters with
       | n :: _ => Some (n_created_at n)
       | [] => None
       end |}.
(** The dictionary passed to [save_newsletter]; the key ["user_id"] may be
    missing. *)
Record NewsletterData := {
  nd_user_id : option str;
  nd_title : str;
  nd_content : str;
  nd_status : str;
  nd_created_at : Z
}.

(** [save_newsletter(newsletter_data)]; [new_id] is the identifier the
    backend gives the inserted row.  The result is the identifier, or
    [None]. *)
Definition save_newsletter (db : Database F) (new_id : str)
    (newsletter_data : NewsletterData) : Database F * option str :=
  match nd_user_id newsletter_data with
  | None | Some [] => (db, None)
  | Some user_id =>
      let row :=
        {| n_id := new_id;
           n_user_id := user_id;
           n_title := nd_title newsletter_data;
           n_content := nd_content newsletter_data;
           n_status := nd_status newsletter_data;
           n_created_at := nd_created_at newsletter_data;
           n_accepted_at := None;
           n_sent_at := None |} in
      match execute db (insert row (newsletters db)) with
      | Ok (rows, r :: _) => (set_newsletters db rows, Some (n_id r))
      | Ok (rows, []) => (set_newsletters db rows, None)
      | Raise _ => (db, None)
      end
  end.

(** [get_newsletter_by_id(newsletter_id, user_id)]: [.single()] raises
    unless exactly one row is selected, and the function then returns
    [None]. *)
Definition get_newsletter_by_id (db : Database F) (newsletter_id user_id : str)
  : option Newsletter :=
  match execute db
          (select [eq_ n_id newsletter_id; eq_ n_user_id user_id]
                  (newsletters db)) with
  | Ok [row] => Some row
  | Ok _ => None
  | Raise _ => None
  end.

Definition set_user_sources (db : Database F) (rows : list UserSource)
  : Database F :=
  {| newsletters := newsletters db;
     user_sources := rows;
     newsletter_feedback := newsletter_feedback db;
     newsletter_metrics := newsletter_metrics db;
     scheduled_deliveries := scheduled_deliveries db;
     available := available db |}.

(** [save_user_sources(source_data)] *)
Definition save_user_sources (db : Database F) (source_data : UserSource)
  : Database F * bool :=
  match execute db (insert source_data (user_sources db)) with
  | Ok (rows, data) =>
      (set_user_sources db rows, negb (bool_decide (data = [])))
  | Raise _ => (db, false)
  end.


End Models.

End Models.

(** ** feedback_system.py *)

Module FeedbackSystem.
Import Supabase.

Section Feedback.
Context {F : Type} `{FloatOps F}.

(** [difflib.unified_diff(a, b, lineterm='')], as a list of lines. *)
Variable unified_diff : list str -> list str -> list str.

Definition calculate_diff_summary (original edited : str) : DiffSummary F :=
  let original_lines := split_on nl original in
  let edited_lines := split_on nl edited in
  let diff := unified_diff original_lines edited_lines in
  let additions :=
    length (List.filter
              (fun line => startswith (lit "+") line
                           && negb (startswith (lit "+++") line)) diff) in
  let deletions :=
    length (List.filter
              (fun line => startswith (lit "-") line
                           && negb (startswith (lit "---") line)) diff) in
  let original_words := length (split_ws original) in
  let edited_words := length (split_ws edited) in
  {| lines_added := additions;
     lines_deleted := deletions;
     original_word_count := original_words;
     edited_word_count := edited_words;
     edit_ratio :=
       f_round 2
         (f_div (f_of_Q (Z.abs (Z.of_nat edited_words - Z.of_nat original_words) # 1))
                (f_of_nat (Nat.max original_words 1))) |}.

Definition set_feedback_and_newsletters (db : Database F)
    (fb : list (Feedback F)) (ns : list Newsletter) : Database F :=
  {| newsletters := ns;
     user_sources := user_sources db;
     newsletter_feedback := fb;
     newsletter_metrics := newsletter_metrics db;
     scheduled_deliveries := scheduled_deliveries db;
     available := available db |}.

Definition truthy (s : option str) : bool :=
  match s with
  | Some (_ :: _) => true
  | _ => false
  end.

(** [record_feedback]; [now] is the instant [datetime.now(UTC)].  The
    insert and the update of the status sit in one [try]: [available db]
    tells whether the insert is answered, [update_answered] whether the
    update is, when it is made.  An update that raises leaves the feedback
    row stored, and the function returns [False]. *)
Definition record_feedback (db : Database F) (update_answered : bool) (now : Z)
    (newsletter_id user_id reaction : str)
    (edited_content original_content : option str)
  : Database F * bool :=
  let feedback_data :=
    if truthy edited_content && truthy original_content then
      {| fb_newsletter_id := newsletter_id;
         fb_user_id := user_id;
         fb_reaction := reaction;
         fb_created_at := now;
         fb_edit_diff :=
           Some (calculate_diff_summary (default [] original_content)
                                        (default [] edited_content));
         fb_was_edited := true |}
    else
      {| fb_newsletter_id := newsletter_id;
         fb_user_id := user_id;
         fb_reaction := reaction;
         fb_created_at := now;
         fb_edit_diff := None;
         fb_was_edited := false |} in
  match execute db (insert feedback_data (newsletter_feedback db)) with
  | Raise _ => (db, false)
  | Ok (feedback_rows, response_data) =>
      if bool_decide (reaction ∈ [lit "accepted"; lit "thumbs_up"]) then
        match execute (answering db update_answered)
                (update
                   (fun n =>
                      {| n_id := n_id n;
                         n_user_id := n_user_id n;
                         n_title := n_title n;
                         n_content := n_content n;
                         n_status := lit "accepted";
                         n_created_at := n_created_at n;
                         n_accepted_at := Some now;
                         n_sent_at := n_sent_at n |})
                   [eq_ n_id newsletter_id]
                   (newsletters db)) with
        | Raise _ =>
            (set_feedback_and_newsletters db feedback_rows (newsletters db),
             false)
        | Ok (newsletter_rows, _) =>
            (set_feedback_and_newsletters db feedback_rows newsletter_rows,
             negb (bool_decide (response_data = [])))
        end
      else
        (set_feedback_and_newsletters db feedback_rows (newsletters db),
         negb (bool_decide (response_data = [])))
  end.

(** The dictionary [get_engagement_analytics] returns; the early
    returns carry no ["total_sent"]. *)
Record Analytics := {
  avg_open_rate : F;
  avg_click_rate : F;
  total_sent : option nat;
  trend : str
}.

Definition no_data : Analytics :=
  {| avg_open_rate := f_of_Q 0;
     avg_click_rate := f_of_Q 0;
     total_sent := None;
     trend := lit "no_data" |}.

(** The trend computed from the list [open_rates]. *)
Definition open_rate_trend (open_rates : list F) : str :=
  if 2 <=? length open_rates then
    let recent := last_n 3 open_rates in
    let recent_avg := f_div (f_sum recent) (f_of_nat (Nat.min (length recent) 3)) in
    let older := slice_to (-3) open_rates in
    let older_avg :=
      if 3 <? length open_rates
      then f_div (f_sum older) (f_of_nat (Nat.max (length older) 1))
      else recent_avg in
    if f_ltb (f_mul older_avg (f_of_Q (11 # 10))) recent_avg then lit "improving"
    else if f_ltb recent_avg (f_mul older_avg (f_of_Q (9 # 10))) then lit "declining"
    else lit "stable"
  else lit "stable".

(** The rows the first query selects: the user's newsletters created
    since [now - days]. *)
Definition newsletters_in_window (db : Database F) (now : Z) (user_id : str)
    (days : Z) : list Newsletter :=
  let since_date := (now - days * 86400)%Z in
  select [eq_ n_user_id user_id; gte_ n_created_at since_date] (newsletters db).

(** The rows the second query selects: the metrics of these newsletters. *)
Definition metrics_of (db : Database F) (newsletter_ids : list str)
  : list (Metric F) :=
  select [in_ m_newsletter_id newsletter_ids] (newsletter_metrics db).

(** [[m['value'] for m in metrics if m['metric_type'] == metric_type]] *)
Definition rates_of (metric_type : str) (metrics : list (Metric F)) : list F :=
  map m_value
      (List.filter (fun m => bool_decide (m_metric_type m = metric_type)) metrics).

(** [round(sum(rates) / len(rates), 1) if rates else 0] *)
Definition average_rate (rates : list F) : F :=
  match rates with
  | [] => f_of_Q 0
  | _ :: _ => f_round 1 (f_div (f_sum rates) (f_of_nat (length rates)))
  end.

(** [get_engagement_analytics(user_id, days)]; [None] is the empty
    dictionary returned when a backend call raises. *)
Definition get_engagement_analytics (db : Database F) (now : Z)
    (user_id : str) (days : Z) : option Analytics :=
  match execute db (newsletters_in_window db now user_id days) with
  | Raise _ => None
  | Ok [] => Some no_data
  | Ok newsletters_data =>
      let newsletter_ids := map n_id newsletters_data in
      match execute db (metrics_of db newsletter_ids) with
      | Raise _ => None
      | Ok [] => Some no_data
      | Ok metrics =>
          let open_rates := rates_of (lit "open_rate") metrics in
          let click_rates := rates_of (lit "click_rate") metrics in
          Some {| avg_open_rate := average_rate open_rates;
                  avg_click_rate := average_rate click_rates;
                  total_sent := Some (length newsletter_ids);
                  trend := open_rate_trend open_rates |}
      end
  end.

(** The dictionary [get_feedback_stats] returns; the early return carries no
    ["avg_review_time"]. *)
Record FeedbackStats := {
  fs_total_newsletters : nat;
  fs_acceptance_rate : F;
  fs_avg_edit_ratio : F;
  fs_thumbs_up : nat;
  fs_thumbs_down : nat;
  fs_avg_review_time : option str
}.

(** The rows the query of [get_feedback_stats] selects. *)
Definition feedback_in_window (db : Database F) (now : Z) (user_id : str)
    (days : Z) : list (Feedback F) :=
  let since_date := (now - days * 86400)%Z in
  select [eq_ fb_user_id user_id; gte_ fb_created_at since_date]
         (newsletter_feedback db).

Definition count_reactions (reactions : list str) (feedbacks : list (Feedback F))
  : nat :=
  length (List.filter (fun f => bool_decide (fb_reaction f ∈ reactions)) feedbacks).

(** [get_feedback_stats(user_id, days)]; [None] is the empty dictionary
    returned when the backend call raises. *)
Definition get_feedback_stats (db : Database F) (now : Z) (user_id : str)
    (days : Z) : option FeedbackStats :=
  match execute db (feedback_in_window db now user_id days) with
  | Raise _ => None
  | Ok [] =>
      Some {| fs_total_newsletters := 0;
              fs_acceptance_rate := f_of_Q 0;
              fs_avg_edit_ratio := f_of_Q 0;
              fs_thumbs_up := 0;
              fs_thumbs_down := 0;
              fs_avg_review_time := None |}
  | Ok feedbacks =>
      let total := length feedbacks in
      let accepted := count_reactions [lit "accepted"; lit "thumbs_up"] feedbacks in
      let thumbs_up := count_reactions [lit "thumbs_up"] feedbacks in
      let thumbs_down := count_reactions [lit "thumbs_down"] feedbacks in
      let edit_ratios :=
        omap (fun f => if fb_was_edited f
                       then edit_ratio <$> fb_edit_diff f else None)
             feedbacks in
      let avg_edit_ratio :=
        match edit_ratios with
        | [] => f_of_Q 0
        | _ :: _ =>
            f_round 2 (f_div (f_sum edit_ratios) (f_of_nat (length edit_ratios)))
        end in
      Some {| fs_total_newsletters := total;
              fs_acceptance_rate :=
                if 0 <? total
                then f_round 1 (f_mul (f_div (f_of_nat accepted) (f_of_nat total))
                                      (f_of_Q 100))
                else f_of_Q 0;
              fs_avg_edit_ratio := avg_edit_ratio;
              fs_thumbs_up := thumbs_up;
              fs_thumbs_down := thumbs_down;
              fs_avg_review_time := Some (lit "< 20 min") |}
  end.

Definition set_newsletter_metrics (db : Database F) (rows : list (Metric F))
  : Database F :=
  {| newsletters := newsletters db;
     user_sources := user_sources db;
     newsletter_feedback := newsletter_feedback db;
     newsletter_metrics := rows;
     scheduled_deliveries := scheduled_deliveries db;
     available := available db |}.

(** [track_engagement_metrics(newsletter_id, metric_type, value)]; [now]
    is the instant of the call. *)
Definition track_engagement_metrics (db : Database F) (now : Z)
    (newsletter_id metric_type : str) (value : F) : Database F * bool :=
  let metric_data :=
    {| m_newsletter_id := newsletter_id;
       m_metric_type := metric_type;
       m_value := value;
       m_recorded_at := now |} in
  match execute db (insert metric_data (newsletter_metrics db)) with
  | Ok (rows, data) =>
      (set_newsletter_metrics db rows, negb (bool_decide (data = [])))
  | Raise _ => (db, false)
  end.
End Feedback.

End FeedbackSystem.

(** ** feedback_system.py: review timers and edit history *)

Module ReviewTracking.
Import Supabase.

Record ReviewTimer (F : Type) := {
  rt_id : str;
  rt_newsletter_id : str;
  rt_user_id : str;
  rt_started_at : Z;
  rt_ended_at : option Z;
  rt_duration_minutes : option F;
  rt_action : option str;
  rt_status : str
}.
Arguments rt_id {F} _.
Arguments rt_newsletter_id {F} _.
Arguments rt_user_id {F} _.
Arguments rt_started_at {F} _.
Arguments rt_ended_at {F} _.
Arguments rt_duration_minutes {F} _.
Arguments rt_action {F} _.
Arguments rt_status {F} _.

(** The column [edit_metrics]: a dictionary, with or without the key
    ["edit_ratio"], or something else. *)
Inductive MetricsJson (F : Type) :=
| NotADict
| Dict (ratio : option F).
Arguments NotADict {F}.
Arguments Dict {F} ratio.

Record EditRecord (F : Type) := {
  eh_newsletter_id : str;
  eh_user_id : str;
  eh_edit_metrics : MetricsJson F;
  eh_created_at : Z
}.
Arguments eh_newsletter_id {F} _.
Arguments eh_user_id {F} _.
Arguments eh_edit_metrics {F} _.
Arguments eh_created_at {F} _.

(** The tables [review_timers] and [edit_history]; [reachable] is false
    when a call on them raises. *)
Record Tables (F : Type) := {
  review_timers : list (ReviewTimer F);
  edit_history : list (EditRecord F);
  reachable : bool
}.
Arguments review_timers {F} _.
Arguments edit_history {F} _.
Arguments reachable {F} _.

Section Tracking.
Context {F : Type} `{FloatOps F}.

Definition run {A : Type} (t : Tables F) (a : A) : Result A :=
  if reachable t then Ok a else Raise (lit "backend call failed").

Definition set_review_timers (t : Tables F) (rows : list (ReviewTimer F))
  : Tables F :=
  {| review_timers := rows;
     edit_history := edit_history t;
     reachable := reachable t |}.

(** The update of [start_review_timer]: a fresh start, status active. *)
Definition restart (now : Z) (r : ReviewTimer F) : ReviewTimer F :=
  {| rt_id := rt_id r;
     rt_newsletter_id := rt_newsletter_id r;
     rt_user_id := rt_user_id r;
     rt_started_at := now;
     rt_ended_at := rt_ended_at r;
     rt_duration_minutes := rt_duration_minutes r;
     rt_action := rt_action r;
     rt_status := lit "active" |}.

(** The row [timer_data] of [start_review_timer], with the identifier the
    backend gives it. *)
Definition new_timer (now : Z) (new_id newsletter_id user_id : str)
  : ReviewTimer F :=
  {| rt_id := new_id;
     rt_newsletter_id := newsletter_id;
     rt_user_id := user_id;
     rt_started_at := now;
     rt_ended_at := None;
     rt_duration_minutes := None;
     rt_action := None;
     rt_status := lit "active" |}.

(** [start_review_timer(newsletter_id, user_id)]; [now] is the instant
    written to the row and [new_id] the identifier the backend gives an
    inserted row. *)
Definition start_review_timer (t : Tables F) (now : Z) (new_id : str)
    (newsletter_id user_id : str) : Tables F * bool :=
  let timer_data := new_timer now new_id newsletter_id user_id in
  let pair := [eq_ rt_newsletter_id newsletter_id; eq_ rt_user_id user_id] in
  match run t (select pair (review_timers t)) with
  | Raise _ => (t, false)
  | Ok (_ :: _) =>
      (set_review_timers t (fst (update (restart now) pair (review_timers t))),
       true)
  | Ok [] =>
      (set_review_timers t (fst (insert timer_data (review_timers t))), true)
  end.

(** [round((ended_at - started_at).total_seconds() / 60, 2)]; the instants
    of the timers are microseconds on the clock. *)
Definition minutes_between (started_at ended_at : Z) : F :=
  f_round 2 (f_div (f_of_Q ((ended_at - started_at) # 1000000)) (f_of_Q 60)).

(** The update of [stop_review_timer]. *)
Definition complete (ended_at : Z) (duration : F) (action : str)
    (r : ReviewTimer F) : ReviewTimer F :=
  {| rt_id := rt_id r;
     rt_newsletter_id := rt_newsletter_id r;
     rt_user_id := rt_user_id r;
     rt_started_at := rt_started_at r;
     rt_ended_at := Some ended_at;
     rt_duration_minutes := Some duration;
     rt_action := Some action;
     rt_status := lit "completed" |}.

(** [stop_review_timer(newsletter_id, user_id, action)]: the duration in
    minutes, or [None]. *)
Definition stop_review_timer (t : Tables F) (now : Z)
    (newsletter_id user_id action : str) : Tables F * option F :=
  match run t
          (select [eq_ rt_newsletter_id newsletter_id; eq_ rt_user_id user_id;
                   eq_ rt_status (lit "active")]
                  (review_timers t)) with
  | Raise _ => (t, None)
  | Ok [] => (t, None)
  | Ok (timer :: _) =>
      let duration_minutes := minutes_between (rt_started_at timer) now in
      (set_review_timers t
         (fst (update (complete now duration_minutes action)
                      [eq_ rt_id (rt_id timer)] (review_timers t))),
       Some duration_minutes)
  end.

(** The dictionary [get_edit_patterns] returns. *)
Record EditPatterns := {
  total_edits : nat;
  avg_edit_ratio : F;
  improvement_trend : str
}.

Definition no_edit_data : EditPatterns :=
  {| total_edits := 0; avg_edit_ratio := f_of_Q 0;
     improvement_trend := lit "no_data" |}.

(** The rows the query of [get_edit_patterns] selects. *)
Definition edits_in_window (t : Tables F) (now : Z) (user_id : str) (days : Z)
  : list (EditRecord F) :=
  let since_date := (now - days * 86400)%Z in
  select [eq_ eh_user_id user_id; gte_ eh_created_at since_date]
         (edit_history t).

(** [[e['edit_metrics'].get('edit_ratio', 0) for e in edits
      if isinstance(e.get('edit_metrics'), dict)]] *)
Definition edit_ratios_of (edits : list (EditRecord F)) : list F :=
  omap (fun e => match eh_edit_metrics e with
                 | Dict ratio => Some (default (f_of_Q 0) ratio)
                 | NotADict => None
                 end) edits.

(** The trend computed from the list [edit_ratios]. *)
Definition edit_trend (edit_ratios : list F) : str :=
  if 5 <=? length edit_ratios then
    let recent_avg := f_div (f_sum (last_n 3 edit_ratios)) (f_of_Q 3) in
    let older := slice_to (-3) edit_ratios in
    let older_avg := f_div (f_sum older) (f_of_nat (length older)) in
    if f_ltb recent_avg (f_mul older_avg (f_of_Q (9 # 10))) then lit "improving"
    else if f_ltb (f_mul older_avg (f_of_Q (11 # 10))) recent_avg then lit "declining"
    else lit "stable"
  else lit "insufficient_data".

(** [get_edit_patterns(user_id, days)]; [None] is the empty dictionary
    returned when the backend call raises. *)
Definition get_edit_patterns (t : Tables F) (now : Z) (user_id : str)
    (days : Z) : option EditPatterns :=
  match run t (edits_in_window t now user_id days) with
  | Raise _ => None
  | Ok [] => Some no_edit_data
  | Ok edits =>
      match edit_ratios_of edits with
      | [] => Some no_edit_data
      | edit_ratios =>
          let avg_ratio :=
            f_div (f_sum edit_ratios) (f_of_nat (length edit_ratios)) in
          Some {| total_edits := length edits;
                  avg_edit_ratio := f_round 3 avg_ratio;
                  improvement_trend := edit_trend edit_ratios |}
      end
  end.
End Tracking.

End ReviewTracking.

(** ** style_trainer.py *)

Module StyleTrainer.

(** A pattern of [tone_patterns]: a literal, with [\b] before or after
    it. *)
Record Pattern := {
  lead_b : bool;
  literal : str;
  trail_b : bool
}.

Definition pat (b1 : bool) (s : string) (b2 : bool) : Pattern :=
  {| lead_b := b1; literal := lit s; trail_b := b2 |}.

Definition tone_patterns : list (str * list Pattern) :=
  [ (lit "casual",
     [ pat true "you" true; pat true "your" true; pat false "let's" false;
       pat true "guy" false; pat true "folks" true; pat true "hey" true ]);
    (lit "professional",
     [ pat true "moreover" true; pat true "therefore" true;
       pat true "however" true; pat true "furthermore" true ]);
    (lit "enthusiastic",
     [ pat false "!" false; pat true "amazing" true; pat true "exciting" true;
       pat true "incredible" true; pat true "love" true ]);
    (lit "analytical",
     [ pat true "data" true; pat true "analysis" true; pat true "research" true;
       pat true "study" true; pat true "shows" true ]) ]%string.

(** [\b] between two neighbours: one is a [\w] character, the other is
    not (or is missing). *)
Definition boundary (before after : option ascii) : bool :=
  xorb (from_option is_word false before) (from_option is_word false after).

(** Does the pattern match at the start of [s], [prev] being the
    character before it? *)
Definition match_at (p : Pattern) (prev : option ascii) (s : str) : bool :=
  (if lead_b p then boundary prev (head s) else true)
  && startswith (literal p) s
  && (if trail_b p
      then boundary (last (literal p)) (head (drop (length (literal p)) s))
      else true).

(** [len(re.findall(pattern, text))]: the matches from left to right,
    each search resuming where the last match ended. *)
Fixpoint findall_count_go (p : Pattern) (prev : option ascii) (skip : nat)
    (s : str) : nat :=
  match s with
  | [] => 0
  | c :: s' =>
      match skip with
      | S k => findall_count_go p (Some c) k s'
      | O =>
          if match_at p prev s
          then S (findall_count_go p (Some c) (length (literal p) - 1) s')
          else findall_count_go p (Some c) 0 s'
      end
  end.

Definition findall_count (p : Pattern) (text : str) : nat :=
  findall_count_go p None 0 text.

(** [max(d, key=d.get)] on a dictionary in insertion order: the first
    key whose value is the greatest. *)
Definition max_key (d : list (str * nat)) : option str :=
  match d with
  | [] => None
  | kv :: rest =>
      Some (fst (fold_left
                   (fun best kv' => if snd best <? snd kv' then kv' else best)
                   rest kv))
  end.

Record ToneIndicators := {
  dominant_tone : str;
  scores : list (str * nat)
}.

Definition tone_scores_of (text_lower : str) : list (str * nat) :=
  map (fun '(tone, patterns) =>
         (tone, list_sum (map (fun p => findall_count p text_lower) patterns)))
      tone_patterns.

Definition detect_tone_indicators (text : str) : ToneIndicators :=
  let text_lower := lower text in
  let tone_scores := tone_scores_of text_lower in
  match max_key tone_scores with
  | Some dominant => {| dominant_tone := dominant; scores := tone_scores |}
  | None => {| dominant_tone := lit "neutral"; scores := [] |}
  end.

(** *** The style profile *)

(** [re.split(r'[.!?]+', text)]: the pieces between the maximal runs of
    ['.'], ['!'] and ['?'], the empty pieces at both ends included. *)
Definition is_sentence_end (c : ascii) : bool :=
  bool_decide (c ∈ ["."%char; "!"%char; "?"%char]).

Fixpoint split_sentences_go (cur : str) (in_sep : bool) (s : str) : list str :=
  match s with
  | [] => [cur]
  | c :: s' =>
      if is_sentence_end c
      then (if in_sep then split_sentences_go [] true s'
            else cur :: split_sentences_go [] true s')
      else split_sentences_go (cur ++ [c]) false s'
  end.

Definition split_sentences (text : str) : list str :=
  split_sentences_go [] false text.

(** [[s.strip() for s in pieces if s.strip()]] *)
Definition stripped_nonempty (pieces : list str) : list str :=
  List.filter (fun s => negb (bool_decide (s = []))) (map strip pieces).

(** [re.findall(r'\b\w+\b', text.lower())]: the maximal runs of word
    characters. *)
Definition words_of (text : str) : list str :=
  ContentAggregator.word_runs_go [] (lower text).

(** The phrases of [n] consecutive words, joined by a space. *)
Definition bigrams (words : list str) : list str :=
  zip_with (fun a b => a ++ lit " " ++ b) words (drop 1 words).

Definition trigrams (words : list str) : list str :=
  zip_with (fun ab c => ab ++ lit " " ++ c) (bigrams words) (drop 2 words).

Definition stop_phrases : list str := map lit
  [ "of the"; "in the"; "to the"; "on the"; "for the"; "and the"; "is a";
    "to be" ]%string.

(** The dictionary [filtered_phrases] of [extract_common_phrases]. *)
Definition filtered_phrases (text : str) : list (str * nat) :=
  let words := words_of text in
  let all_phrases := bigrams words ++ trigrams words in
  let phrase_counts := ContentAggregator.Counter all_phrases in
  List.filter (fun pc => negb (bool_decide (fst pc ∈ stop_phrases))
                         && (1 <? snd pc))
              phrase_counts.

(** [extract_common_phrases(text, top_n)] *)
Definition extract_common_phrases (text : str) (top_n : Z) : list str :=
  map fst
      (slice_to top_n
         (PyList.sort_desc ContentAggregator.count_key (filtered_phrases text))).

(** The starter of a sentence: its first two words, when it has two. *)
Definition starter_of (sentence : str) : option str :=
  let sentence := strip sentence in
  match sentence with
  | [] => None
  | _ :: _ =>
      let words := take 3 (split_ws sentence) in
      if 2 <=? length words then Some (join (lit " ") (take 2 words))
      else None
  end.

(** [extract_sentence_starters(newsletters, top_n)] *)
Definition extract_sentence_starters (newsletters : list str) (top_n : Z)
  : list str :=
  let starters :=
    flat_map (fun newsletter => omap starter_of (split_sentences newsletter))
             newsletters in
  map fst (ContentAggregator.most_common top_n
             (ContentAggregator.Counter starters)).

(** The advice [generate_style_prompt] has for each tone and structure. *)
Definition tone_guidance : list (str * str) :=
  [ (lit "casual",
     lit "Write in a friendly, conversational tone. Use 'you' and casual language.");
    (lit "professional",
     lit "Write in a professional, business-appropriate tone. Use formal language.");
    (lit "enthusiastic",
     lit "Write with enthusiasm and energy. Use exclamation points sparingly but show excitement.");
    (lit "analytical",
     lit "Write in an analytical, data-driven tone. Focus on facts and insights.") ].

Definition structure_guidance : list (str * str) :=
  [ (lit "short_punchy",
     lit "Keep paragraphs brief (1-2 sentences). Make it scannable.");
    (lit "medium_balanced",
     lit "Use balanced paragraphs (3-4 sentences). Mix short and medium lengths.");
    (lit "long_detailed",
     lit "Write detailed paragraphs when needed. Dive deep into topics.") ].

(** [d.get(key, default)] for a dictionary given as a list. *)
Definition get_or (d : list (str * str)) (key default_value : str) : str :=
  match List.find (fun kv => bool_decide (fst kv = key)) d with
  | Some kv => snd kv
  | None => default_value
  end.

Section Profile.
Context {F : Type} `{FloatOps F}.

(** [calculate_avg_sentence_length(text)] *)
Definition calculate_avg_sentence_length (text : str) : F :=
  let sentences := stripped_nonempty (split_sentences text) in
  match sentences with
  | [] => f_of_Q 0
  | _ :: _ =>
      let word_counts := map (fun s => length (split_ws s)) sentences in
      f_round 1 (f_div (f_of_nat (list_sum word_counts))
                       (f_of_nat (length word_counts)))
  end.

(** [calculate_vocabulary_richness(text)] *)
Definition calculate_vocabulary_richness (text : str) : F :=
  let words := words_of text in
  match words with
  | [] => f_of_Q 0
  | _ :: _ =>
      let unique_words := length (remove_dups words) in
      let total_words := length words in
      f_round 2 (f_div (f_of_nat unique_words) (f_of_nat total_words))
  end.

(** The dictionary [analyze_punctuation] returns: for each mark its count
    and its count per sentence.  The first text counted for ["em_dash"]
    holds a code point outside the range embedded here and occurs in no
    embedded text. *)
Definition punctuation_counts (text : str) : list (str * nat) :=
  [ (lit "exclamation", count_sub (lit "!") text);
    (lit "question", count_sub (lit "?") text);
    (lit "em_dash", 0 + count_sub (lit "--") text);
    (lit "ellipsis", count_sub (lit "...") text);
    (lit "semicolon", count_sub (lit ";") text);
    (lit "colon", count_sub (lit ":") text) ].

Record Punctuation := {
  counts : list (str * nat);
  avg_per_sentence : list (str * F)
}.

Definition analyze_punctuation (text : str) : Punctuation :=
  let total_sentences := length (split_sentences text) in
  {| counts := punctuation_counts text;
     avg_per_sentence :=
       map (fun kv =>
              (fst kv,
               f_round 2 (f_div (f_of_nat (snd kv))
                                (f_of_nat (Nat.max total_sentences 1)))))
           (punctuation_counts text) |}.

(** The dictionary [analyze_paragraph_structure] returns.  The average
    is a quotient of two counts, so a number: [avg_length <= 2] is then
    [not (2 < avg_length)]. *)
Record ParagraphStructure := {
  avg_sentences_per_paragraph : F;
  typical_structure : str
}.

Definition analyze_paragraph_structure (newsletters : list str)
  : ParagraphStructure :=
  let paragraph_lengths :=
    flat_map
      (fun newsletter =>
         map (fun para => length (stripped_nonempty (split_sentences para)))
             (stripped_nonempty (split_on (nl ++ nl) newsletter)))
      newsletters in
  match paragraph_lengths with
  | [] => {| avg_sentences_per_paragraph := f_of_Q 0;
             typical_structure := lit "unknown" |}
  | _ :: _ =>
      let avg_length :=
        f_div (f_of_nat (list_sum paragraph_lengths))
              (f_of_nat (length paragraph_lengths)) in
      let structure :=
        if negb (f_ltb (f_of_Q 2) avg_length) then lit "short_punchy"
        else if negb (f_ltb (f_of_Q 4) avg_length) then lit "medium_balanced"
        else lit "long_detailed" in
      {| avg_sentences_per_paragraph := f_round 1 avg_length;
         typical_structure := structure |}
  end.

(** The dictionary [style_profile]. *)
Record StyleProfile := {
  avg_sentence_length : F;
  vocabulary_richness : F;
  tone_indicators : ToneIndicators;
  common_phrases : list str;
  sentence_starters : list str;
  punctuation_style : Punctuation;
  paragraph_structure : ParagraphStructure;
  sample_count : nat;
  total_word_count : nat
}.

(** What [analyze_writing_style] returns: the dictionary with the status
    ["insufficient_data"], or a profile. *)
Inductive StyleAnalysis :=
| InsufficientData (message : str)
| Profile (style_profile : StyleProfile).

(** [analyze_writing_style(past_newsletters)] *)
Definition analyze_writing_style (past_newsletters : list str) : StyleAnalysis :=
  if length past_newsletters <? 3 then
    InsufficientData
      (lit "Please provide at least 3 past newsletters for style analysis")
  else
    let combined_text := join (lit " ") past_newsletters in
    Profile
      {| avg_sentence_length := calculate_avg_sentence_length combined_text;
         vocabulary_richness := calculate_vocabulary_richness combined_text;
         tone_indicators := detect_tone_indicators combined_text;
         common_phrases := extract_common_phrases combined_text 10;
         sentence_starters := extract_sentence_starters past_newsletters 10;
         punctuation_style := analyze_punctuation combined_text;
         paragraph_structure := analyze_paragraph_structure past_newsletters;
         sample_count := length past_newsletters;
         total_word_count := length (split_ws combined_text) |}.

(** [generate_style_prompt(style_profile)] *)
Definition generate_style_prompt (analysis : StyleAnalysis) : str :=
  match analysis with
  | InsufficientData _ => []
  | Profile style_profile =>
      let tone := dominant_tone (tone_indicators style_profile) in
      let structure :=
        typical_structure (paragraph_structure style_profile) in
      let tone_part :=
        get_or tone_guidance tone (lit "Write in a clear, engaging tone.") in
      let length_part :=
        if f_ltb (avg_sentence_length style_profile) (f_of_Q 12)
        then lit "Keep sentences short and punchy (under 15 words)."
        else if f_ltb (avg_sentence_length style_profile) (f_of_Q 20)
        then lit "Use medium-length sentences (15-20 words) for readability."
        else lit "Use detailed, comprehensive sentences when appropriate." in
      let structure_part :=
        get_or structure_guidance structure
               (lit "Use balanced paragraph structure.") in
      let phrase_part :=
        match common_phrases style_profile with
        | [] => []
        | _ :: _ =>
            let top_phrases := take 3 (common_phrases style_profile) in
            [lit "Consider using phrases like: "
             ++ join (lit ", ") top_phrases ++ lit "."]
        end in
      join (lit " ") ([tone_part; length_part; structure_part] ++ phrase_part)
  end.
End Profile.

End StyleTrainer.

(** ** scheduler_service.py and the scheduler thread of app.py *)

Module Scheduler.
Import Supabase.

(** What a tick of a scheduler does with a row: it compares the row's
    time with the clock, and it starts generation and delivery for the
    row's user. *)
Inductive Event :=
| TimeCompared (row : ScheduledDelivery) (current_time : str)
| GenerateAndSend (user_id : str) (row : ScheduledDelivery).

(** The events of one row in a tick at [current_time]. *)
Definition tick_events (current_time : str) (row : ScheduledDelivery) : list Event :=
  TimeCompared row current_time ::
  (if bool_decide (take 5 (sd_schedule_time row) = current_time)
   then [GenerateAndSend (sd_user_id row) row] else []).

Section Tick.
Context {F : Type}.

(** [scheduler_service.check_and_send_scheduled_newsletters];
    [current_time] is [datetime.now().strftime('%H:%M')]. *)
Definition check_and_send_scheduled_newsletters (db : Database F)
    (current_time : str) : list Event :=
  match execute db
          (select [eq_ sd_is_active true] (scheduled_deliveries db)) with
  | Raise _ => []
  | Ok [] => []
  | Ok schedules =>
      flat_map
        (fun schedule_data =>
           let user_id := sd_user_id schedule_data in
           let schedule_time := take 5 (sd_schedule_time schedule_data) in
           TimeCompared schedule_data current_time ::
           (if bool_decide (schedule_time = current_time)
            then [GenerateAndSend user_id schedule_data]
            else []))
        schedules
  end.

(** [check_and_send_scheduled] of [app.background_scheduler]: the body
    run when the times match (generate, save, deliver) is the event
    [GenerateAndSend]. *)
Definition check_and_send_scheduled (db : Database F)
    (current_time : str) : list Event :=
  match execute db
          (select [eq_ sd_is_active true] (scheduled_deliveries db)) with
  | Raise _ => []
  | Ok [] => []
  | Ok data =>
      flat_map
        (fun schedule_data =>
           let schedule_time := take 5 (sd_schedule_time schedule_data) in
           TimeCompared schedule_data current_time ::
           (if bool_decide (schedule_time = current_time)
            then [GenerateAndSend (sd_user_id schedule_data) schedule_data]
            else []))
        data
  end.
End Tick.

(** *** Generation and delivery for one user *)

(** A row of the table [users]. *)
Record User := {
  u_id : str;
  u_email : str
}.

(** A message handed to the mail server. *)
Record Email := {
  recipient_email : str;
  subject : str;
  html_content : str
}.

(** What [generate_and_send_newsletter] can change: the store, the log of
    the requests to the completion service, and the messages that
    [send_newsletter_email] reported as sent. *)
Record World (F : Type) := {
  w_db : Database F;
  w_requests : list Llm.Request;
  w_outbox : list Email
}.
Arguments w_db {F} _.
Arguments w_requests {F} _.
Arguments w_outbox {F} _.

(** Whether the backend answers each call that
    [generate_and_send_newsletter] makes after the lookup of the user: the
    select of [get_user_sources], the insert of [save_newsletter], the
    update of the schedules and the update of [update_newsletter].  The
    lookup of the user reads the flag of the store itself. *)
Record Answers := {
  sources_answered : bool;
  save_answered : bool;
  schedule_answered : bool;
  status_answered : bool
}.

Section Delivery.
Context {F : Type}.
(** The table [users]. *)
Variable users : list User.
(** The feeds, the date parser and the clock of [parse_multiple_feeds]. *)
Variable fetch : nat -> str -> Result ContentAggregator.Feed.
Variable strptime : str -> option Z.
Variable clock : nat -> Z.
(** [os.getenv("GROQ_API_KEY")] *)
Variable groq_api_key : option str.
Variable client : Llm.Client.
(** [send_newsletter_email]: whether the message is sent. *)
Variable send_newsletter_email : Email -> bool.

Definition set_scheduled_deliveries (db : Database F)
    (rows : list ScheduledDelivery) : Database F :=
  {| newsletters := newsletters db;
     user_sources := user_sources db;
     newsletter_feedback := newsletter_feedback db;
     newsletter_metrics := newsletter_metrics db;
     scheduled_deliveries := rows;
     available := available db |}.

(** The update [{"last_delivered_at": now}]. *)
Definition mark_delivered (now : Z) (r : ScheduledDelivery) : ScheduledDelivery :=
  {| sd_user_id := sd_user_id r;
     sd_schedule_time := sd_schedule_time r;
     sd_timezone := sd_timezone r;
     sd_delivery_method := sd_delivery_method r;
     sd_telegram_chat_id := sd_telegram_chat_id r;
     sd_is_active := sd_is_active r;
     sd_last_delivered_at := Some now |}.

(** The update [{"status": "sent", "sent_at": now}]. *)
Definition mark_sent (now : Z) (n : Newsletter) : Newsletter :=
  {| n_id := n_id n;
     n_user_id := n_user_id n;
     n_title := n_title n;
     n_content := n_content n;
     n_status := lit "sent";
     n_created_at := n_created_at n;
     n_accepted_at := n_accepted_at n;
     n_sent_at := Some now |}.

(** [generate_and_send_newsletter(user_id, schedule_data)], which does not
    read [schedule_data].  [title_date] and [today] are the two readings
    of [datetime.now().strftime('%B %d, %Y')], for the title and for the
    document; [new_id] is the identifier the backend gives the saved row;
    [saved_at], [delivered_at] and [sent_at] are the instants written.
    Each call of the backend is answered or not on its own, as [answers]
    tells: [get_user_sources], [save_newsletter] and [update_newsletter]
    catch what their call raises, and what the update of the schedules
    raises ends the function after the message is sent.  Whatever is
    raised on the way is caught, and the function returns nothing: the
    result is the state it leaves.  The pictograph of the subject is
    carried as its UTF-8 bytes. *)
Definition generate_and_send_newsletter (w : World F) (answers : Answers)
    (user_id : str) (title_date today : str) (new_id : str)
    (saved_at delivered_at sent_at : Z)
  : World F :=
  let db := w_db w in
  match execute db (select [eq_ u_id user_id] users) with
  | Ok [user] =>
      let user_email := u_email user in
      let user_sources :=
        Models.get_user_sources (answering db (sources_answered answers))
                                user_id in
      let rss_feeds :=
        map s_url
            (List.filter
               (fun source =>
                  bool_decide (s_type source ∈ [lit "rss_feed"; lit "rss"]))
               user_sources) in
      match rss_feeds with
      | [] => w
      | _ :: _ =>
          let articles :=
            ContentAggregator.parse_multiple_feeds fetch strptime clock
              rss_feeds 5 in
          match articles with
          | [] => w
          | _ :: _ =>
              let trends := ContentAggregator.extract_trends articles 5 in
              match groq_api_key with
              | None | Some [] => w
              | Some (_ :: _) =>
                  let title_text := lit "Daily Digest - " ++ title_date in
                  let topic := lit "Technology & Innovation" in
                  let tone := lit "Professional" in
                  let '(generated, requests) :=
                    DraftGenerator.generate_newsletter_with_ai client today
                      articles trends title_text topic tone 6 (w_requests w) in
                  match generated with
                  | Raise _ =>
                      {| w_db := db; w_requests := requests;
                         w_outbox := w_outbox w |}
                  | Ok content =>
                      let newsletter_data :=
                        {| Models.nd_user_id := Some user_id;
                           Models.nd_title := title_text;
                           Models.nd_content := content;
                           Models.nd_status := lit "draft";
                           Models.nd_created_at := saved_at |} in
                      let '(saved_db, saved) :=
                        Models.save_newsletter
                          (answering db (save_answered answers))
                          new_id newsletter_data in
                      let db := answering saved_db (available db) in
                      match saved with
                      | None | Some [] =>
                          {| w_db := db; w_requests := requests;
                             w_outbox := w_outbox w |}
                      | Some saved_id =>
                          let message :=
                            {| recipient_email := user_email;
                               subject := lit "📰 " ++ title_text;
                               html_content := content |} in
                          if send_newsletter_email message then
                            match execute
                                    (answering db (schedule_answered answers))
                                    (update (mark_delivered delivered_at)
                                            [eq_ sd_user_id user_id]
                                            (scheduled_deliveries db)) with
                            | Raise _ =>
                                {| w_db := db; w_requests := requests;
                                   w_outbox := w_outbox w ++ [message] |}
                            | Ok (rows, _) =>
                                let db := set_scheduled_deliveries db rows in
                                let db :=
                                  answering
                                    (fst (Models.update_newsletter
                                            (answering db
                                               (status_answered answers))
                                            saved_id (mark_sent sent_at)
                                            user_id))
                                    (available db) in
                                {| w_db := db; w_requests := requests;
                                   w_outbox := w_outbox w ++ [message] |}
                            end
                          else
                            {| w_db := db; w_requests := requests;
                               w_outbox := w_outbox w |}
                      end
                  end
              end
          end
      end
  | _ => w
  end.
End Delivery.

End Scheduler.

(** ** email_service.py *)

Module EmailService.

(** The lines that close a Telegram message. *)
Definition telegram_footer : str :=
  nl ++ nl ++ lit "---" ++ nl ++ lit "_Powered by CreatorPulse_" ++ nl.

(** [create_telegram_summary(title, html_content, max_length)].  The
    message opens with a pictograph, one code point outside the range
    embedded here: [glyph] stands for it. *)
Definition create_telegram_summary (glyph : ascii) (title_text html_content : str)
    (max_length : Z) : str :=
  let clean_text := ContentAggregator.strip_tags html_content in
  let clean_text := strip (ContentAggregator.collapse_ws clean_text) in
  let sections := take 15 (split_on (lit ".") clean_text) in
  let summary_text := join (lit ". ") sections ++ lit "." in
  let summary_text :=
    if (max_length - 300 <? Z.of_nat (length summary_text))%Z
    then slice_to (max_length - 300) summary_text ++ lit "..."
    else summary_text in
  let message :=
    glyph :: lit " *" ++ title_text ++ lit "*" ++ nl ++ nl
    ++ summary_text ++ telegram_footer in
  take 4096 message.

End EmailService.

(** ** Concrete inputs

    The inputs at which the properties below are instantiated. *)

Module Samples.

(** A completion service that answers every request with a three-post
    thread. *)
Definition thread_client : Llm.Client :=
  fun _ _ => Ok (text_block ["1/ A hook"; "2/ An insight"; "3/ Read more"]%string).

(** *** A store with two users *)

Definition newsletter_of (id user : string) (created : Z) : Supabase.Newsletter :=
  {| Supabase.n_id := lit id;
     Supabase.n_user_id := lit user;
     Supabase.n_title := lit "Daily Digest";
     Supabase.n_content := lit "<div></div>";
     Supabase.n_status := lit "draft";
     Supabase.n_created_at := created;
     Supabase.n_accepted_at := None;
     Supabase.n_sent_at := None |}.

Definition schedule_of (user time : string) (active : bool)
  : Supabase.ScheduledDelivery :=
  {| Supabase.sd_user_id := lit user;
     Supabase.sd_schedule_time := lit time;
     Supabase.sd_timezone := lit "UTC";
     Supabase.sd_delivery_method := lit "email";
     Supabase.sd_telegram_chat_id := None;
     Supabase.sd_is_active := active;
     Supabase.sd_last_delivered_at := None |}.

(** Bob owns newsletter [n1], Alice owns [n2]; [n1] has one click-rate
    measurement and no open-rate measurement. *)
Definition store : Supabase.Database Q :=
  {| Supabase.newsletters :=
       [ newsletter_of "n1" "bob" 1000; newsletter_of "n2" "alice" 2000 ];
     Supabase.user_sources := [];
     Supabase.newsletter_feedback := [];
     Supabase.newsletter_metrics :=
       [ {| Supabase.m_newsletter_id := lit "n1";
            Supabase.m_metric_type := lit "click_rate";
            Supabase.m_value := 5 # 2;
            Supabase.m_recorded_at := 1500 |} ];
     Supabase.scheduled_deliveries :=
       [ schedule_of "bob" "08:00:00" true;
         schedule_of "alice" "08:00:00" false;
         schedule_of "carol" "09:30:00" true ];
     Supabase.available := true |}.

(** A [difflib.unified_diff] that reports no line. *)
Definition no_diff : list str -> list str -> list str := fun _ _ => [].

(** Three sentences without any of the tone markers. *)
Definition plain_text : str :=
  lit "The quarterly report is ready. Sales rose in March. The team met on Monday.".

(** A scraped post and a video, as the aggregator builds them. *)
Definition tweet : ContentAggregator.Article :=
  {| ContentAggregator.title := lit "Tweet by @rocq";
     ContentAggregator.link := lit "https://twitter.com/rocq/status/1";
     ContentAggregator.summary := lit "A new release is out";
     ContentAggregator.published := lit "January 05, 2025";
     ContentAggregator.author := lit "@rocq";
     ContentAggregator.source := lit "Twitter";
     ContentAggregator.likes := Some 12 |}.

Definition video : ContentAggregator.Article :=
  {| ContentAggregator.title := lit "Release tour";
     ContentAggregator.link := lit "https://www.youtube.com/watch?v=abc";
     ContentAggregator.summary := lit "A tour of the release";
     ContentAggregator.published := lit "January 06, 2025";
     ContentAggregator.author := lit "Rocq Channel";
     ContentAggregator.source := lit "YouTube";
     ContentAggregator.likes := None |}.

(** A completion service that raises on every request. *)
Definition failing_client : Llm.Client := fun _ _ => Raise (lit "unreachable").

(** Articles for the trends: in the first list ["blockchain"] is counted 4
    times and every other keyword once; in the second, five words of three
    letters are counted 3 times each and ["blockchain"] twice. *)
Definition article_of (title_text summary_text : string) : ContentAggregator.Article :=
  {| ContentAggregator.title := lit title_text;
     ContentAggregator.link := lit "https://example.org/post";
     ContentAggregator.summary := lit summary_text;
     ContentAggregator.published := lit "January 05, 2025";
     ContentAggregator.author := lit "Unknown";
     ContentAggregator.source := lit "Example Feed";
     ContentAggregator.likes := None |}.

Definition blockchain_articles : list ContentAggregator.Article :=
  [ article_of "Blockchain adoption grows" "Banks test blockchain";
    article_of "Why blockchain" "A blockchain primer" ].

Definition crowded_articles : list ContentAggregator.Article :=
  [ article_of "cat cat cat dog dog dog pig pig pig"
               "ant ant ant bee bee bee blockchain blockchain" ].


(** A newsletter Carol is about to save. *)
Definition carol_draft : Models.NewsletterData :=
  {| Models.nd_user_id := Some (lit "carol");
     Models.nd_title := lit "Weekly";
     Models.nd_content := lit "<div></div>";
     Models.nd_status := lit "draft";
     Models.nd_created_at := 2500 |}.

Definition source_of (id user : string) (active : bool) (created : Z)
  : Supabase.UserSource :=
  {| Supabase.s_id := lit id;
     Supabase.s_user_id := lit user;
     Supabase.s_name := lit "Feed";
     Supabase.s_url := lit "https://example.org/feed";
     Supabase.s_type := lit "rss_feed";
     Supabase.s_active := active;
     Supabase.s_created_at := created |}.

(** The store with three sources: two of Bob (one inactive), one of Alice. *)
Definition store_with_sources : Supabase.Database Q :=
  Models.set_user_sources store
    [ source_of "s1" "bob" true 10; source_of "s2" "bob" false 20;
      source_of "s3" "alice" true 30 ].


(** The store after Alice and Bob have each left a reaction. *)
Definition feedback_of (newsletter user reaction : string) (created : Z)
  : Supabase.Feedback Q :=
  {| Supabase.fb_newsletter_id := lit newsletter;
     Supabase.fb_user_id := lit user;
     Supabase.fb_reaction := lit reaction;
     Supabase.fb_created_at := created;
     Supabase.fb_edit_diff := None;
     Supabase.fb_was_edited := false |}.

Definition store_with_feedback (rows : list (Supabase.Feedback Q))
  : Supabase.Database Q :=
  FeedbackSystem.set_feedback_and_newsletters store rows
    (Supabase.newsletters store).

(** Tables with one completed timer of Alice and six edits of Bob. *)
Definition tables : ReviewTracking.Tables Q :=
  {| ReviewTracking.review_timers :=
       [ {| ReviewTracking.rt_id := lit "t1";
            ReviewTracking.rt_newsletter_id := lit "n2";
            ReviewTracking.rt_user_id := lit "alice";
            ReviewTracking.rt_started_at := 100000000;
            ReviewTracking.rt_ended_at := Some 400000000%Z;
            ReviewTracking.rt_duration_minutes := Some (5 # 1);
            ReviewTracking.rt_action := Some (lit "sent");
            ReviewTracking.rt_status := lit "completed" |} ];
     ReviewTracking.edit_history :=
       map (fun ratio =>
              {| ReviewTracking.eh_newsletter_id := lit "n1";
                 ReviewTracking.eh_user_id := lit "bob";
                 ReviewTracking.eh_edit_metrics := ReviewTracking.Dict (Some ratio);
                 ReviewTracking.eh_created_at := 2000 |})
           [4 # 10; 4 # 10; 4 # 10; 1 # 10; 1 # 10; 1 # 10];
     ReviewTracking.reachable := true |}.

(** *** A delivery *)

(** A feed with one entry, given at every address. *)
Definition feed : ContentAggregator.Feed :=
  {| ContentAggregator.feed_title := Some (lit "Example Feed");
     ContentAggregator.entries :=
       [ {| ContentAggregator.e_title := Some (lit "Release notes");
            ContentAggregator.e_link := Some (lit "https://example.org/release");
            ContentAggregator.e_summary := Some (lit "<p>A new release is out</p>");
            ContentAggregator.e_published := Some (lit "January 05, 2025");
            ContentAggregator.e_author := None |} ] |}.

Definition fetch_feed : nat -> str -> Result ContentAggregator.Feed :=
  fun _ _ => Ok feed.

(** A completion service that answers every request with one sentence. *)
Definition plain_client : Llm.Client :=
  fun _ _ => Ok (lit "A short paragraph.").

Definition subscribers : list Scheduler.User :=
  [ {| Scheduler.u_id := lit "bob"; Scheduler.u_email := lit "bob@example.org" |};
    {| Scheduler.u_id := lit "alice";
       Scheduler.u_email := lit "alice@example.org" |} ].

(** Bob has one active feed; nothing is logged or sent yet. *)
Definition world : Scheduler.World Q :=
  {| Scheduler.w_db := store_with_sources;
     Scheduler.w_requests := [];
     Scheduler.w_outbox := [] |}.

(** Three behaviours of the backend: every call is answered; the update
    of the schedules raises; the update of the status raises. *)
Definition all_answered : Scheduler.Answers :=
  {| Scheduler.sources_answered := true;
     Scheduler.save_answered := true;
     Scheduler.schedule_answered := true;
     Scheduler.status_answered := true |}.

Definition schedule_raises : Scheduler.Answers :=
  {| Scheduler.sources_answered := true;
     Scheduler.save_answered := true;
     Scheduler.schedule_answered := false;
     Scheduler.status_answered := true |}.

Definition status_raises : Scheduler.Answers :=
  {| Scheduler.sources_answered := true;
     Scheduler.save_answered := true;
     Scheduler.schedule_answered := true;
     Scheduler.status_answered := false |}.

(** The delivery for Bob in [world], with a mail server that accepts
    every message. *)
Definition deliver (answers : Scheduler.Answers) : Scheduler.World Q :=
  Scheduler.generate_and_send_newsletter subscribers fetch_feed
    (fun _ => None) (fun _ => 0%Z) (Some (lit "key")) plain_client
    (fun _ => true) world answers (lit "bob") (lit "January 07, 2025")
    (lit "January 07, 2025") (lit "n9") 3000 3001 3002.

End Samples.

(** * Properties *)

(** ** Lists *)

Section SortFacts.
Context {A : Type} (key : A -> Z).

Lemma insert_desc_perm (x : A) (l : list A) :
  PyList.insert_desc key x l ≡ₚ x :: l.
Proof.
  induction l as [|y l IH]; simpl; [done|].
  destruct (key x <? key y)%Z; [|done].
  rewrite IH. apply Permutation_swap.
Qed.

Lemma sort_desc_perm (l : list A) : PyList.sort_desc key l ≡ₚ l.
Proof.
  induction l as [|x l IH]; simpl; [done|].
  rewrite insert_desc_perm. by rewrite IH.
Qed.

Lemma insert_desc_sorted (x : A) (l : list A) :
  StronglySorted (PyList.desc key) l -> StronglySorted (PyList.desc key) (PyList.insert_desc key x l).
Proof.
  induction l as [|y l IH]; intros Hs; simpl.
  - repeat constructor.
  - apply StronglySorted_inv in Hs as [Hl Hy].
    destruct (Z.ltb_spec (key x) (key y)) as [Hlt|Hge].
    + constructor; [by apply IH|].
      rewrite insert_desc_perm. constructor; [unfold PyList.desc; lia|done].
    + constructor; [by constructor|].
      constructor; [done|].
      eapply Forall_impl; [exact Hy|]. unfold PyList.desc. intros z Hz. lia.
Qed.

Lemma sort_desc_sorted (l : list A) : StronglySorted (PyList.desc key) (PyList.sort_desc key l).
Proof.
  induction l as [|x l IH]; simpl; [constructor|].
  by apply insert_desc_sorted.
Qed.

Lemma filter_all (P : A -> bool) (l : list A) :
  Forall (fun x => P x = true) l -> List.filter P l = l.
Proof.
  induction 1 as [|x l Hx _ IH]; simpl; [done|]. by rewrite Hx, IH.
Qed.

Lemma Forall_filter_bool (P : A -> bool) (l : list A) :
  Forall (fun x => P x = true) (List.filter P l).
Proof.
  induction l as [|x l IH]; simpl; [constructor|].
  destruct (P x) eqn:E; [by constructor|done].
Qed.
End SortFacts.

(** ** models.py *)

Section ModelsFacts.
Import Supabase Models.
Context {F : Type}.

Lemma get_user_sources_active (db : Database F) (user_id : str) :
  Forall (fun s => s_active s = true /\ s_user_id s = user_id)
         (get_user_sources db user_id).
Proof.
  unfold get_user_sources, execute.
  destruct (available db); [|constructor].
  rewrite sort_desc_perm. unfold select.
  apply Forall_forall. intros s Hs.
  apply list_elem_of_In, filter_In in Hs as [_ Hs]. unfold matches in Hs. simpl in Hs.
  unfold eq_ in Hs.
  repeat (apply andb_prop in Hs as [? Hs]).
  repeat match goal with
         | E : bool_decide _ = true |- _ => apply bool_decide_eq_true in E
         end.
  done.
Qed.

(** C10: the sources [get_user_stats] re-reads through
    [get_user_sources] all have [active = true] and belong to the user, so
    the filter on the active flag drops nothing and [active_sources]
    equals [total_sources], for every store and every user. *)
Theorem get_user_stats_active_sources_eq_total (db : Database F) (user_id : str) :
  Forall (fun s => s_active s = true) (get_user_sources db user_id)
  /\ List.filter s_active (get_user_sources db user_id)
     = get_user_sources db user_id
  /\ active_sources (get_user_stats db user_id)
     = total_sources (get_user_stats db user_id).
Proof.
  assert (Hall : Forall (fun s => s_active s = true)
                        (get_user_sources db user_id)).
  { eapply Forall_impl; [apply get_user_sources_active|]. by intros s [? _]. }
  split; [done|].
  split; [by apply filter_all|].
  unfold get_user_stats. simpl. by rewrite filter_all.
Qed.
End ModelsFacts.

(** ** content_aggregator.py: deduplication *)

Section DedupFacts.
Import ContentAggregator.

Lemma dedup_fold (articles acc : list Article) (seen : gset str) :
  fst (fold_left dedup_step articles (acc, seen)) = acc ++ dedup_from seen articles.
Proof.
  revert acc seen.
  induction articles as [|a rest IH]; intros acc seen; simpl.
  - by rewrite app_nil_r.
  - destruct (decide (unique_key a ∈ seen)); [apply IH|].
    rewrite IH. by rewrite <- app_assoc.
Qed.

Lemma remove_duplicate_articles_unfold (articles : list Article) :
  remove_duplicate_articles articles = dedup_from ∅ articles.
Proof. unfold remove_duplicate_articles. by rewrite dedup_fold. Qed.

Lemma dedup_from_fresh (seen : gset str) (articles : list Article) :
  Forall (fun a => unique_key a ∉ seen) (dedup_from seen articles).
Proof.
  revert seen. induction articles as [|a rest IH]; intros seen; simpl; [done|].
  destruct (decide (unique_key a ∈ seen)) as [Hin|Hnin]; [apply IH|].
  constructor; [done|].
  eapply Forall_impl; [apply IH|]. intros b Hb. set_solver.
Qed.

Lemma dedup_from_NoDup (seen : gset str) (articles : list Article) :
  NoDup (unique_key <$> dedup_from seen articles).
Proof.
  revert seen. induction articles as [|a rest IH]; intros seen; simpl.
  - constructor.
  - destruct (decide (unique_key a ∈ seen)) as [Hin|Hnin]; [apply IH|].
    rewrite fmap_cons. constructor; [|apply IH].
    intros Hmem. apply list_elem_of_fmap in Hmem as (b & Hkey & Hb).
    pose proof (dedup_from_fresh ({[unique_key a]} ∪ seen) rest) as Hfresh.
    rewrite Forall_forall in Hfresh. specialize (Hfresh b Hb). set_solver.
Qed.

Lemma dedup_from_sublist (seen : gset str) (articles : list Article) :
  dedup_from seen articles `sublist_of` articles.
Proof.
  revert seen. induction articles as [|a rest IH]; intros seen; simpl; [done|].
  destruct (decide (unique_key a ∈ seen)).
  - by apply sublist_cons.
  - by apply sublist_skip.
Qed.

Lemma dedup_from_first (seen : gset str) (articles : list Article) (k : str) :
  k ∉ seen ->
  first_with_key k (dedup_from seen articles) = first_with_key k articles.
Proof.
  unfold first_with_key.
  revert seen. induction articles as [|a rest IH]; intros seen Hk; simpl; [done|].
  destruct (decide (unique_key a ∈ seen)) as [Hin|Hnin].
  - rewrite bool_decide_eq_false_2 by (intros <-; done). by apply IH.
  - simpl. destruct (bool_decide (unique_key a = k)) eqn:E; [done|].
    apply bool_decide_eq_false in E. apply IH. set_solver.
Qed.

Lemma dedup_from_idem (seen seen' : gset str) (articles : list Article) :
  seen ⊆ seen' ->
  dedup_from seen (dedup_from seen' articles) = dedup_from seen' articles.
Proof.
  revert seen seen'.
  induction articles as [|a rest IH]; intros seen seen' Hsub; simpl; [done|].
  destruct (decide (unique_key a ∈ seen')) as [Hin|Hnin]; [by apply IH|].
  simpl. rewrite decide_False by set_solver.
  f_equal. apply IH. set_solver.
Qed.

(** C6: [remove_duplicate_articles] is idempotent; the keys of its output
    (the link when there is one, else the cleaned title joined to the source
    by a bar) are pairwise distinct; the output keeps articles of the input
    in their order; and for every key the article kept is the first of the
    input with that key. *)
Theorem remove_duplicate_articles_idempotent_unique (L : list Article) :
  remove_duplicate_articles (remove_duplicate_articles L)
  = remove_duplicate_articles L
  /\ NoDup (unique_key <$> remove_duplicate_articles L)
  /\ remove_duplicate_articles L `sublist_of` L
  /\ (forall k, first_with_key k (remove_duplicate_articles L) = first_with_key k L)
  /\ (forall a, unique_key a =
                if bool_decide (link a = [])
                then join (lit " ")
                          (take 5 (split_ws
                                     (List.filter (fun c => is_word c || is_space c)
                                                  (lower (title a)))))
                     ++ lit "|" ++ source a
                else link a).
Proof.
  rewrite !remove_duplicate_articles_unfold.
  split; [by apply dedup_from_idem|].
  split; [apply dedup_from_NoDup|].
  split; [apply dedup_from_sublist|].
  split; [intros k; apply dedup_from_first; set_solver|].
  intros a. unfold unique_key, clean_title_for_comparison.
  by destruct (link a).
Qed.
End DedupFacts.

(** ** social_media_generator.py: the length of the posts *)

Section ThreadFacts.
Import SocialMediaGenerator.

Lemma parse_twitter_thread_length (thread_text : str) :
  length (parse_twitter_thread thread_text) <= 6.
Proof.
  unfold parse_twitter_thread.
  destruct (fold_left _ _ _) as [tweets current_tweet].
  rewrite length_take. lia.
Qed.

Lemma truncate_tweet_long (tweet : str) :
  280 < length tweet -> truncate_tweet tweet = take 277 tweet ++ lit "...".
Proof.
  intros Hlen. unfold truncate_tweet, truncate_tweet_to.
  destruct (Z.leb_spec (Z.of_nat (length tweet)) 280); [lia|].
  reflexivity.
Qed.

Lemma truncate_tweet_short (tweet : str) :
  length tweet <= 280 -> truncate_tweet tweet = tweet.
Proof.
  intros Hlen. unfold truncate_tweet, truncate_tweet_to.
  destruct (Z.leb_spec (Z.of_nat (length tweet)) 280); [done|lia].
Qed.

Lemma truncate_tweet_length (tweet : str) : length (truncate_tweet tweet) <= 280.
Proof.
  destruct (le_lt_dec (length tweet) 280) as [Hle|Hgt].
  - by rewrite truncate_tweet_short.
  - rewrite truncate_tweet_long by done.
    rewrite length_app, length_take. change (length (lit "...")) with 3. lia.
Qed.

(** C8: when the completion service answers with a text, the thread that
    [generate_twitter_thread] returns has at most 6 posts, every post has
    at most 280 characters, a parsed post of at most 280 characters is
    returned as it is, and a longer one is cut to its first 277 characters
    followed by three dots. *)
Theorem generate_twitter_thread_posts_bounded (client : Llm.Client)
    (content articles trends tone now : str) (log : list Llm.Request)
    (thread_text : str) :
  client log (twitter_request content articles trends tone) = Ok thread_text ->
  exists thread,
    generate_twitter_thread client content articles trends tone now log
    = (Ok thread, log ++ [twitter_request content articles trends tone])
    /\ posts thread = map truncate_tweet (parse_twitter_thread thread_text)
    /\ length (posts thread) <= 6
    /\ Forall (fun p => length p <= 280) (posts thread)
    /\ Forall (fun t => truncate_tweet t =
                        if 280 <? length t then take 277 t ++ lit "..." else t)
              (parse_twitter_thread thread_text).
Proof.
  intros Hanswer.
  eexists. split.
  { unfold generate_twitter_thread, Llm.create, mbind, Llm.M_bind, mret, Llm.M_ret.
    rewrite Hanswer. reflexivity. }
  simpl. split; [done|].
  split; [rewrite length_map; apply parse_twitter_thread_length|].
  split.
  - apply Forall_forall. intros p Hp.
    apply list_elem_of_fmap in Hp as (t & -> & _). apply truncate_tweet_length.
  - apply Forall_forall. intros t _.
    destruct (Nat.ltb_spec 280 (length t)).
    + by apply truncate_tweet_long.
    + by apply truncate_tweet_short.
Qed.

Lemma generate_twitter_thread_posts_bounded_witness :
  exists thread,
    generate_twitter_thread Samples.thread_client (lit "news") [] [] (lit "Casual")
                            (lit "2025-01-01T00:00:00+00:00") []
    = (Ok thread, [] ++ [twitter_request (lit "news") [] [] (lit "Casual")])
    /\ posts thread = map truncate_tweet
                          (parse_twitter_thread
                             (text_block ["1/ A hook"; "2/ An insight"; "3/ Read more"]%string))
    /\ length (posts thread) <= 6
    /\ Forall (fun p => length p <= 280) (posts thread)
    /\ Forall (fun t => truncate_tweet t =
                        if 280 <? length t then take 277 t ++ lit "..." else t)
              (parse_twitter_thread
                 (text_block ["1/ A hook"; "2/ An insight"; "3/ Read more"]%string)).
Proof.
  apply (generate_twitter_thread_posts_bounded Samples.thread_client).
  reflexivity.
Defined.
End ThreadFacts.

(** ** feedback_system.py and models.py: ownership of the rows written *)

Section OwnershipFacts.
Import Supabase Models FeedbackSystem.

(** The update of [models.update_newsletter] leaves every row of another
    user as it is, whatever the identifier passed. *)
Lemma update_newsletter_frame {F : Type} (db : Database F) (newsletter_id : str)
    (updates : Newsletter -> Newsletter) (user_id : str) :
  Forall2 (fun n n' => n_user_id n <> user_id -> n' = n)
          (newsletters db)
          (newsletters (fst (update_newsletter db newsletter_id updates user_id))).
Proof.
  unfold update_newsletter, execute, update.
  destruct (available db); simpl.
  - induction (newsletters db) as [|n ns IH]; simpl; constructor; [|done].
    intros Hn. unfold matches, eq_. simpl.
    rewrite (bool_decide_eq_false_2 (n_user_id n = user_id)) by done.
    by rewrite andb_false_r.
  - induction (newsletters db) as [|n ns IH]; constructor; done.
Qed.

(** So does the deletion of [models.delete_newsletter]: the rows of other
    users all remain. *)
Lemma delete_newsletter_frame {F : Type} (db : Database F)
    (newsletter_id user_id : str) (n : Newsletter) :
  n ∈ newsletters db -> n_user_id n <> user_id ->
  n ∈ newsletters (fst (delete_newsletter db newsletter_id user_id)).
Proof.
  intros Hin Hn. unfold delete_newsletter, execute.
  destruct (available db); simpl; [|done].
  apply list_elem_of_In, filter_In. split; [by apply list_elem_of_In|].
  unfold matches, eq_. simpl.
  rewrite (bool_decide_eq_false_2 (n_user_id n = user_id)) by done.
  by rewrite andb_false_r.
Qed.

(** C1, at the failing input: Alice reacts with a thumbs-up to the
    identifier of Bob's newsletter, and the backend answers both calls.
    [record_feedback] reports success and
    Bob's row now has the status ["accepted"], whereas
    [models.update_newsletter], called with the same identifier and user,
    writes nothing. *)
Theorem record_feedback_writes_other_users_newsletter :
  let '(db', ok) :=
    record_feedback Samples.no_diff Samples.store true 3000
                    (lit "n1") (lit "alice") (lit "thumbs_up") None None in
  ok = true
  /\ map (fun n => (n_id n, n_user_id n, n_status n)) (newsletters db')
     = [ (lit "n1", lit "bob", lit "accepted");
         (lit "n2", lit "alice", lit "draft") ]
  /\ map (fun n => (n_id n, n_user_id n, n_status n))
         (newsletters Samples.store)
     = [ (lit "n1", lit "bob", lit "draft");
         (lit "n2", lit "alice", lit "draft") ]
  /\ update_newsletter Samples.store (lit "n1")
       (fun n => Samples.newsletter_of "n1" "bob" 1000) (lit "alice")
     = (Samples.store, false).
Proof. vm_compute. repeat split. Qed.
End OwnershipFacts.

(** ** feedback_system.py: the engagement trend *)

Section TrendFacts.
Import Supabase FeedbackSystem.
Context {F : Type} `{FloatOps F}.

Lemma open_rate_trend_few (open_rates : list F) :
  length open_rates < 2 -> open_rate_trend open_rates = lit "stable".
Proof.
  intros Hlen. unfold open_rate_trend.
  destruct (Nat.leb_spec 2 (length open_rates)); [lia|done].
Qed.

Lemma open_rate_trend_labels (open_rates : list F) :
  open_rate_trend open_rates = lit "stable"
  \/ (2 <= length open_rates
      /\ (open_rate_trend open_rates = lit "improving"
          \/ open_rate_trend open_rates = lit "declining")).
Proof.
  unfold open_rate_trend.
  destruct (Nat.leb_spec 2 (length open_rates)) as [Hge|Hlt]; [|by left].
  destruct (f_ltb _ _); [right; split; [done|by left]|].
  destruct (f_ltb _ _); [right; split; [done|by right]|].
  by left.
Qed.

(** C2, as the code has it: when the backend answers,
    [get_engagement_analytics] returns a result whose trend is ["no_data"]
    exactly when the user has no newsletter in the window or these
    newsletters have no metric; with newsletters and metrics but fewer than
    2 open-rate samples the trend is ["stable"]; and ["improving"] and
    ["declining"] are returned only when there are at least 2 open-rate
    samples. *)
Theorem engagement_trend_labels (db : Database F) (now : Z) (user_id : str)
    (days : Z) :
  available db = true ->
  let ns := newsletters_in_window db now user_id days in
  let ms := metrics_of db (map n_id ns) in
  let open_rates := rates_of (lit "open_rate") ms in
  exists a,
    get_engagement_analytics db now user_id days = Some a
    /\ (trend a = lit "no_data" <-> ns = [] \/ ms = [])
    /\ (ns <> [] -> ms <> [] -> length open_rates < 2 -> trend a = lit "stable")
    /\ (trend a = lit "improving" \/ trend a = lit "declining" ->
        2 <= length open_rates /\ ns <> [] /\ ms <> []).
Proof.
  intros Hav. cbv zeta.
  unfold get_engagement_analytics, execute. rewrite Hav.
  destruct (newsletters_in_window db now user_id days) as [|n ns'] eqn:Ens.
  { exists no_data. split; [done|]. simpl.
    split; [split; [by left|done]|].
    split; [done|]. intros [Hx|Hx]; discriminate Hx. }
  destruct (metrics_of db (map n_id (n :: ns'))) as [|m ms'] eqn:Ems.
  { exists no_data. split; [done|]. simpl.
    split; [split; [by right|done]|].
    split; [done|]. intros [Hx|Hx]; discriminate Hx. }
  eexists. split; [reflexivity|]. simpl trend.
  destruct (open_rate_trend_labels (rates_of (lit "open_rate") (m :: ms')))
    as [Hs|[Hlen [Hi|Hd]]].
  - rewrite Hs. split; [split; [discriminate|intros [?|?]; discriminate]|].
    split; [done|]. intros [Hx|Hx]; discriminate Hx.
  - rewrite Hi. split; [split; [discriminate|intros [?|?]; discriminate]|].
    split; [intros _ _ ?; lia|]. done.
  - rewrite Hd. split; [split; [discriminate|intros [?|?]; discriminate]|].
    split; [intros _ _ ?; lia|]. done.
Qed.
End TrendFacts.

Section TrendInstances.
Import Supabase FeedbackSystem.

Lemma engagement_trend_labels_witness :
  let ns := newsletters_in_window Samples.store 3000 (lit "bob") 30 in
  let ms := metrics_of Samples.store (map n_id ns) in
  let open_rates := rates_of (lit "open_rate") ms in
  exists a,
    get_engagement_analytics Samples.store 3000 (lit "bob") 30 = Some a
    /\ (trend a = lit "no_data" <-> ns = [] \/ ms = [])
    /\ (ns <> [] -> ms <> [] -> length open_rates < 2 -> trend a = lit "stable")
    /\ (trend a = lit "improving" \/ trend a = lit "declining" ->
        2 <= length open_rates /\ ns <> [] /\ ms <> []).
Proof.
  apply (engagement_trend_labels Samples.store 3000 (lit "bob") 30).
  reflexivity.
Defined.

(** C2 as stated fails: Bob has a newsletter in the window and a metric for
    it, no open-rate sample at all, and the trend returned is ["stable"],
    not ["no_data"]. *)
Lemma engagement_trend_no_data_counterexample :
  ~ (forall (db : Database Q) (now : Z) (user_id : str) (days : Z) a,
       get_engagement_analytics db now user_id days = Some a ->
       newsletters_in_window db now user_id days <> [] ->
       metrics_of db (map n_id (newsletters_in_window db now user_id days)) <> [] ->
       length (rates_of (lit "open_rate")
                 (metrics_of db
                    (map n_id (newsletters_in_window db now user_id days)))) < 2 ->
       trend a = lit "no_data").
Proof.
  intros Hclaim.
  pose proof (Hclaim Samples.store 3000%Z (lit "bob") 30%Z _ eq_refl) as Hc.
  vm_compute in Hc.
  specialize (Hc ltac:(discriminate) ltac:(discriminate) ltac:(repeat constructor)).
  discriminate Hc.
Qed.
End TrendInstances.

(** ** style_trainer.py: the dominant tone *)

Section ToneFacts.
Import StyleTrainer.

Lemma tone_scores_shape (text_lower : str) :
  exists a b c d,
    tone_scores_of text_lower
    = [ (lit "casual", a); (lit "professional", b);
        (lit "enthusiastic", c); (lit "analytical", d) ].
Proof. unfold tone_scores_of, tone_patterns. simpl. by repeat eexists. Qed.

(** The fallback ["neutral"] is out of reach: the dictionary of scores
    always has its four keys, and [max] picks one of them. *)
Lemma detect_tone_indicators_is_a_key (text : str) :
  dominant_tone (detect_tone_indicators text)
  ∈ [ lit "casual"; lit "professional"; lit "enthusiastic"; lit "analytical" ].
Proof.
  unfold detect_tone_indicators.
  destruct (tone_scores_shape (lower text)) as (a & b & c & d & ->).
  unfold max_key. simpl.
  repeat match goal with
         | |- context [if ?x <? ?y then _ else _] => destruct (x <? y); simpl
         end;
    set_solver.
Qed.

(** With four scores of zero, [max] returns the first key. *)
Lemma detect_tone_indicators_all_zero (text : str) :
  Forall (fun kv => snd kv = 0) (tone_scores_of (lower text)) ->
  dominant_tone (detect_tone_indicators text) = lit "casual".
Proof.
  unfold detect_tone_indicators.
  destruct (tone_scores_shape (lower text)) as (a & b & c & d & ->).
  intros Hz.
  repeat match goal with
         | Hz : Forall _ (_ :: _) |- _ =>
             apply Forall_cons_1 in Hz as [? Hz]
         end.
  simpl in *. by subst.
Qed.

(** C3, at the failing input: a text in which no tone pattern matches.
    The four scores are zero and the dominant tone returned is ["casual"],
    the first key of the dictionary, not ["neutral"]. *)
Theorem detect_tone_indicators_plain_text :
  detect_tone_indicators Samples.plain_text
  = {| dominant_tone := lit "casual";
       scores := [ (lit "casual", 0); (lit "professional", 0);
                   (lit "enthusiastic", 0); (lit "analytical", 0) ] |}
  /\ dominant_tone (detect_tone_indicators Samples.plain_text) <> lit "neutral".
Proof. split; [by vm_compute|]. by vm_compute. Qed.
End ToneFacts.

(** ** The schedulers *)

Section SchedulerFacts.
Import Supabase Scheduler.
Context {F : Type}.

Lemma standalone_tick (db : Database F) (current_time : str) :
  check_and_send_scheduled_newsletters db current_time
  = if available db
    then flat_map (tick_events current_time)
                  (List.filter sd_is_active (scheduled_deliveries db))
    else [].
Proof.
  unfold check_and_send_scheduled_newsletters, execute, select.
  destruct (available db); [|done].
  assert (Hf : List.filter (matches [eq_ sd_is_active true]) (scheduled_deliveries db)
               = List.filter sd_is_active (scheduled_deliveries db)).
  { apply filter_ext. intros r. unfold matches, eq_. simpl.
    destruct (sd_is_active r); by rewrite ?andb_true_r. }
  rewrite Hf. clear Hf.
  generalize (List.filter sd_is_active (scheduled_deliveries db)).
  intros [|row rows]; reflexivity.
Qed.

Lemma in_process_tick (db : Database F) (current_time : str) :
  check_and_send_scheduled db current_time
  = check_and_send_scheduled_newsletters db current_time.
Proof. reflexivity. Qed.

(** C9: in a tick of either scheduler, generation and delivery start for a
    row only if the row is stored with [is_active = true] and the first
    five characters of its [schedule_time] are the current [HH:MM]; an
    active row with any other time is compared and skipped; a row with
    [is_active = false] is never compared; and, the backend answering, an
    active row whose time matches is triggered. *)
Theorem scheduler_triggers_on_time_match_only (db : Database F) (current_time : str) :
  forall tick,
    tick = check_and_send_scheduled_newsletters db current_time
    \/ tick = check_and_send_scheduled db current_time ->
    (forall user_id row,
        GenerateAndSend user_id row ∈ tick ->
        row ∈ scheduled_deliveries db /\ sd_is_active row = true
        /\ take 5 (sd_schedule_time row) = current_time
        /\ user_id = sd_user_id row)
    /\ (forall row t,
           TimeCompared row t ∈ tick ->
           row ∈ scheduled_deliveries db /\ sd_is_active row = true
           /\ t = current_time)
    /\ (forall row,
           available db = true -> row ∈ scheduled_deliveries db ->
           sd_is_active row = true ->
           TimeCompared row current_time ∈ tick
           /\ (take 5 (sd_schedule_time row) = current_time ->
               GenerateAndSend (sd_user_id row) row ∈ tick)
           /\ (take 5 (sd_schedule_time row) <> current_time ->
               forall user_id, GenerateAndSend user_id row ∉ tick)).
Proof.
  intros tick Htick.
  assert (Heq : tick = check_and_send_scheduled_newsletters db current_time).
  { destruct Htick as [->| ->]; [done|apply in_process_tick]. }
  clear Htick. subst tick. rewrite standalone_tick.
  assert (Hmem : forall e,
             e ∈ (if available db
                  then flat_map (tick_events current_time)
                         (List.filter sd_is_active (scheduled_deliveries db))
                  else []) <->
             available db = true /\
             exists row, row ∈ scheduled_deliveries db /\ sd_is_active row = true
                         /\ e ∈ tick_events current_time row).
  { intros e. destruct (available db).
    - rewrite list_elem_of_In, in_flat_map. split.
      + intros (row & Hrow & He). apply filter_In in Hrow as [Hrow Hact].
        split; [done|]. exists row. by rewrite !list_elem_of_In.
      + intros (_ & row & Hrow & Hact & He). exists row.
        rewrite filter_In, <- !list_elem_of_In. done.
    - split; [by intros ?%elem_of_nil|by intros [? _]]. }
  assert (Hgen : forall user_id row row',
             GenerateAndSend user_id row ∈ tick_events current_time row' ->
             row = row' /\ take 5 (sd_schedule_time row) = current_time
             /\ user_id = sd_user_id row).
  { intros user_id row row' He. unfold tick_events in He.
    apply elem_of_cons in He as [He|He]; [discriminate|].
    destruct (bool_decide _) eqn:E; [|by apply elem_of_nil in He].
    apply bool_decide_eq_true in E.
    apply list_elem_of_singleton in He. by inversion He; subst. }
  split; [|split].
  - intros user_id row He. apply Hmem in He as (_ & row' & Hrow & Hact & He).
    apply Hgen in He as (-> & ? & ?). done.
  - intros row t He. apply Hmem in He as (_ & row' & Hrow & Hact & He).
    unfold tick_events in He.
    apply elem_of_cons in He as [He|He].
    + by inversion He; subst.
    + destruct (bool_decide _); [|by apply elem_of_nil in He].
      apply list_elem_of_singleton in He. discriminate.
  - intros row Hav Hrow Hact. split; [|split].
    + apply Hmem. split; [done|]. exists row. split; [done|]. split; [done|].
      unfold tick_events. apply elem_of_cons. by left.
    + intros Htime. apply Hmem. split; [done|]. exists row.
      split; [done|]. split; [done|].
      unfold tick_events. rewrite bool_decide_eq_true_2 by done.
      apply elem_of_cons. right. by apply list_elem_of_singleton.
    + intros Htime user_id He. apply Hmem in He as (_ & row' & _ & _ & He).
      apply Hgen in He as (_ & ? & _). done.
Qed.
End SchedulerFacts.

Section SchedulerInstances.
Import Supabase Scheduler.

Lemma scheduler_triggers_on_time_match_only_witness :
  check_and_send_scheduled_newsletters Samples.store (lit "08:00")
  = [ TimeCompared (Samples.schedule_of "bob" "08:00:00" true) (lit "08:00");
      GenerateAndSend (lit "bob") (Samples.schedule_of "bob" "08:00:00" true);
      TimeCompared (Samples.schedule_of "carol" "09:30:00" true) (lit "08:00") ]
  /\ (forall user_id,
        GenerateAndSend user_id (Samples.schedule_of "carol" "09:30:00" true)
        ∉ check_and_send_scheduled_newsletters Samples.store (lit "08:00"))
  /\ GenerateAndSend (lit "bob") (Samples.schedule_of "bob" "08:00:00" true)
     ∈ check_and_send_scheduled Samples.store (lit "08:00").
Proof.
  split; [reflexivity|].
  pose proof (scheduler_triggers_on_time_match_only Samples.store (lit "08:00")) as Hs.
  split.
  - destruct (Hs _ (or_introl eq_refl)) as (_ & _ & Hrow).
    apply (Hrow (Samples.schedule_of "carol" "09:30:00" true));
      [reflexivity| |reflexivity|discriminate].
    apply list_elem_of_In. simpl. auto.
  - destruct (Hs _ (or_intror eq_refl)) as (_ & _ & Hrow).
    apply (Hrow (Samples.schedule_of "bob" "08:00:00" true));
      [reflexivity| |reflexivity|reflexivity].
    apply list_elem_of_In. simpl. auto.
Defined.
End SchedulerInstances.

(** ** draft_generator.py: the template-only newsletter *)

Section TemplateFacts.
Import ContentAggregator DraftGenerator.

(** The section of the top stories is there exactly when there are both
    articles and summaries, and then it carries the heading. *)
Lemma articles_section_nil (rss_articles : list Article) (summaries : list str) :
  articles_section rss_articles summaries = []
  <-> rss_articles = [] \/ summaries = [].
Proof.
  unfold articles_section.
  destruct rss_articles as [|a l], summaries as [|t l'];
    try (split; [auto|done]).
  split; [|intros [?|?]; discriminate].
  intros Hx. apply (f_equal length) in Hx.
  rewrite !length_app in Hx.
  change (length (tpl "<section style=`padding: 20px 0;`>")) with 34 in Hx.
  simpl in Hx. lia.
Qed.

Lemma startswith_app (p s : str) : startswith p (p ++ s) = true.
Proof.
  induction p as [|c p IH]; simpl; [done|].
  by rewrite bool_decide_eq_true_2, IH.
Qed.

Lemma contains_here (sub s : str) :
  startswith sub s = true -> contains sub s = true.
Proof. intros Hs. destruct s; simpl; by rewrite Hs. Qed.

Lemma contains_app (sub a b : str) : contains sub (a ++ sub ++ b) = true.
Proof.
  induction a as [|c a IH]; simpl.
  - apply contains_here, startswith_app.
  - rewrite IH. apply orb_true_r.
Qed.

Lemma articles_section_heading (a : Article) (l : list Article) (t : str)
    (l' : list str) :
  contains top_stories_heading (articles_section (a :: l) (t :: l')) = true.
Proof. unfold articles_section. apply contains_app. Qed.

Lemma filter_none {A : Type} (P : A -> bool) (l : list A) :
  Forall (fun x => P x = false) l -> List.filter P l = [].
Proof. induction 1 as [|x l Hx _ IH]; simpl; [done|]. by rewrite Hx. Qed.

(** *** Occurrences of the words of the heading *)

































(** The document returned for one post and one video, rendered: the heading
    of the top stories does not occur in it. *)
Lemma template_only_sample_has_no_top_stories :
  match fst (generate_newsletter_with_ai Samples.failing_client
               (lit "January 07, 2025") [Samples.tweet; Samples.video] []
               (lit "Weekly") (lit "Proofs") (lit "Casual") 6 []) with
  | Ok html => contains (lit "Today's Top Stories") html = false
               /\ contains (lit "From Twitter") html = true
               /\ contains (lit "Watch This") html = true
  | Raise _ => False
  end.
Proof. vm_compute. done. Qed.

(** The hypothesis on the texts is needed: a title and a topic can spell
    the words of the heading between them, and the document then has the
    words in its title, though not the heading. *)
Lemma template_only_title_can_carry_the_words :
  match fst (generate_newsletter_with_ai Samples.failing_client
               (lit "January 07, 2025") [Samples.tweet] []
               (lit "Today's Top") (lit "Stories") (lit "Casual") 6 []) with
  | Ok html => contains top_stories_words html = true
               /\ contains top_stories_heading html = false
  | Raise _ => False
  end.
Proof. vm_compute. done. Qed.

End TemplateFacts.

(** ** content_aggregator.py: the summary of an article *)

Section CleanHtmlFacts.
Import ContentAggregator.

(** *** Tags *)

Lemma tagless_no_gt (s : str) : ">"%char ∉ s -> tagless s = true.
Proof.
  induction s as [|c s IH]; intros Hs; simpl; [done|].
  apply not_elem_of_cons in Hs as [Hc Hs].
  rewrite IH by done. rewrite andb_true_r.
  destruct (bool_decide (c = "<"%char)); [|done].
  unfold no_gt. rewrite (bool_decide_eq_true_2 _ Hs). apply orb_true_r.
Qed.

Lemma tagless_sound (s : str) : tagless s = true -> ~ has_tag s.
Proof.
  intros Ht (a & m & b & -> & Hm & Hgt).
  induction a as [|c a IH]; simpl in Ht.
  - apply andb_prop in Ht as [Ht _].
    destruct m as [|d m]; [done|].
    apply not_elem_of_cons in Hgt as [Hd Hgt].
    apply orb_prop in Ht as [Ht|Ht].
    + unfold starts_gt in Ht. apply bool_decide_eq_true in Ht.
      simpl in Ht. congruence.
    + unfold no_gt in Ht. apply bool_decide_eq_true in Ht.
      apply Ht. simpl. rewrite elem_of_cons, elem_of_app, elem_of_cons. auto.
  - apply andb_prop in Ht as [_ Ht]. by apply IH.
Qed.

Lemma tagless_app_r (a b : str) : tagless (a ++ b) = true -> tagless b = true.
Proof.
  induction a as [|c a IH]; simpl; [done|].
  intros [_ Ht]%andb_prop. by apply IH.
Qed.

Lemma starts_gt_app (a b : str) : starts_gt a = true -> starts_gt (a ++ b) = true.
Proof. by destruct a. Qed.

Lemma tagless_app_l (a b : str) : tagless (a ++ b) = true -> tagless a = true.
Proof.
  induction a as [|c a IH]; simpl; [done|].
  intros [Hc Ht]%andb_prop. rewrite IH by done. rewrite andb_true_r.
  destruct (bool_decide (c = "<"%char)); [|done].
  apply orb_prop in Hc as [Hc|Hc].
  - destruct a as [|d a]; [done|]. unfold starts_gt in *. simpl in *.
    by rewrite Hc.
  - unfold no_gt in *. apply bool_decide_eq_true in Hc.
    rewrite (bool_decide_eq_true_2 (">"%char ∉ a)); [apply orb_true_r|].
    intros Hin. apply Hc. apply elem_of_app. by left.
Qed.

Lemma tagless_app_plain (a b : str) :
  tagless a = true -> ">"%char ∉ b -> tagless (a ++ b) = true.
Proof.
  intros Ha Hb. induction a as [|c a IH]; simpl.
  - by apply tagless_no_gt.
  - simpl in Ha. apply andb_prop in Ha as [Hc Ha].
    rewrite IH by done. rewrite andb_true_r.
    destruct (bool_decide (c = "<"%char)); [|done].
    apply orb_prop in Hc as [Hc|Hc].
    + by rewrite starts_gt_app.
    + unfold no_gt in *. apply bool_decide_eq_true in Hc.
      rewrite (bool_decide_eq_true_2 (">"%char ∉ a ++ b)); [apply orb_true_r|].
      rewrite elem_of_app. tauto.
Qed.

Lemma strip_tags_go_tagless (s : str) :
  tagless (strip_tags_go None s) = true
  /\ forall buf, ">"%char ∉ buf -> tagless (strip_tags_go (Some buf) s) = true.
Proof.
  induction s as [|c s [IH1 IH2]]; split; simpl.
  - done.
  - intros buf Hbuf. change (lit "<") with ["<"%char]. simpl.
    rewrite (tagless_no_gt buf Hbuf). unfold no_gt.
    rewrite (bool_decide_eq_true_2 _ Hbuf). by rewrite orb_true_r.
  - destruct (bool_decide (c = "<"%char)) eqn:E.
    + apply IH2. apply not_elem_of_nil.
    + simpl. by rewrite E, IH1.
  - intros buf Hbuf. destruct (bool_decide (c = ">"%char)) eqn:E.
    + destruct buf as [|d buf]; [|done].
      change (lit "<>") with ["<"%char; ">"%char]. simpl. by rewrite IH1.
    + apply IH2. apply bool_decide_eq_false in E.
      rewrite elem_of_app, list_elem_of_singleton. intros [?|?]; congruence.
Qed.

Lemma strip_tags_tagless (s : str) : tagless (strip_tags s) = true.
Proof. apply strip_tags_go_tagless. Qed.
(** *** Whitespace *)

Lemma collapse_ws_go_elem (x : ascii) (in_ws : bool) (s : str) :
  x ∈ collapse_ws_go in_ws s -> x = " "%char \/ x ∈ s.
Proof.
  revert in_ws. induction s as [|c s IH]; intros in_ws; simpl.
  - by intros ?%elem_of_nil.
  - destruct (is_space c).
    + destruct in_ws.
      * intros [?|?]%IH; [by left|right; by apply list_elem_of_further].
      * intros [->|[?|?]%IH]%elem_of_cons;
          [by left|by left|right; by apply list_elem_of_further].
    + intros [->|[?|?]%IH]%elem_of_cons;
        [right; apply list_elem_of_here|by left
        |right; by apply list_elem_of_further].
Qed.

Lemma collapse_ws_go_tagless (in_ws : bool) (s : str) :
  tagless s = true -> tagless (collapse_ws_go in_ws s) = true.
Proof.
  revert in_ws. induction s as [|c s IH]; intros in_ws Ht; simpl; [done|].
  simpl in Ht. apply andb_prop in Ht as [Hc Ht].
  destruct (is_space c) eqn:Esp.
  - destruct in_ws; [by apply IH|]. simpl. by apply IH.
  - simpl. rewrite IH by done. rewrite andb_true_r.
    destruct (bool_decide (c = "<"%char)); [|done].
    apply orb_prop in Hc as [Hc|Hc].
    + destruct s as [|d s]; [done|].
      unfold starts_gt in Hc. apply bool_decide_eq_true in Hc.
      simpl in Hc. injection Hc as ->. simpl. done.
    + unfold no_gt in *. apply bool_decide_eq_true in Hc.
      rewrite (bool_decide_eq_true_2 (">"%char ∉ collapse_ws_go false s));
        [apply orb_true_r|].
      intros [?|?]%collapse_ws_go_elem; [discriminate|done].
Qed.

Lemma collapse_ws_go_single_spaced (s : str) :
  single_spaced (collapse_ws_go false s) = true
  /\ single_spaced (collapse_ws_go true s) = true
  /\ starts_space (collapse_ws_go true s) = false.
Proof.
  induction s as [|c s (IH1 & IH2 & IH3)]; simpl; [done|].
  destruct (is_space c) eqn:Esp.
  - split; [|done]. simpl. by rewrite IH2, IH3.
  - simpl. rewrite Esp, IH1. unfold starts_space. simpl. by rewrite Esp.
Qed.

Lemma single_spaced_app_r (a b : str) :
  single_spaced (a ++ b) = true -> single_spaced b = true.
Proof.
  induction a as [|c a IH]; simpl; [done|].
  intros [_ Ht]%andb_prop. by apply IH.
Qed.

Lemma single_spaced_app_l (a b : str) :
  single_spaced (a ++ b) = true -> single_spaced a = true.
Proof.
  induction a as [|c a IH]; simpl; [done|].
  intros [Hc Ht]%andb_prop. rewrite IH by done. rewrite andb_true_r.
  destruct (is_space c); [|done].
  apply andb_prop in Hc as [Hc1 Hc2]. rewrite Hc1.
  destruct a; [done|]. exact Hc2.
Qed.

Lemma single_spaced_app (a b : str) :
  single_spaced a = true -> single_spaced b = true -> starts_space b = false ->
  single_spaced (a ++ b) = true.
Proof.
  intros Ha Hb Hsb. induction a as [|c a IH]; simpl; [done|].
  simpl in Ha. apply andb_prop in Ha as [Hc Ha].
  rewrite IH by done. rewrite andb_true_r.
  destruct (is_space c); [|done].
  apply andb_prop in Hc as [Hc1 Hc2]. rewrite Hc1.
  destruct a; [|exact Hc2]. simpl. by rewrite Hsb.
Qed.

(** *** [strip] keeps a segment of the text *)

Lemma lstrip_suffix (s : str) : exists a, s = a ++ lstrip s.
Proof.
  induction s as [|c s [a IH]]; simpl; [by exists []|].
  destruct (is_space c).
  - exists (c :: a). simpl. by f_equal.
  - by exists [].
Qed.

Lemma lstrip_starts (s : str) : starts_space (lstrip s) = false.
Proof.
  induction s as [|c s IH]; simpl; [done|].
  destruct (is_space c) eqn:E; [done|].
  unfold starts_space. simpl. done.
Qed.

Lemma rstrip_prefix (s : str) : exists b, s = rstrip s ++ b.
Proof.
  unfold rstrip. destruct (lstrip_suffix (rev s)) as [a Ha].
  exists (rev a). rewrite <- rev_app_distr, <- Ha. by rewrite rev_involutive.
Qed.

Lemma starts_space_prefix (a b : str) :
  starts_space (a ++ b) = false -> starts_space a = false.
Proof. by destruct a. Qed.

Lemma strip_segment (s : str) : exists a b, s = a ++ strip s ++ b.
Proof.
  unfold strip. destruct (lstrip_suffix s) as [a Ha].
  destruct (rstrip_prefix (lstrip s)) as [b Hb].
  exists a, b. by rewrite <- Hb.
Qed.

Lemma strip_starts (s : str) : starts_space (strip s) = false.
Proof.
  unfold strip. destruct (rstrip_prefix (lstrip s)) as [b Hb].
  apply (starts_space_prefix _ b). rewrite <- Hb. apply lstrip_starts.
Qed.

Lemma last_rev_head {A : Type} (l : list A) : last (rev l) = head l.
Proof. destruct l as [|x l]; simpl; [done|]. apply last_snoc. Qed.

Lemma rstrip_ends (s : str) :
  from_option is_space false (last (rstrip s)) = false.
Proof.
  unfold rstrip. rewrite last_rev_head. apply lstrip_starts.
Qed.

(** The text [clean_html] works on before it limits the length. *)
Lemma stripped_text_facts (html : str) :
  let text := strip (collapse_ws (strip_tags html)) in
  tagless text = true /\ single_spaced text = true
  /\ starts_space text = false
  /\ from_option is_space false (last text) = false.
Proof.
  intros text. subst text.
  destruct (strip_segment (collapse_ws (strip_tags html))) as (a & b & Hseg).
  split; [|split; [|split]].
  - apply (tagless_app_l _ b), (tagless_app_r a). rewrite <- Hseg.
    apply collapse_ws_go_tagless, strip_tags_tagless.
  - apply (single_spaced_app_l _ b), (single_spaced_app_r a). rewrite <- Hseg.
    apply collapse_ws_go_single_spaced.
  - apply strip_starts.
  - apply rstrip_ends.
Qed.

Lemma clean_html_unfold (html : str) :
  clean_html html =
  let text := strip (collapse_ws (strip_tags html)) in
  if 300 <? length text then take 300 text ++ lit "..." else text.
Proof. by destruct html. Qed.

(** C4, as the code has it: the summary [clean_html] returns is the text
    left when the tags are removed and the whitespace is collapsed and
    trimmed, returned whole when it has at most 300 characters and
    otherwise cut to its first 300 characters followed by three dots; so
    it has at most 303 characters, no tag is left in it, its only
    whitespace is single spaces, and it does not start with a space. *)
Theorem clean_html_summary (html : str) :
  clean_html html
  = (if 300 <? length (strip (collapse_ws (strip_tags html)))
     then take 300 (strip (collapse_ws (strip_tags html))) ++ lit "..."
     else strip (collapse_ws (strip_tags html)))
  /\ length (clean_html html) <= 303
  /\ ~ has_tag (clean_html html)
  /\ single_spaced (clean_html html) = true
  /\ starts_space (clean_html html) = false.
Proof.
  split; [apply clean_html_unfold|].
  rewrite clean_html_unfold. cbv zeta.
  destruct (stripped_text_facts html) as (Htag & Hsp & Hst & _).
  set (text := strip (collapse_ws (strip_tags html))) in *.
  destruct (Nat.ltb_spec 300 (length text)) as [Hlong|Hshort].
  - split; [|split; [|split]].
    + rewrite length_app, length_take. change (length (lit "...")) with 3. lia.
    + apply tagless_sound, tagless_app_plain.
      * apply (tagless_app_l _ (drop 300 text)). by rewrite take_drop.
      * by vm_compute; intros ?%list_elem_of_In; simpl in *; intuition discriminate.
    + apply single_spaced_app; [|done|done].
      apply (single_spaced_app_l _ (drop 300 text)). by rewrite take_drop.
    + destruct text as [|c text']; [simpl in Hlong; lia|]. done.
  - split; [lia|]. split; [by apply tagless_sound|]. done.
Qed.

(** C4 as stated fails: a text of 301 letters comes back with 303
    characters, the first 300 and three dots. *)
Lemma clean_html_length_counterexample :
  ~ (forall html, length (clean_html html) <= 300).
Proof.
  intros Hclaim. specialize (Hclaim (replicate 301 "a"%char)).
  vm_compute in Hclaim. lia.
Qed.
End CleanHtmlFacts.

(** ** content_aggregator.py: trends *)

Section TrendExtractionFacts.
Import ContentAggregator.

(** *** [Counter] as a finite map *)

Lemma counter_add_map (w : str) (cnt : list (str * nat)) :
  (list_to_map (counter_add w cnt) : gmap str nat)
  = <[w := S (default 0 ((list_to_map cnt : gmap str nat) !! w))]> (list_to_map cnt).
Proof.
  induction cnt as [|[k c] rest IH]; simpl; [done|].
  destruct (decide (w = k)) as [->|Hne]; simpl.
  - rewrite lookup_insert_eq. simpl. by rewrite insert_insert_eq.
  - rewrite IH. rewrite lookup_insert_ne by done. by apply insert_insert_ne.
Qed.

Lemma counter_add_keys (w : str) (cnt : list (str * nat)) :
  (counter_add w cnt).*1 = if decide (w ∈ cnt.*1) then cnt.*1 else cnt.*1 ++ [w].
Proof.
  induction cnt as [|[k c] rest IH]; [done|].
  simpl counter_add. rewrite !fmap_cons. simpl fst.
  destruct (decide (w = k)) as [->|Hne].
  - rewrite fmap_cons. simpl fst. rewrite decide_True; [done|].
    apply list_elem_of_here.
  - rewrite fmap_cons. simpl fst. rewrite IH.
    destruct (decide (w ∈ rest.*1)) as [Hin|Hnin].
    + rewrite decide_True; [done|]. by apply list_elem_of_further.
    + rewrite decide_False; [done|].
      intros [?|?]%elem_of_cons; done.
Qed.

Lemma counter_add_NoDup (w : str) (cnt : list (str * nat)) :
  NoDup cnt.*1 -> NoDup (counter_add w cnt).*1.
Proof.
  intros Hnd. rewrite counter_add_keys.
  destruct (decide (w ∈ cnt.*1)); [done|].
  apply NoDup_app. split; [done|]. split.
  - intros x Hx ?%list_elem_of_singleton. by subst.
  - apply NoDup_singleton.
Qed.

Lemma occurrences_cons (k w : str) (ws : list str) :
  occurrences k (w :: ws) = (if decide (w = k) then 1 else 0) + occurrences k ws.
Proof.
  unfold occurrences. simpl.
  destruct (decide (w = k)) as [->|Hne].
  - by rewrite bool_decide_eq_true_2.
  - by rewrite bool_decide_eq_false_2.
Qed.

Lemma occurrences_pos (k : str) (ws : list str) :
  0 < occurrences k ws <-> k ∈ ws.
Proof.
  induction ws as [|w ws IH].
  - split; [unfold occurrences; simpl; lia|by intros ?%elem_of_nil].
  - rewrite occurrences_cons, elem_of_cons.
    destruct (decide (w = k)) as [->|Hne].
    + split; [by left|lia].
    + simpl. rewrite IH. split; [by right|]. intros [?|?]; [congruence|done].
Qed.

Lemma counter_fold (ws : list str) (cnt : list (str * nat)) (k : str) :
  NoDup cnt.*1 ->
  NoDup (fold_left (fun cnt w => counter_add w cnt) ws cnt).*1
  /\ default 0 ((list_to_map (fold_left (fun cnt w => counter_add w cnt) ws cnt)
                 : gmap str nat) !! k)
     = default 0 ((list_to_map cnt : gmap str nat) !! k) + occurrences k ws
  /\ (is_Some ((list_to_map (fold_left (fun cnt w => counter_add w cnt) ws cnt)
                : gmap str nat) !! k)
      <-> is_Some ((list_to_map cnt : gmap str nat) !! k) \/ k ∈ ws).
Proof.
  revert cnt. induction ws as [|w ws IH]; intros cnt Hnd; simpl.
  - split; [done|]. split; [unfold occurrences; simpl; lia|].
    split; [by left|]. intros [?|?%elem_of_nil]; done.
  - destruct (IH (counter_add w cnt) (counter_add_NoDup w cnt Hnd))
      as (Hnd' & Hcount & Hsome).
    split; [done|]. split.
    + rewrite Hcount, counter_add_map, occurrences_cons.
      destruct (decide (w = k)) as [->|Hne].
      * rewrite lookup_insert_eq. simpl. lia.
      * rewrite lookup_insert_ne by done. lia.
    + rewrite Hsome, counter_add_map, elem_of_cons.
      destruct (decide (w = k)) as [->|Hne].
      * rewrite lookup_insert_eq. split; [by right; left|by left].
      * rewrite lookup_insert_ne by done.
        split; [intros [?|?]; auto|intros [?|[?|?]]; auto; congruence].
Qed.

Lemma Counter_NoDup (ws : list str) : NoDup (Counter ws).*1.
Proof. apply (counter_fold ws [] []). constructor. Qed.

(** An item of [Counter(ws)] is a word of [ws] with the number of its
    occurrences. *)
Lemma Counter_spec (ws : list str) (k : str) (c : nat) :
  (k, c) ∈ Counter ws <-> c = occurrences k ws /\ k ∈ ws.
Proof.
  destruct (counter_fold ws [] k) as (Hnd & Hcount & Hsome); [constructor|].
  fold (Counter ws) in *.
  rewrite (elem_of_list_to_map (M := gmap str)) by done.
  change (list_to_map [] : gmap str nat) with (∅ : gmap str nat) in *.
  rewrite lookup_empty in Hcount, Hsome. simpl in Hcount.
  split.
  - intros Hk. rewrite Hk in Hcount. simpl in Hcount.
    split; [done|].
    destruct (proj1 Hsome) as [[? Hx]|Hin]; [by rewrite Hk|discriminate Hx|done].
  - intros [-> Hin].
    destruct (proj2 Hsome (or_intror Hin)) as [c Hc].
    rewrite Hc in Hcount. simpl in Hcount. by rewrite Hc, Hcount.
Qed.
(** *** [most_common] *)

Lemma most_common_sublist (n : Z) (cnt : list (str * nat)) :
  most_common n cnt `sublist_of` PyList.sort_desc count_key cnt.
Proof. apply sublist_take. Qed.

Lemma most_common_elem (n : Z) (cnt : list (str * nat)) (kc : str * nat) :
  kc ∈ most_common n cnt -> kc ∈ cnt.
Proof.
  intros Hin. rewrite <- (sort_desc_perm count_key cnt).
  eapply elem_of_sublist; [exact Hin|apply most_common_sublist].
Qed.

Lemma most_common_length (n : Z) (cnt : list (str * nat)) :
  length (most_common n cnt) <= Z.to_nat n.
Proof. unfold most_common. rewrite length_take. lia. Qed.

Lemma StronglySorted_sublist {A : Type} (R : A -> A -> Prop) (l1 l2 : list A) :
  l1 `sublist_of` l2 -> StronglySorted R l2 -> StronglySorted R l1.
Proof.
  induction 1 as [|x l1 l2 Hsub IH|x l1 l2 Hsub IH]; intros Hs.
  - constructor.
  - apply StronglySorted_inv in Hs as [Hs Hx]. constructor; [by apply IH|].
    eapply Forall_forall. intros y Hy.
    rewrite Forall_forall in Hx. apply Hx. by eapply elem_of_sublist.
  - apply StronglySorted_inv in Hs as [Hs _]. by apply IH.
Qed.

Lemma most_common_sorted (n : Z) (cnt : list (str * nat)) :
  StronglySorted (fun x y => snd y <= snd x) (most_common n cnt).
Proof.
  eapply StronglySorted_sublist; [apply most_common_sublist|].
  pose proof (sort_desc_sorted count_key cnt) as Hs.
  induction Hs as [|x l Hl IH Hx]; constructor; [done|].
  eapply Forall_impl; [exact Hx|].
  intros y. unfold PyList.desc, count_key. lia.
Qed.

Lemma most_common_NoDup (n : Z) (cnt : list (str * nat)) :
  NoDup cnt.*1 -> NoDup (most_common n cnt).*1.
Proof.
  intros Hnd. eapply sublist_NoDup.
  - by rewrite <- (sort_desc_perm count_key cnt) in Hnd.
  - apply fmap_sublist, most_common_sublist.
Qed.

Lemma NoDup_keys_unique (cnt : list (str * nat)) (k : str) (c1 c2 : nat) :
  NoDup cnt.*1 -> (k, c1) ∈ cnt -> (k, c2) ∈ cnt -> c1 = c2.
Proof.
  intros Hnd H1 H2.
  apply (elem_of_list_to_map_1 (M := gmap str)) in H1, H2; [|done|done].
  congruence.
Qed.

(** A key whose count is above all the others is the first of
    [most_common(n)], for every [n >= 1]. *)
Lemma most_common_head (n : Z) (cnt : list (str * nat)) (k : str) (c : nat) :
  (0 < n)%Z -> NoDup cnt.*1 -> (k, c) ∈ cnt ->
  (forall k' c', (k', c') ∈ cnt -> k' <> k -> c' < c) ->
  head (most_common n cnt) = Some (k, c).
Proof.
  intros Hn Hnd Hin Hmax. unfold most_common.
  pose proof (sort_desc_perm count_key cnt) as Hperm.
  pose proof (sort_desc_sorted count_key cnt) as Hsorted.
  destruct (PyList.sort_desc count_key cnt) as [|[k0 c0] l] eqn:E.
  { rewrite <- Hperm in Hin. by apply elem_of_nil in Hin. }
  destruct (Z.to_nat n) as [|m] eqn:En; [lia|]. simpl. f_equal.
  destruct (decide (k0 = k)) as [->|Hne].
  - f_equal. apply (NoDup_keys_unique cnt k); [done| |done].
    rewrite <- Hperm. apply list_elem_of_here.
  - exfalso.
    assert (Hlt : c0 < c).
    { apply (Hmax k0); [|done]. rewrite <- Hperm. apply list_elem_of_here. }
    apply StronglySorted_inv in Hsorted as [_ Hall].
    rewrite <- Hperm in Hin. apply elem_of_cons in Hin as [Heq|Hin].
    + congruence.
    + rewrite Forall_forall in Hall. specialize (Hall _ Hin).
      unfold PyList.desc, count_key in Hall. simpl in Hall. lia.
Qed.

(** *** [extract_trends] *)

Lemma extract_trends_unfold (articles : list Article) (max_trends : Z) :
  extract_trends articles max_trends
  = map (make_trend articles)
        (List.filter qualifies
           (most_common max_trends (Counter (filtered_words (all_text articles))))).
Proof.
  destruct articles; [|done].
  change (Counter (filtered_words (all_text []))) with (@nil (str * nat)).
  unfold most_common. simpl. by rewrite take_nil.
Qed.

Lemma qualifies_spec (kc : str * nat) :
  qualifies kc = true <-> 3 < length (fst kc) /\ 1 < snd kc.
Proof.
  unfold qualifies. rewrite andb_true_iff, !Nat.ltb_lt. done.
Qed.

Lemma make_trend_fields (articles : list Article) (kw : str) (c : nat) :
  trend_title (make_trend articles (kw, c)) = title_case kw
  /\ frequency (make_trend articles (kw, c)) = c.
Proof. done. Qed.

Lemma trends_sorted (articles : list Article) (l : list (str * nat)) :
  StronglySorted (fun x y => snd y <= snd x) l ->
  StronglySorted (fun t1 t2 => frequency t2 <= frequency t1)
                 (map (make_trend articles) (List.filter qualifies l)).
Proof.
  induction 1 as [|[k c] l Hl IH Hx]; simpl; [constructor|].
  destruct (qualifies (k, c)); [|done]. simpl. constructor; [done|].
  apply Forall_forall. intros t Ht.
  apply list_elem_of_fmap in Ht as ([k' c'] & -> & Hin).
  apply list_elem_of_In, filter_In in Hin as [Hin _].
  rewrite Forall_forall in Hx. apply list_elem_of_In in Hin.
  apply (Hx _ Hin).
Qed.

(** C5, as the code has it: [extract_trends] looks at the [max_trends]
    most frequent keywords only, and returns one trend, in that order, for
    each of them that has more than 3 letters and is counted more than
    once.  So there are at most [max_trends] trends, with frequencies that
    never increase; every trend carries the title-cased keyword and its
    number of occurrences, of a keyword of more than 3 letters that occurs
    more than once; and a keyword of more than 3 letters that occurs more
    than once while every other keyword occurs at most once has its trend
    as soon as [max_trends >= 1]. *)
Theorem extract_trends_top_keywords (articles : list Article) (max_trends : Z) :
  let words := filtered_words (all_text articles) in
  let top := most_common max_trends (Counter words) in
  extract_trends articles max_trends
  = map (make_trend articles) (List.filter qualifies top)
  /\ top `sublist_of` PyList.sort_desc count_key (Counter words)
  /\ top = take (Z.to_nat max_trends) (PyList.sort_desc count_key (Counter words))
  /\ NoDup top.*1
  /\ length (extract_trends articles max_trends) <= Z.to_nat max_trends
  /\ StronglySorted (fun t1 t2 => frequency t2 <= frequency t1)
                    (extract_trends articles max_trends)
  /\ (forall t, t ∈ extract_trends articles max_trends ->
        exists kw, kw ∈ words /\ (kw, occurrences kw words) ∈ top
                   /\ t = make_trend articles (kw, occurrences kw words)
                   /\ trend_title t = title_case kw
                   /\ frequency t = occurrences kw words
                   /\ 3 < length kw /\ 1 < occurrences kw words)
  /\ (forall kw c, (kw, c) ∈ top -> 3 < length kw -> 1 < c ->
        make_trend articles (kw, c) ∈ extract_trends articles max_trends)
  /\ (forall kw, 3 < length kw -> 1 < occurrences kw words ->
        (forall w, w <> kw -> occurrences w words <= 1) ->
        (0 < max_trends)%Z ->
        exists t, t ∈ extract_trends articles max_trends
                  /\ trend_title t = title_case kw
                  /\ frequency t = occurrences kw words).
Proof.
  intros words top.
  assert (Hcomplete : forall kw c, (kw, c) ∈ top -> 3 < length kw -> 1 < c ->
            make_trend articles (kw, c) ∈ extract_trends articles max_trends).
  { intros kw c Hin Hlen Hc. rewrite extract_trends_unfold.
    apply list_elem_of_fmap. exists (kw, c). split; [done|].
    apply list_elem_of_In, filter_In. split; [by apply list_elem_of_In|].
    by apply qualifies_spec. }
  split; [apply extract_trends_unfold|].
  split; [apply most_common_sublist|].
  split; [done|].
  split; [apply most_common_NoDup, Counter_NoDup|].
  split.
  { rewrite extract_trends_unfold, length_map.
    etransitivity; [apply filter_length_le|apply most_common_length]. }
  split.
  { rewrite extract_trends_unfold.
    apply trends_sorted, most_common_sorted. }
  split.
  { intros t Ht. rewrite extract_trends_unfold in Ht.
    apply list_elem_of_fmap in Ht as ([kw c] & -> & Hin).
    apply list_elem_of_In, filter_In in Hin as [Hin Hq].
    apply list_elem_of_In in Hin. apply qualifies_spec in Hq as [Hlen Hc].
    pose proof (most_common_elem _ _ _ Hin) as Hcnt.
    apply Counter_spec in Hcnt as [-> Hw]. simpl in *.
    exists kw. fold words. done. }
  split; [exact Hcomplete|].
  intros kw Hlen Hocc Hothers Hn.
  exists (make_trend articles (kw, occurrences kw words)).
  split; [|done].
  apply Hcomplete; [|done|done].
  apply head_Some_elem_of, most_common_head; [done|apply Counter_NoDup| |].
  - apply Counter_spec. split; [done|]. apply occurrences_pos. lia.
  - intros k' c' [-> _]%Counter_spec Hne. specialize (Hothers k' Hne). lia.
Qed.
End TrendExtractionFacts.

Section TrendExtractionInstances.
Import ContentAggregator.

Lemma extract_trends_top_keywords_witness :
  exists t, t ∈ extract_trends Samples.blockchain_articles 5
            /\ trend_title t = lit "Blockchain"
            /\ frequency t = 4.
Proof.
  destruct (extract_trends_top_keywords Samples.blockchain_articles 5)
    as (_ & _ & _ & _ & _ & _ & _ & _ & Hone).
  apply (Hone (lit "blockchain")).
  - vm_compute. lia.
  - vm_compute. lia.
  - intros w Hne.
    change (filtered_words (all_text Samples.blockchain_articles))
      with (map lit [ "blockchain"; "adoption"; "grows"; "banks"; "test";
                      "blockchain"; "why"; "blockchain"; "blockchain";
                      "primer" ]%string).
    unfold occurrences. simpl.
    rewrite (bool_decide_eq_false_2 (lit "blockchain" = w)) by congruence.
    repeat match goal with
           | |- context [bool_decide (lit ?x = w)] =>
               destruct (decide (lit x = w)) as [<-|?];
               [vm_compute; lia
               |rewrite (bool_decide_eq_false_2 (lit x = w)) by done]
           end.
    simpl. lia.
  - lia.
Defined.

(** C5 as stated fails: here ["blockchain"] has more than 3 letters and
    occurs twice, and it is the only keyword that qualifies, but five words
    of three letters are more frequent and fill the five places, so that no
    trend is returned. *)
Lemma extract_trends_qualifying_keyword_counterexample :
  ~ (forall (articles : list Article) (max_trends : Z) (kw : str),
       3 < length kw ->
       1 < occurrences kw (filtered_words (all_text articles)) ->
       length (List.filter qualifies
                 (Counter (filtered_words (all_text articles))))
       <= Z.to_nat max_trends ->
       exists t, t ∈ extract_trends articles max_trends
                 /\ trend_title t = title_case kw
                 /\ frequency t = occurrences kw (filtered_words (all_text articles))).
Proof.
  intros Hclaim.
  destruct (Hclaim Samples.crowded_articles 5%Z (lit "blockchain"))
    as (t & Ht & _).
  - vm_compute. lia.
  - vm_compute. lia.
  - vm_compute. lia.
  - change (extract_trends Samples.crowded_articles 5) with (@nil Trend) in Ht.
    by apply elem_of_nil in Ht.
Qed.
End TrendExtractionInstances.

(** ** models.py: reading, saving and deleting rows *)

Section ModelsMoreFacts.
Import Supabase Models.
Context {F : Type}.

Lemma select_elem {R : Type} (filters : list (R -> bool)) (rows : list R) (r : R) :
  r ∈ select filters rows <-> r ∈ rows /\ matches filters r = true.
Proof. unfold select. by rewrite !list_elem_of_In, filter_In. Qed.

Lemma matches_two {R : Type} (f g : R -> bool) (r : R) :
  matches [f; g] r = f r && g r.
Proof. unfold matches. simpl. by rewrite andb_true_r. Qed.

Lemma matches_single {R : Type} (f : R -> bool) (r : R) :
  matches [f] r = f r.
Proof. unfold matches. simpl. by rewrite andb_true_r. Qed.



Lemma fetch_newsletters_sorted (db : Database F) (user_id : str) :
  StronglySorted (fun a b => (n_created_at b <= n_created_at a)%Z)
                 (fetch_newsletters db user_id).
Proof.
  unfold fetch_newsletters, execute.
  destruct (available db); [apply sort_desc_sorted|constructor].
Qed.

(** X1: [fetch_newsletters] returns rows of the store that belong to the
    user, the newest first; when the backend answers they are all the
    user's rows, and when it raises the list is empty. *)
Theorem fetch_newsletters_own_newest_first (db : Database F) (user_id : str) :
  Forall (fun n => n_user_id n = user_id /\ n ∈ newsletters db)
         (fetch_newsletters db user_id)
  /\ StronglySorted (fun a b => (n_created_at b <= n_created_at a)%Z)
                    (fetch_newsletters db user_id)
  /\ (if available db
      then fetch_newsletters db user_id
           ≡ₚ List.filter (fun n => bool_decide (n_user_id n = user_id))
                          (newsletters db)
      else fetch_newsletters db user_id = []).
Proof.
  unfold fetch_newsletters, execute.
  destruct (available db); [|repeat split; constructor].
  split; [|split].
  - rewrite sort_desc_perm. apply Forall_forall. intros n Hn.
    apply select_elem in Hn as [Hn Hm]. split; [|done].
    unfold matches, eq_ in Hm. simpl in Hm. rewrite andb_true_r in Hm.
    by apply bool_decide_eq_true in Hm.
  - apply sort_desc_sorted.
  - rewrite sort_desc_perm. unfold select.
    erewrite filter_ext; [reflexivity|].
    intros n. unfold matches, eq_. simpl. by rewrite andb_true_r.
Qed.

Lemma filter_disjoint_length {R : Type} (p q : R -> bool) (rows : list R) :
  (forall r, p r = true -> q r = false) ->
  length (List.filter p rows) + length (List.filter q rows) <= length rows.
Proof.
  intros Hpq. induction rows as [|r rows IH]; simpl; [done|].
  destruct (p r) eqn:Ep.
  - rewrite (Hpq r Ep). simpl. lia.
  - destruct (q r); simpl; lia.
Qed.

(** X2: in the statistics of a user, drafts and published newsletters
    together are never more than the total, and the last newsletter date
    is missing exactly when the user has no newsletter listed and is
    otherwise the greatest creation time among the listed ones. *)
Theorem get_user_stats_counts_and_last_date (db : Database F) (user_id : str) :
  draft_newsletters (get_user_stats db user_id)
  + published_newsletters (get_user_stats db user_id)
  <= total_newsletters (get_user_stats db user_id)
  /\ total_newsletters (get_user_stats db user_id)
     = length (fetch_newsletters db user_id)
  /\ match last_newsletter_date (get_user_stats db user_id) with
     | None => fetch_newsletters db user_id = []
     | Some d =>
         Forall (fun n => (n_created_at n <= d)%Z) (fetch_newsletters db user_id)
         /\ Exists (fun n => n_created_at n = d) (fetch_newsletters db user_id)
     end.
Proof.
  unfold get_user_stats. simpl.
  split; [|split; [done|]].
  - apply filter_disjoint_length. intros n Hd.
    apply bool_decide_eq_true in Hd. rewrite Hd. by vm_compute.
  - pose proof (fetch_newsletters_sorted db user_id) as Hs.
    destruct (fetch_newsletters db user_id) as [|n l]; [done|].
    apply StronglySorted_inv in Hs as [_ Hall].
    split; [|by apply Exists_cons_hd].
    constructor; [lia|done].
Qed.

(** X3: [save_newsletter] refuses data without a user: nothing is written
    and nothing is returned.  With a user, a backend that answers and an
    identifier no row has yet, it appends one row, returns its identifier,
    and [get_newsletter_by_id] then finds this row for its owner and
    nothing for any other user. *)
Theorem save_newsletter_then_get (db : Database F) (new_id : str)
    (data : NewsletterData) :
  available db = true ->
  Forall (fun n => n_id n <> new_id) (newsletters db) ->
  match nd_user_id data with
  | None | Some [] => save_newsletter db new_id data = (db, None)
  | Some user_id =>
      exists row,
        save_newsletter db new_id data
        = (set_newsletters db (newsletters db ++ [row]), Some new_id)
        /\ n_id row = new_id /\ n_user_id row = user_id
        /\ n_title row = nd_title data /\ n_content row = nd_content data
        /\ n_status row = nd_status data
        /\ get_newsletter_by_id (fst (save_newsletter db new_id data))
                                new_id user_id = Some row
        /\ forall other, other <> user_id ->
             get_newsletter_by_id (fst (save_newsletter db new_id data))
                                  new_id other = None
  end.
Proof.
  intros Hav Hfresh.
  destruct (nd_user_id data) as [[|c u]|] eqn:Eu; unfold save_newsletter;
    rewrite Eu; [done| |done].
  unfold execute, insert. rewrite Hav. simpl.
  eexists. split; [reflexivity|]. simpl.
  assert (Hold : forall u',
             select [eq_ n_id new_id; eq_ n_user_id u'] (newsletters db) = []).
  { intros u'. apply filter_none. eapply Forall_impl; [exact Hfresh|].
    intros n Hn. rewrite matches_two. unfold eq_.
    by rewrite (bool_decide_eq_false_2 _ Hn). }
  repeat (split; [done|]).
  split.
  - unfold get_newsletter_by_id, execute. simpl. rewrite Hav.
    unfold select. rewrite List.filter_app. fold (select [eq_ n_id new_id; eq_ n_user_id (c :: u)] (newsletters db)).
    rewrite Hold. cbn [app List.filter]. rewrite matches_two. unfold eq_.
    cbn [n_id n_user_id]. by rewrite !bool_decide_eq_true_2.
  - intros other Hother.
    unfold get_newsletter_by_id, execute. simpl. rewrite Hav.
    unfold select. rewrite List.filter_app. fold (select [eq_ n_id new_id; eq_ n_user_id other] (newsletters db)).
    rewrite Hold. cbn [app List.filter]. rewrite matches_two. unfold eq_.
    cbn [n_id n_user_id].
    rewrite (bool_decide_eq_false_2 (c :: u = other)) by done.
    by rewrite andb_false_r.
Qed.

(** X4: [get_newsletter_by_id] only ever returns a row of the store that
    has the identifier asked for and belongs to the user asking. *)
Theorem get_newsletter_by_id_own_row (db : Database F)
    (newsletter_id user_id : str) (n : Newsletter) :
  get_newsletter_by_id db newsletter_id user_id = Some n ->
  n ∈ newsletters db /\ n_id n = newsletter_id /\ n_user_id n = user_id.
Proof.
  unfold get_newsletter_by_id, execute.
  destruct (available db); [|done].
  destruct (select _ _) as [|r [|r' l]] eqn:E; try done.
  intros [= ->].
  assert (Hin : n ∈ select [eq_ n_id newsletter_id; eq_ n_user_id user_id]
                        (newsletters db)).
  { rewrite E. apply list_elem_of_here. }
  apply select_elem in Hin as [Hin Hm]. rewrite matches_two in Hm.
  apply andb_prop in Hm as [H1 H2]. unfold eq_ in *.
  apply bool_decide_eq_true in H1, H2. done.
Qed.




End ModelsMoreFacts.

Section ModelsMoreInstances.
Import Supabase Models.

Lemma save_newsletter_then_get_witness :
  exists row,
    save_newsletter Samples.store (lit "n3") Samples.carol_draft
    = (set_newsletters Samples.store (newsletters Samples.store ++ [row]),
       Some (lit "n3"))
    /\ n_id row = lit "n3" /\ n_user_id row = lit "carol"
    /\ n_title row = nd_title Samples.carol_draft
    /\ n_content row = nd_content Samples.carol_draft
    /\ n_status row = nd_status Samples.carol_draft
    /\ get_newsletter_by_id
         (fst (save_newsletter Samples.store (lit "n3") Samples.carol_draft))
         (lit "n3") (lit "carol") = Some row
    /\ forall other, other <> lit "carol" ->
         get_newsletter_by_id
           (fst (save_newsletter Samples.store (lit "n3") Samples.carol_draft))
           (lit "n3") other = None.
Proof.
  refine (save_newsletter_then_get Samples.store (lit "n3") Samples.carol_draft
            eq_refl _).
  repeat constructor; vm_compute; discriminate.
Defined.

Lemma get_newsletter_by_id_own_row_witness :
  Samples.newsletter_of "n1" "bob" 1000 ∈ newsletters Samples.store
  /\ n_id (Samples.newsletter_of "n1" "bob" 1000) = lit "n1"
  /\ n_user_id (Samples.newsletter_of "n1" "bob" 1000) = lit "bob".
Proof.
  apply (get_newsletter_by_id_own_row Samples.store (lit "n1") (lit "bob")).
  reflexivity.
Defined.


End ModelsMoreInstances.

(** ** feedback_system.py: reactions and their statistics *)

Section FeedbackStatsFacts.
Import Supabase FeedbackSystem.
Context {F : Type} `{FloatOps F}.
Variable unified_diff : list str -> list str -> list str.

Lemma select_two {R : Type} (f g : R -> bool) (rows : list R) :
  select [f; g] rows = List.filter g (List.filter f rows).
Proof.
  unfold select. induction rows as [|r rows IH]; simpl; [done|].
  rewrite andb_true_r. destruct (f r); simpl; [|done].
  destruct (g r); by rewrite IH.
Qed.

Lemma count_reactions_le (reactions : list str) (fs : list (Feedback F)) :
  count_reactions reactions fs <= length fs.
Proof. apply filter_length_le. Qed.

Lemma count_reactions_app (reactions : list str) (fs gs : list (Feedback F)) :
  count_reactions reactions (fs ++ gs)
  = count_reactions reactions fs + count_reactions reactions gs.
Proof. unfold count_reactions. by rewrite List.filter_app, length_app. Qed.

Lemma count_reactions_one (x : str) (row : Feedback F) :
  count_reactions [x] [row] = if bool_decide (fb_reaction row = x) then 1 else 0.
Proof.
  unfold count_reactions. cbn [List.filter].
  destruct (decide (fb_reaction row = x)) as [Heq|Hne].
  - rewrite !bool_decide_eq_true_2; [done|done|].
    rewrite Heq. apply list_elem_of_here.
  - rewrite !bool_decide_eq_false_2; [done|done|].
    by intros ?%list_elem_of_singleton.
Qed.

Lemma get_feedback_stats_fields (db : Database F) (now : Z) (user_id : str)
    (days : Z) :
  available db = true ->
  exists st,
    get_feedback_stats db now user_id days = Some st
    /\ fs_total_newsletters st = length (feedback_in_window db now user_id days)
    /\ fs_thumbs_up st
       = count_reactions [lit "thumbs_up"] (feedback_in_window db now user_id days)
    /\ fs_thumbs_down st
       = count_reactions [lit "thumbs_down"] (feedback_in_window db now user_id days).
Proof.
  intros Hav. unfold get_feedback_stats, execute. rewrite Hav.
  destruct (feedback_in_window db now user_id days) as [|f fs];
    eexists; (split; [reflexivity|]); done.
Qed.

(** X7: the statistics [get_feedback_stats] returns count only feedback
    rows of the user inside the window: the total is their number, and
    thumbs-up and thumbs-down together never exceed it; the function
    returns nothing exactly when the backend call raises. *)
Theorem get_feedback_stats_counts (db : Database F) (now : Z) (user_id : str)
    (days : Z) :
  Forall (fun f => fb_user_id f = user_id
                   /\ (now - days * 86400 <= fb_created_at f)%Z
                   /\ f ∈ newsletter_feedback db)
         (feedback_in_window db now user_id days)
  /\ match get_feedback_stats db now user_id days with
     | None => available db = false
     | Some st =>
         available db = true
         /\ fs_total_newsletters st
            = length (feedback_in_window db now user_id days)
         /\ fs_thumbs_up st + fs_thumbs_down st <= fs_total_newsletters st
     end.
Proof.
  split.
  - apply Forall_forall. intros f Hf. unfold feedback_in_window in Hf.
    apply select_elem in Hf as [Hin Hm]. rewrite matches_two in Hm.
    apply andb_prop in Hm as [Hu Ht]. unfold eq_, gte_ in *.
    apply bool_decide_eq_true in Hu. apply Z.leb_le in Ht. done.
  - destruct (available db) eqn:Hav.
    + destruct (get_feedback_stats_fields db now user_id days Hav)
        as (st & -> & Ht & Hup & Hdown).
      split; [done|]. split; [done|]. rewrite Ht, Hup, Hdown.
      unfold count_reactions.
      apply filter_disjoint_length. intros f Hf.
      apply bool_decide_eq_true, list_elem_of_singleton in Hf.
      apply bool_decide_eq_false. rewrite Hf.
      intros Hx%list_elem_of_singleton. discriminate Hx.
    + unfold get_feedback_stats, execute. by rewrite Hav.
Qed.

(** X8: the statistics of a user do not depend on the feedback of other
    users: two stores that hold the same feedback rows of the user, and
    both answer or both raise, give the same statistics. *)
Theorem get_feedback_stats_isolated (db1 db2 : Database F) (now : Z)
    (user_id : str) (days : Z) :
  available db1 = available db2 ->
  List.filter (fun f => bool_decide (fb_user_id f = user_id))
              (newsletter_feedback db1)
  = List.filter (fun f => bool_decide (fb_user_id f = user_id))
                (newsletter_feedback db2) ->
  get_feedback_stats db1 now user_id days = get_feedback_stats db2 now user_id days.
Proof.
  intros Hav Hrows.
  assert (Hw : feedback_in_window db1 now user_id days
               = feedback_in_window db2 now user_id days).
  { unfold feedback_in_window. rewrite !select_two. unfold eq_.
    by rewrite Hrows. }
  unfold get_feedback_stats, execute. by rewrite Hav, Hw.
Qed.

Lemma record_feedback_row (db : Database F) (update_answered : bool)
    (now : Z) (newsletter_id user_id reaction : str)
    (edited_content original_content : option str) :
  available db = true ->
  exists row,
    newsletter_feedback
      (fst (record_feedback unified_diff db update_answered now newsletter_id
                            user_id reaction edited_content original_content))
    = newsletter_feedback db ++ [row]
    /\ fb_user_id row = user_id
    /\ fb_reaction row = reaction
    /\ fb_created_at row = now
    /\ available
         (fst (record_feedback unified_diff db update_answered now
                 newsletter_id user_id reaction edited_content
                 original_content)) = true.
Proof.
  intros Hav. unfold record_feedback, execute, insert. rewrite Hav.
  cbn [available answering].
  destruct (truthy edited_content && truthy original_content);
    destruct (bool_decide (reaction ∈ _)); destruct update_answered;
    cbn [fst set_feedback_and_newsletters newsletter_feedback available update];
    eexists; (split; [reflexivity|]); done.
Qed.


(** X10: a reaction recorded is counted, whether or not the update of
    the status that may follow is answered: when the backend answers the
    insert and the window is not negative, the statistics of the user read
    at the instant of the call have one more feedback than before, one more
    thumbs-up if the reaction was ["thumbs_up"], one more thumbs-down if it
    was ["thumbs_down"]. *)
Theorem record_feedback_then_stats (db : Database F) (update_answered : bool)
    (now : Z) (newsletter_id user_id reaction : str)
    (edited_content original_content : option str) (days : Z) :
  available db = true -> (0 <= days)%Z ->
  exists before after,
    get_feedback_stats db now user_id days = Some before
    /\ get_feedback_stats
         (fst (record_feedback unified_diff db update_answered now newsletter_id
                               user_id reaction edited_content original_content))
         now user_id days = Some after
    /\ fs_total_newsletters after = S (fs_total_newsletters before)
    /\ fs_thumbs_up after
       = fs_thumbs_up before + (if bool_decide (reaction = lit "thumbs_up") then 1 else 0)
    /\ fs_thumbs_down after
       = fs_thumbs_down before
         + (if bool_decide (reaction = lit "thumbs_down") then 1 else 0).
Proof.
  intros Hav Hdays.
  destruct (record_feedback_row db update_answered now newsletter_id user_id
              reaction edited_content original_content Hav)
    as (row & Hrows & Hu & Hr & Ht & Hav').
  set (db' := fst (record_feedback unified_diff db update_answered now
                     newsletter_id user_id reaction edited_content
                     original_content)) in *.
  assert (Hw : feedback_in_window db' now user_id days
               = feedback_in_window db now user_id days ++ [row]).
  { unfold feedback_in_window, select. rewrite Hrows, List.filter_app.
    f_equal. cbn [List.filter]. rewrite matches_two. unfold eq_, gte_.
    rewrite Hu, Ht, bool_decide_eq_true_2 by done.
    by rewrite (proj2 (Z.leb_le _ _)) by lia. }
  destruct (get_feedback_stats_fields db now user_id days Hav)
    as (before & Hb & Hbt & Hbu & Hbd).
  destruct (get_feedback_stats_fields db' now user_id days Hav')
    as (after & Ha & Hat & Hau & Had).
  exists before, after. split; [done|]. split; [done|].
  rewrite Hat, Hau, Had, Hbt, Hbu, Hbd, Hw, length_app, !count_reactions_app.
  split; [simpl; lia|].
  rewrite !count_reactions_one, Hr. done.
Qed.
End FeedbackStatsFacts.

Section FeedbackStatsInstances.
Import Supabase FeedbackSystem.

Lemma get_feedback_stats_isolated_witness :
  get_feedback_stats
    (Samples.store_with_feedback [Samples.feedback_of "n1" "bob" "thumbs_up" 2900])
    3000 (lit "bob") 30
  = get_feedback_stats
      (Samples.store_with_feedback
         [ Samples.feedback_of "n2" "alice" "thumbs_down" 2800;
           Samples.feedback_of "n1" "bob" "thumbs_up" 2900;
           Samples.feedback_of "n1" "alice" "accepted" 2950 ])
      3000 (lit "bob") 30.
Proof.
  apply get_feedback_stats_isolated; reflexivity.
Defined.


Lemma record_feedback_then_stats_witness :
  exists before after,
    get_feedback_stats Samples.store 3000 (lit "bob") 30 = Some before
    /\ get_feedback_stats
         (fst (record_feedback Samples.no_diff Samples.store true 3000
                 (lit "n1") (lit "bob") (lit "thumbs_up") None None))
         3000 (lit "bob") 30 = Some after
    /\ fs_total_newsletters after = S (fs_total_newsletters before)
    /\ fs_thumbs_up after
       = fs_thumbs_up before
         + (if bool_decide (lit "thumbs_up" = lit "thumbs_up") then 1 else 0)
    /\ fs_thumbs_down after
       = fs_thumbs_down before
         + (if bool_decide (lit "thumbs_up" = lit "thumbs_down") then 1 else 0).
Proof.
  apply (record_feedback_then_stats Samples.no_diff Samples.store true 3000).
  - reflexivity.
  - lia.
Defined.
End FeedbackStatsInstances.

(** ** feedback_system.py: review timers and edit history *)

Section ReviewTimerFacts.
Import Supabase ReviewTracking.
Context {F : Type} `{FloatOps F}.

Lemma filter_map_update {R : Type} (p : R -> bool) (u : R -> R) (rows : list R) :
  (forall r, p (u r) = p r) ->
  List.filter p (map (fun r => if p r then u r else r) rows)
  = map u (List.filter p rows)
  /\ List.filter (fun r => negb (p r)) (map (fun r => if p r then u r else r) rows)
     = List.filter (fun r => negb (p r)) rows.
Proof.
  intros Hu. induction rows as [|r rows [IH1 IH2]]; cbn [map List.filter]; [done|].
  destruct (p r) eqn:Ep.
  - rewrite Hu, Ep. cbn [negb map]. by rewrite IH1, IH2.
  - rewrite Ep. cbn [negb]. by rewrite IH1, IH2.
Qed.

(** X11: when the backend answers, [start_review_timer] reports success
    and leaves every timer of the newsletter and the user active and
    started at the instant of the call; there is then at least one such
    timer, and no more than before when there was one already; the timers
    of other newsletters and users and the edit history are unchanged.
    When the backend raises, the tables are unchanged and the call reports
    failure. *)
Theorem start_review_timer_one_active (t : Tables F) (now : Z)
    (new_id newsletter_id user_id : str) :
  let pair := matches [eq_ rt_newsletter_id newsletter_id;
                       eq_ rt_user_id user_id] in
  let t' := fst (start_review_timer t now new_id newsletter_id user_id) in
  if reachable t then
    snd (start_review_timer t now new_id newsletter_id user_id) = true
    /\ Forall (fun r => rt_status r = lit "active" /\ rt_started_at r = now)
              (List.filter pair (review_timers t'))
    /\ length (List.filter pair (review_timers t'))
       = Nat.max 1 (length (List.filter pair (review_timers t)))
    /\ List.filter (fun r => negb (pair r)) (review_timers t')
       = List.filter (fun r => negb (pair r)) (review_timers t)
    /\ edit_history t' = edit_history t
  else
    start_review_timer t now new_id newsletter_id user_id = (t, false).
Proof.
  intros pair t'. subst t'. unfold start_review_timer, run.
  destruct (reachable t); [|done].
  unfold select. fold pair.
  destruct (List.filter pair (review_timers t)) as [|r0 rest] eqn:Esel.
  - cbn [fst snd insert set_review_timers review_timers edit_history].
    rewrite !List.filter_app, Esel.
    assert (Hp : pair (new_timer now new_id newsletter_id user_id) = true).
    { subst pair. unfold matches, eq_. cbn. by rewrite !bool_decide_eq_true_2. }
    cbn [List.filter]. rewrite Hp. cbn [negb app length].
    repeat split; [|by rewrite app_nil_r].
    constructor; [done|constructor].
  - cbn [fst snd update set_review_timers review_timers edit_history].
    destruct (filter_map_update pair (restart now) (review_timers t)) as [E1 E2];
      [done|].
    fold pair. rewrite E1, E2, Esel.
    repeat split.
    + apply Forall_forall. intros r Hr. apply list_elem_of_fmap in Hr as (r' & -> & _).
      done.
    + rewrite length_map. cbn [length]. lia.
Qed.

Lemma filter_map_commute {R : Type} (p : R -> bool) (g : R -> R) (rows : list R) :
  (forall r, p (g r) = p r) ->
  List.filter p (map g rows) = map g (List.filter p rows).
Proof.
  intros Hg. induction rows as [|r rows IH]; cbn [map List.filter]; [done|].
  rewrite Hg, IH. by destruct (p r).
Qed.

Lemma select_active (newsletter_id user_id : str) (rows : list (ReviewTimer F)) :
  select [eq_ rt_newsletter_id newsletter_id; eq_ rt_user_id user_id;
          eq_ rt_status (lit "active")] rows
  = List.filter (eq_ rt_status (lit "active"))
      (List.filter (matches [eq_ rt_newsletter_id newsletter_id;
                             eq_ rt_user_id user_id]) rows).
Proof.
  unfold select. induction rows as [|r rows IH]; [done|].
  cbn [List.filter]. rewrite IH.
  assert (E : matches [eq_ rt_newsletter_id newsletter_id; eq_ rt_user_id user_id;
                       eq_ rt_status (lit "active")] r
              = matches [eq_ rt_newsletter_id newsletter_id;
                         eq_ rt_user_id user_id] r
                && eq_ rt_status (lit "active") r).
  { unfold matches. cbn [forallb]. rewrite !andb_true_r. by rewrite andb_assoc. }
  rewrite E.
  destruct (matches [eq_ rt_newsletter_id newsletter_id; eq_ rt_user_id user_id] r);
    [|done].
  cbn [andb List.filter]. done.
Qed.

Lemma start_review_timer_rows (t : Tables F) (now : Z)
    (new_id newsletter_id user_id : str) :
  reachable t = true ->
  exists r rest,
    List.filter (matches [eq_ rt_newsletter_id newsletter_id;
                          eq_ rt_user_id user_id])
                (review_timers
                   (fst (start_review_timer t now new_id newsletter_id user_id)))
    = r :: rest
    /\ Forall (fun r => rt_status r = lit "active" /\ rt_started_at r = now)
              (r :: rest)
    /\ length rest
       = pred (length (List.filter
                         (matches [eq_ rt_newsletter_id newsletter_id;
                                   eq_ rt_user_id user_id])
                         (review_timers t)))
    /\ reachable (fst (start_review_timer t now new_id newsletter_id user_id))
       = true.
Proof.
  intros Hr. unfold start_review_timer, run, select. rewrite Hr. cbv zeta.
  set (pair := matches _).
  destruct (List.filter pair (review_timers t)) as [|r0 rest] eqn:Esel.
  - cbn [fst insert set_review_timers review_timers reachable].
    rewrite List.filter_app, Esel.
    assert (Hp : pair (new_timer now new_id newsletter_id user_id) = true).
    { subst pair. unfold matches, eq_. cbn. by rewrite !bool_decide_eq_true_2. }
    cbn [List.filter]. rewrite Hp. cbn [app].
    eexists _, []. repeat split; [|done]. by repeat constructor.
  - cbn [fst update set_review_timers review_timers reachable].
    destruct (filter_map_update pair (restart now) (review_timers t)) as [E1 _];
      [done|].
    subst pair. rewrite E1, Esel. cbn [map].
    eexists _, _. repeat split; [|by rewrite length_map|done].
    constructor; [done|].
    apply Forall_forall. intros r Hr'.
    by apply list_elem_of_fmap in Hr' as (r' & -> & _).
Qed.

Lemma filter_active_all (rows : list (ReviewTimer F)) (P : ReviewTimer F -> Prop) :
  Forall (fun r => rt_status r = lit "active" /\ P r) rows ->
  List.filter (eq_ rt_status (lit "active")) rows = rows.
Proof.
  intros Hall. apply filter_all. eapply Forall_impl; [exact Hall|].
  intros r [Hs _]. unfold eq_. by apply bool_decide_eq_true_2.
Qed.


Lemma complete_not_active (ended_at : Z) (duration : F) (action : str)
    (r : ReviewTimer F) :
  eq_ rt_status (lit "active") (complete ended_at duration action r) = false.
Proof. unfold eq_. by apply bool_decide_eq_false_2. Qed.

(** X13: when the table holds at most one timer for a newsletter and a
    user, starting and then stopping the timer leaves exactly one row for
    them, completed, with the instant of the stop, the duration returned
    and the action; a second stop finds no active timer: it returns nothing
    and leaves the tables as they are. *)
Theorem stop_review_timer_completes_once (t : Tables F)
    (started stopped later : Z) (new_id newsletter_id user_id action again : str) :
  reachable t = true ->
  length (List.filter (matches [eq_ rt_newsletter_id newsletter_id;
                                eq_ rt_user_id user_id]) (review_timers t)) <= 1 ->
  let running := fst (start_review_timer t started new_id newsletter_id user_id) in
  let stopped_once :=
    fst (stop_review_timer running stopped newsletter_id user_id action) in
  (exists r,
     List.filter (matches [eq_ rt_newsletter_id newsletter_id;
                           eq_ rt_user_id user_id])
                 (review_timers stopped_once) = [r]
     /\ rt_status r = lit "completed"
     /\ rt_started_at r = started
     /\ rt_ended_at r = Some stopped
     /\ rt_duration_minutes r = Some (minutes_between started stopped)
     /\ rt_action r = Some action)
  /\ stop_review_timer stopped_once later newsletter_id user_id again
     = (stopped_once, None).
Proof.
  intros Hr Hone running stopped_once.
  destruct (start_review_timer_rows t started new_id newsletter_id user_id Hr)
    as (r & rest & Esel & Hall & Hlen & Hr').
  fold running in Esel, Hr'.
  assert (rest = []) as ->.
  { destruct rest; [done|]. cbn [length] in Hlen. lia. }
  set (pair := matches [eq_ rt_newsletter_id newsletter_id;
                        eq_ rt_user_id user_id]) in *.
  assert (Estop :
    List.filter pair (review_timers stopped_once)
    = [complete stopped (minutes_between started stopped) action r]
    /\ reachable stopped_once = true).
  { subst stopped_once. unfold stop_review_timer, run.
    rewrite Hr', select_active. fold pair. rewrite Esel.
    rewrite (filter_active_all _ _ Hall).
    cbn [fst update set_review_timers review_timers reachable].
    split; [|done].
    rewrite filter_map_commute.
    - rewrite Esel. cbn [map]. rewrite matches_single. unfold eq_ at 1.
      rewrite bool_decide_eq_true_2 by done.
      apply Forall_cons in Hall as [[_ ->] _]. done.
    - intros r'. by destruct (matches [eq_ rt_id (rt_id r)] r'). }
  destruct Estop as [Estop Hr''].
  split.
  - eexists. split; [exact Estop|]. cbn.
    apply Forall_cons in Hall as [[_ ->] _]. done.
  - unfold stop_review_timer, run. rewrite Hr'', select_active. fold pair.
    rewrite Estop. cbn [List.filter]. by rewrite complete_not_active.
Qed.

Lemma NoDup_fmap_inj_on {A B : Type} (f : A -> B) (l : list A) (x y : A) :
  NoDup (map f l) -> x ∈ l -> y ∈ l -> f x = f y -> x = y.
Proof.
  induction l as [|a l IH]; intros Hnd Hx Hy Hf; [by apply elem_of_nil in Hx|].
  cbn [map] in Hnd. apply NoDup_cons in Hnd as [Ha Hnd].
  apply elem_of_cons in Hx as [->|Hx]; apply elem_of_cons in Hy as [->|Hy].
  - done.
  - exfalso. apply Ha. rewrite Hf. by apply list_elem_of_fmap_2.
  - exfalso. apply Ha. rewrite <- Hf. by apply list_elem_of_fmap_2.
  - by apply IH.
Qed.

Lemma filter_map_unchanged_on {R : Type} (P : R -> bool) (g : R -> R)
    (rows : list R) :
  (forall r, r ∈ rows -> g r = r \/ (P r = false /\ P (g r) = false)) ->
  List.filter P (map g rows) = List.filter P rows.
Proof.
  induction rows as [|r rows IH]; intros Hg; cbn [map List.filter]; [done|].
  rewrite IH by (intros r' Hr'; apply Hg; by right).
  destruct (Hg r) as [->|[-> ->]]; [by left|done..].
Qed.

(** X14: when the identifiers of the timers are distinct, a call of
    [stop_review_timer] changes no row of another newsletter or another
    user, adds or removes no row, and leaves the edit history alone. *)
Theorem stop_review_timer_frame (t : Tables F) (now : Z)
    (newsletter_id user_id action : str) :
  NoDup (map rt_id (review_timers t)) ->
  let t' := fst (stop_review_timer t now newsletter_id user_id action) in
  List.filter (fun r => negb (matches [eq_ rt_newsletter_id newsletter_id;
                                       eq_ rt_user_id user_id] r))
              (review_timers t')
  = List.filter (fun r => negb (matches [eq_ rt_newsletter_id newsletter_id;
                                         eq_ rt_user_id user_id] r))
                (review_timers t)
  /\ map rt_id (review_timers t') = map rt_id (review_timers t)
  /\ edit_history t' = edit_history t.
Proof.
  intros Hnd t'. subst t'. unfold stop_review_timer, run.
  destruct (reachable t); [|done].
  destruct (select _ (review_timers t)) as [|timer rest] eqn:Esel; [done|].
  cbn [fst update set_review_timers review_timers edit_history].
  assert (Ht : timer ∈ review_timers t
               /\ matches [eq_ rt_newsletter_id newsletter_id;
                           eq_ rt_user_id user_id] timer = true).
  { assert (Hin : timer ∈ select [eq_ rt_newsletter_id newsletter_id;
                                  eq_ rt_user_id user_id;
                                  eq_ rt_status (lit "active")] (review_timers t))
      by (rewrite Esel; left).
    apply select_elem in Hin as [Hin Hm]. split; [done|].
    unfold matches in *. cbn [forallb] in *.
    apply andb_true_iff in Hm as [H1 Hm]. apply andb_true_iff in Hm as [H2 _].
    by rewrite H1, H2. }
  destruct Ht as [Hin Hpair].
  repeat split.
  - apply filter_map_unchanged_on. intros r Hr.
    rewrite matches_single. unfold eq_ at 1.
    destruct (bool_decide (rt_id r = rt_id timer)) eqn:Eid; [|by left].
    apply bool_decide_eq_true in Eid.
    assert (r = timer) as -> by (by eapply NoDup_fmap_inj_on).
    right. rewrite Hpair. split; [done|].
    destruct (eq_ rt_id (rt_id timer) timer);
      [change (negb (matches [eq_ rt_newsletter_id newsletter_id;
                              eq_ rt_user_id user_id] timer) = false)|];
      by rewrite Hpair.
  - rewrite map_map. apply map_ext. intros r.
    by destruct (matches [eq_ rt_id (rt_id timer)] r).
Qed.
End ReviewTimerFacts.

Section EditPatternFacts.
Import Supabase ReviewTracking.
Context {F : Type} `{FloatOps F}.

Lemma edit_trend_labels (edit_ratios : list F) :
  (length edit_ratios < 5 /\ edit_trend edit_ratios = lit "insufficient_data")
  \/ (5 <= length edit_ratios
      /\ (edit_trend edit_ratios = lit "improving"
          \/ edit_trend edit_ratios = lit "declining"
          \/ edit_trend edit_ratios = lit "stable")).
Proof.
  unfold edit_trend.
  destruct (Nat.leb_spec 5 (length edit_ratios)) as [Hge|Hlt]; [|by left].
  right. split; [done|].
  destruct (f_ltb _ _); [by left|].
  destruct (f_ltb _ _); [right; by left|right; by right].
Qed.

Lemma edit_ratios_of_length (edits : list (EditRecord F)) :
  length (edit_ratios_of edits) <= length edits.
Proof.
  unfold edit_ratios_of. induction edits as [|e edits IH]; [done|].
  cbn [omap list_omap]. destruct (eh_edit_metrics e); cbn [length]; lia.
Qed.

(** X15: when the backend answers, [get_edit_patterns] reports the trend
    ["no_data"] exactly when no edit of the user in the window carries a
    dictionary of metrics, ["insufficient_data"] exactly when between one
    and four do, and otherwise one of ["improving"], ["declining"] and
    ["stable"]; the total it reports is zero with no such edit and
    otherwise the number of all the user's edits in the window, which is
    at least the number of ratios averaged. *)
Theorem get_edit_patterns_trend (t : Tables F) (now : Z) (user_id : str)
    (days : Z) :
  reachable t = true ->
  let edits := edits_in_window t now user_id days in
  let edit_ratios := edit_ratios_of edits in
  exists p,
    get_edit_patterns t now user_id days = Some p
    /\ (improvement_trend p = lit "no_data" <-> edit_ratios = [])
    /\ (improvement_trend p = lit "insufficient_data"
        <-> 0 < length edit_ratios < 5)
    /\ (5 <= length edit_ratios ->
        improvement_trend p = lit "improving"
        \/ improvement_trend p = lit "declining"
        \/ improvement_trend p = lit "stable")
    /\ (edit_ratios = [] -> total_edits p = 0)
    /\ (edit_ratios <> [] ->
        total_edits p = length edits /\ length edit_ratios <= total_edits p).
Proof.
  intros Hr. cbv zeta. unfold get_edit_patterns, run. rewrite Hr.
  destruct (edits_in_window t now user_id days) as [|e edits] eqn:Ee.
  { exists no_edit_data. split; [done|]. cbn.
    repeat split; try done; try lia; try discriminate. }
  pose proof (edit_ratios_of_length (e :: edits)) as Hlen.
  destruct (edit_ratios_of (e :: edits)) as [|x ratios] eqn:Er.
  { exists no_edit_data. split; [done|]. cbn.
    repeat split; try done; try lia; try discriminate. }
  eexists. split; [reflexivity|].
  cbn [improvement_trend total_edits].
  destruct (edit_trend_labels (x :: ratios)) as [[Hlt Hl]|[Hge Hl]].
  - rewrite Hl. repeat split; try done; try discriminate; cbn [length] in *; lia.
  - split; [split; [|done]|].
    { destruct Hl as [Hl|[Hl|Hl]]; rewrite Hl; discriminate. }
    split; [split; [|lia]|].
    { destruct Hl as [Hl|[Hl|Hl]]; rewrite Hl; discriminate. }
    repeat split; done.
Qed.
End EditPatternFacts.

Section ReviewInstances.
Import Supabase ReviewTracking.

Lemma stop_review_timer_completes_once_witness :
  let t := Samples.tables in
  let running := fst (start_review_timer t 500000000 (lit "t2") (lit "n2") (lit "alice")) in
  let stopped_once :=
    fst (stop_review_timer running 800000000 (lit "n2") (lit "alice") (lit "sent")) in
  (exists r,
     List.filter (matches [eq_ rt_newsletter_id (lit "n2");
                           eq_ rt_user_id (lit "alice")])
                 (review_timers stopped_once) = [r]
     /\ rt_status r = lit "completed"
     /\ rt_started_at r = 500000000%Z
     /\ rt_ended_at r = Some 800000000%Z
     /\ rt_duration_minutes r = Some (minutes_between 500000000 800000000)
     /\ rt_action r = Some (lit "sent"))
  /\ stop_review_timer stopped_once 900000000 (lit "n2") (lit "alice") (lit "sent")
     = (stopped_once, None).
Proof.
  apply (stop_review_timer_completes_once Samples.tables 500000000 800000000
           900000000 (lit "t2") (lit "n2") (lit "alice") (lit "sent") (lit "sent")).
  - reflexivity.
  - vm_compute. lia.
Defined.

Lemma stop_review_timer_frame_witness :
  let t' := fst (stop_review_timer
                   (fst (start_review_timer Samples.tables 500000000 (lit "t2")
                           (lit "n7") (lit "bob")))
                   800000000 (lit "n7") (lit "bob") (lit "sent")) in
  List.filter (fun r => negb (matches [eq_ rt_newsletter_id (lit "n7");
                                       eq_ rt_user_id (lit "bob")] r))
              (review_timers t')
  = List.filter (fun r => negb (matches [eq_ rt_newsletter_id (lit "n7");
                                         eq_ rt_user_id (lit "bob")] r))
                (review_timers
                   (fst (start_review_timer Samples.tables 500000000 (lit "t2")
                           (lit "n7") (lit "bob"))))
  /\ map rt_id (review_timers t')
     = map rt_id (review_timers
                    (fst (start_review_timer Samples.tables 500000000 (lit "t2")
                            (lit "n7") (lit "bob"))))
  /\ edit_history t'
     = edit_history (fst (start_review_timer Samples.tables 500000000 (lit "t2")
                            (lit "n7") (lit "bob"))).
Proof.
  apply (stop_review_timer_frame
           (fst (start_review_timer Samples.tables 500000000 (lit "t2")
                   (lit "n7") (lit "bob")))
           800000000 (lit "n7") (lit "bob") (lit "sent")).
  apply (bool_decide_unpack _). vm_compute. exact I.
Defined.

Lemma get_edit_patterns_trend_witness :
  let edits := edits_in_window Samples.tables 3000 (lit "bob") 30 in
  let edit_ratios := edit_ratios_of edits in
  exists p,
    get_edit_patterns Samples.tables 3000 (lit "bob") 30 = Some p
    /\ (improvement_trend p = lit "no_data" <-> edit_ratios = [])
    /\ (improvement_trend p = lit "insufficient_data"
        <-> 0 < length edit_ratios < 5)
    /\ (5 <= length edit_ratios ->
        improvement_trend p = lit "improving"
        \/ improvement_trend p = lit "declining"
        \/ improvement_trend p = lit "stable")
    /\ (edit_ratios = [] -> total_edits p = 0)
    /\ (edit_ratios <> [] ->
        total_edits p = length edits /\ length edit_ratios <= total_edits p).
Proof.
  apply (get_edit_patterns_trend Samples.tables 3000 (lit "bob") 30).
  reflexivity.
Defined.
End ReviewInstances.

(** ** social_media_generator.py: cleaning, hashtags and limits *)

Section SocialFacts.
Import ContentAggregator SocialMediaGenerator.

(** X16: [truncate_tweet] with a limit [max_length] returns a text that
    fits the limit exactly when the tweet fits already or the limit is at
    least 3; with such a limit the result is a prefix of the tweet, alone
    or followed by three dots, and truncating it again changes nothing. *)
Theorem truncate_tweet_to_bound (max_length : Z) (tweet : str) :
  (Z.of_nat (length (truncate_tweet_to max_length tweet)) <=? max_length)%Z
  = (Z.of_nat (length tweet) <=? max_length)%Z || (3 <=? max_length)%Z
  /\ ((3 <= max_length)%Z ->
      truncate_tweet_to max_length (truncate_tweet_to max_length tweet)
      = truncate_tweet_to max_length tweet
      /\ exists n, truncate_tweet_to max_length tweet = take n tweet
                   \/ truncate_tweet_to max_length tweet
                      = take n tweet ++ lit "...").
Proof.
  unfold truncate_tweet_to.
  destruct (Z.leb_spec (Z.of_nat (length tweet)) max_length) as [Hfit|Hlong].
  - split.
    + cbn [orb]. by apply Z.leb_le.
    + intros _. split.
      * destruct (Z.leb_spec (Z.of_nat (length tweet)) max_length); [done|lia].
      * exists (length tweet). left. by rewrite firstn_all.
  - assert (Hlen : Z.of_nat (length (slice_to (max_length - 3) tweet ++ lit "..."))
                   = if (3 <=? max_length)%Z then max_length
                     else Z.max 3 (Z.of_nat (length tweet) + max_length)).
    { rewrite length_app. change (length (lit "...")) with 3. unfold slice_to.
      destruct (Z.leb_spec 3 max_length) as [H3|H3].
      - destruct (Z.leb_spec 0 (max_length - 3)); [|lia].
        rewrite length_take. lia.
      - destruct (Z.leb_spec 0 (max_length - 3)); [lia|].
        rewrite length_take. lia. }
    split.
    + rewrite Hlen. cbn [orb].
      destruct (Z.leb_spec 3 max_length) as [H3|H3].
      * apply Z.leb_le. lia.
      * apply Z.leb_gt. lia.
    + intros H3. split.
      * destruct (Z.leb_spec 3 max_length) as [_|?]; [|lia].
        rewrite Hlen.
        destruct (Z.leb_spec max_length max_length); [done|lia].
      * unfold slice_to. destruct (Z.leb_spec 0 (max_length - 3)); [|lia].
        eexists. by right.
Qed.

Lemma truncate_tweet_to_bound_witness :
  (Z.of_nat (length (truncate_tweet_to 10 (lit "A long headline"))) <=? 10)%Z
  = (Z.of_nat (length (lit "A long headline")) <=? 10)%Z || (3 <=? 10)%Z
  /\ truncate_tweet_to 10 (truncate_tweet_to 10 (lit "A long headline"))
     = truncate_tweet_to 10 (lit "A long headline")
  /\ exists n, truncate_tweet_to 10 (lit "A long headline")
               = take n (lit "A long headline")
               \/ truncate_tweet_to 10 (lit "A long headline")
                  = take n (lit "A long headline") ++ lit "...".
Proof.
  destruct (truncate_tweet_to_bound 10 (lit "A long headline")) as [Hfit Hrest].
  split; [exact Hfit|]. apply Hrest. lia.
Defined.

(** X17: the text [clean_html_for_ai] returns has at most 1000
    characters, holds no tag, has single spaces as its only whitespace and
    does not start with a space; it is the whole cleaned text when that has
    at most 1000 characters, and then it does not end with a space
    either. *)
Theorem clean_html_for_ai_clean (html_content : str) :
  length (clean_html_for_ai html_content) <= 1000
  /\ ~ has_tag (clean_html_for_ai html_content)
  /\ single_spaced (clean_html_for_ai html_content) = true
  /\ starts_space (clean_html_for_ai html_content) = false
  /\ (if length (strip (collapse_ws (strip_tags html_content))) <=? 1000
      then clean_html_for_ai html_content
           = strip (collapse_ws (strip_tags html_content))
           /\ from_option is_space false (last (clean_html_for_ai html_content))
              = false
      else length (clean_html_for_ai html_content) = 1000).
Proof.
  unfold clean_html_for_ai. cbv zeta.
  destruct (stripped_text_facts html_content) as (Htag & Hsp & Hst & Hend).
  set (text := strip (collapse_ws (strip_tags html_content))) in *.
  split; [rewrite length_take; lia|].
  split.
  { apply tagless_sound, (tagless_app_l _ (drop 1000 text)).
    by rewrite take_drop. }
  split.
  { apply (single_spaced_app_l _ (drop 1000 text)). by rewrite take_drop. }
  split.
  { destruct text; done. }
  destruct (Nat.leb_spec (length text) 1000) as [Hle|Hgt].
  - rewrite take_ge by done. done.
  - rewrite length_take. lia.
Qed.

Lemma extract_hashtags_go_spec (text : str) :
  forall (cur : option str) (pre : str),
    match cur with
    | Some run => forallb is_word run = true /\ exists p, pre = p ++ "#"%char :: run
    | None => True
    end ->
    Forall (hashtag_at (pre ++ text)) (extract_hashtags_go cur text).
Proof.
  assert (Hemit : forall (run pre p rest : str),
             forallb is_word run = true -> pre = p ++ "#"%char :: run ->
             from_option is_word false (head rest) = false ->
             Forall (hashtag_at (pre ++ rest)) (emit_hashtag (Some run))).
  { intros run pre p rest Hw -> Hrest. destruct run as [|c run]; [constructor|].
    cbn [emit_hashtag]. constructor; [|constructor].
    exists p, rest, (c :: run). repeat split; try done.
    by rewrite <- !app_assoc. }
  assert (Hnext : forall (c : ascii) (pre : str),
             match (if bool_decide (c = "#"%char) then Some [] else None) with
             | Some run => forallb is_word run = true
                           /\ exists p, pre ++ [c] = p ++ "#"%char :: run
             | None => True
             end).
  { intros c pre. destruct (bool_decide (c = "#"%char)) eqn:E; [|done].
    apply bool_decide_eq_true in E as ->. split; [done|]. by exists pre. }
  induction text as [|c text IH]; intros cur pre Hcur.
  - cbn [extract_hashtags_go]. destruct cur as [run|]; [|constructor].
    destruct Hcur as [Hw [p Hp]]. by apply (Hemit run pre p []).
  - cbn [extract_hashtags_go].
    replace (pre ++ c :: text) with ((pre ++ [c]) ++ text)
      by (by rewrite <- app_assoc).
    destruct cur as [run|].
    + destruct Hcur as [Hw [p Hp]].
      destruct (is_word c) eqn:Ec.
      * apply IH. split.
        -- rewrite forallb_app, Hw. cbn. by rewrite Ec.
        -- exists p. rewrite Hp. by rewrite <- app_assoc.
      * apply Forall_app. split.
        -- rewrite <- app_assoc. apply (Hemit run pre p (c :: text)); [done..|].
           cbn. done.
        -- apply IH, Hnext.
    + apply IH, Hnext.
Qed.

Lemma extract_hashtags_go_count (text : str) (cur : option str) :
  length (extract_hashtags_go cur text)
  <= (match cur with Some _ => 1 | None => 0 end) + length (List.filter (fun c => bool_decide (c = "#"%char)) text).
Proof.
  revert cur. induction text as [|c text IH]; intros cur.
  - cbn. destruct cur as [[|? ?]|]; cbn; lia.
  - cbn [extract_hashtags_go List.filter].
    destruct cur as [run|].
    + destruct (is_word c) eqn:Ec.
      * specialize (IH (Some (run ++ [c]))).
        destruct (bool_decide (c = "#"%char)); cbn [length] in *; lia.
      * rewrite length_app.
        assert (length (emit_hashtag (Some run)) <= 1)
          by (destruct run; cbn; lia).
        destruct (bool_decide (c = "#"%char)).
        -- specialize (IH (Some [])). cbn [length] in *. lia.
        -- specialize (IH None). cbn [length] in *. lia.
    + destruct (bool_decide (c = "#"%char)).
      * specialize (IH (Some [])). cbn [length] in *. lia.
      * specialize (IH None). cbn [length] in *. lia.
Qed.

(** X18: every hashtag [extract_hashtags] returns is a ['#'] followed by
    one or more word characters, stands in the text, and is not followed
    there by a further word character; there are no more hashtags than
    characters ['#'] in the text. *)
Theorem extract_hashtags_shape (text : str) :
  Forall (hashtag_at text) (extract_hashtags text)
  /\ length (extract_hashtags text)
     <= length (List.filter (fun c => bool_decide (c = "#"%char)) text).
Proof.
  split.
  - apply (extract_hashtags_go_spec text None []). done.
  - apply (extract_hashtags_go_count text None).
Qed.
End SocialFacts.

(** ** social_media_generator.py: the posts of a thread *)

Section ParseThreadFacts.
Import ContentAggregator SocialMediaGenerator.

Lemma lstrip_blank (s : str) : lstrip s = [] <-> forallb is_space s = true.
Proof.
  induction s as [|c s IH]; cbn [lstrip forallb]; [done|].
  destruct (is_space c); cbn [andb]; [done|]. split; discriminate.
Qed.

Lemma strip_blank (s : str) : strip s = [] <-> forallb is_space s = true.
Proof.
  unfold strip, rstrip. split.
  - intros Hs. apply lstrip_blank.
    assert (Hr : lstrip (rev (lstrip s)) = []).
    { apply (f_equal (@rev ascii)) in Hs. by rewrite rev_involutive in Hs. }
    apply lstrip_blank in Hr. rewrite forallb_forall in Hr.
    pose proof (lstrip_starts s) as Hns.
    destruct (lstrip s) as [|c l]; [done|].
    unfold starts_space in Hns. cbn in Hns.
    rewrite (Hr c) in Hns; [done|]. apply -> in_rev. by left.
  - intros Hs. apply lstrip_blank in Hs. by rewrite Hs.
Qed.

Lemma split_go_blank (sep : str) (s : str) :
  forall (skip : nat) (cur : str),
    forallb is_space cur = true -> forallb is_space s = true ->
    Forall (fun p => forallb is_space p = true) (split_go sep skip cur s).
Proof.
  induction s as [|c s IH]; intros skip cur Hcur Hs; cbn [split_go].
  - by constructor.
  - cbn [forallb] in Hs. apply andb_prop in Hs as [Hc Hs].
    destruct skip as [|k]; [|by apply IH].
    destruct (startswith sep (c :: s)).
    + constructor; [done|]. by apply IH.
    + apply IH; [|done]. rewrite forallb_app, Hcur. cbn. by rewrite Hc.
Qed.

Lemma split_lines_blank (s : str) :
  forall (cur : str),
    Forall (fun p => forallb is_space p = true) (split_go nl 0 cur s) ->
    forallb is_space cur = true /\ forallb is_space s = true.
Proof.
  induction s as [|c s IH]; intros cur Hall; cbn [split_go] in Hall.
  - apply Forall_cons in Hall as [Hcur _]. done.
  - destruct (startswith nl (c :: s)) eqn:Es.
    + apply Forall_cons in Hall as [Hcur Hall].
      change (length nl - 1) with 0 in Hall.
      apply IH in Hall as [_ Hs]. split; [done|].
      cbn [forallb]. rewrite Hs, andb_true_r.
      unfold nl in Es. cbn in Es. apply andb_prop in Es as [Ec _].
      apply bool_decide_eq_true in Ec. by subst c.
    + apply IH in Hall as [Hcur Hs]. rewrite forallb_app in Hcur.
      apply andb_prop in Hcur as [Hcur Hc]. cbn in Hc.
      split; [done|]. cbn [forallb]. rewrite Hs.
      by destruct (is_space c).
Qed.

Lemma Forall_or_Exists_false {A : Type} (P : A -> bool) (l : list A) :
  Forall (fun x => P x = true) l \/ Exists (fun x => P x = false) l.
Proof.
  induction l as [|x l [IH|IH]].
  - left. constructor.
  - destruct (P x) eqn:E; [left; by constructor|right; by left].
  - right. by right.
Qed.

Lemma parse_step_blank (st : list str * str) (raw_line : str) :
  forallb is_space raw_line = true -> parse_step st raw_line = st.
Proof.
  intros Hb. unfold parse_step. destruct st as [tweets current_tweet].
  apply strip_blank in Hb. by rewrite Hb.
Qed.

Lemma parse_step_progress (st : list str * str) (raw_line : str) :
  progressed st \/ forallb is_space raw_line = false ->
  progressed (parse_step st raw_line).
Proof.
  unfold progressed, parse_step. destruct st as [tweets current_tweet].
  cbn [fst snd]. intros Hp.
  destruct (strip raw_line) as [|c line] eqn:El.
  - destruct Hp as [Hp|Hp]; [done|].
    apply strip_blank in El. congruence.
  - destruct (starts_new_tweet (c :: line)).
    + destruct current_tweet as [|d cur].
      * right. cbn. done.
      * left. cbn [fst]. by destruct tweets.
    + right. cbn [snd]. destruct current_tweet; cbn; done.
Qed.

Lemma fold_parse_step_progress (lines : list str) :
  forall st,
    progressed st \/ Exists (fun l => forallb is_space l = false) lines ->
    progressed (fold_left parse_step lines st).
Proof.
  induction lines as [|l lines IH]; intros st Hp; cbn [fold_left].
  - destruct Hp as [Hp|Hp]; [done|]. by apply Exists_nil in Hp.
  - apply IH. destruct Hp as [Hp|Hp].
    + left. apply parse_step_progress. by left.
    + apply Exists_cons in Hp as [Hp|Hp].
      * left. apply parse_step_progress. by right.
      * destruct (forallb is_space l) eqn:El.
        -- rewrite parse_step_blank by done. by right.
        -- left. apply parse_step_progress. by right.
Qed.

Lemma fold_parse_step_blank (lines : list str) (st : list str * str) :
  Forall (fun l => forallb is_space l = true) lines ->
  fold_left parse_step lines st = st.
Proof.
  revert st. induction lines as [|l lines IH]; intros st Hall; [done|].
  apply Forall_cons in Hall as [Hl Hall]. cbn [fold_left].
  rewrite parse_step_blank by done. by apply IH.
Qed.

Lemma strip_trimmed (s : str) : trimmed (strip s).
Proof. split; [apply strip_starts|apply rstrip_ends]. Qed.

Lemma parse_step_trimmed (st : list str * str) (raw_line : str) :
  Forall trimmed (fst st) -> Forall trimmed (fst (parse_step st raw_line)).
Proof.
  unfold parse_step. destruct st as [tweets current_tweet]. cbn [fst].
  intros Hall. destruct (strip raw_line) as [|c line]; [done|].
  destruct (starts_new_tweet (c :: line)); [|done].
  destruct current_tweet as [|d cur]; [done|]. cbn [fst].
  apply Forall_app. split; [done|]. constructor; [|constructor].
  apply strip_trimmed.
Qed.

Lemma fold_parse_step_trimmed (lines : list str) :
  forall st, Forall trimmed (fst st) ->
             Forall trimmed (fst (fold_left parse_step lines st)).
Proof.
  induction lines as [|l lines IH]; intros st Hall; [done|].
  cbn [fold_left]. by apply IH, parse_step_trimmed.
Qed.

(** X19: [parse_twitter_thread] returns no post exactly when the text is
    made of whitespace only; no post it returns starts or ends with
    whitespace. *)
Theorem parse_twitter_thread_posts (thread_text : str) :
  bool_decide (parse_twitter_thread thread_text = [])
  = forallb is_space thread_text
  /\ Forall trimmed (parse_twitter_thread thread_text).
Proof.
  unfold parse_twitter_thread, split_on.
  destruct (forallb is_space thread_text) eqn:Eb.
  - rewrite fold_parse_step_blank by (by apply split_go_blank).
    assert (Hnone :
      List.filter (fun t => negb (bool_decide (t = [])))
        (map strip (split_go (nl ++ nl) 0 [] thread_text)) = []).
    { apply filter_none. apply Forall_map.
      eapply Forall_impl; [by apply (split_go_blank (nl ++ nl) thread_text 0 [])|].
      intros p Hp. cbn beta. apply strip_blank in Hp. by rewrite Hp. }
    rewrite Hnone. split; [done|constructor].
  - pose proof (fold_parse_step_progress (split_go nl 0 [] thread_text) ([], []))
      as Hprog.
    pose proof (fold_parse_step_trimmed (split_go nl 0 [] thread_text) ([], []))
      as Htrim.
    destruct (fold_left parse_step (split_go nl 0 [] thread_text) ([], []))
      as [tweets current_tweet].
    cbn [fst snd] in *.
    assert (Hp : tweets <> [] \/ current_tweet <> []).
    { apply Hprog. right.
      destruct (Forall_or_Exists_false (forallb is_space)
                  (split_go nl 0 [] thread_text)) as [Hall|Hex]; [|done].
      apply split_lines_blank in Hall as [_ Hs]. congruence. }
    specialize (Htrim ltac:(constructor)).
    destruct current_tweet as [|d cur], tweets as [|t rest]; cbn [app].
    + by destruct Hp.
    + split; [by apply bool_decide_eq_false_2|]. by apply Forall_take.
    + split; [by apply bool_decide_eq_false_2|]. apply Forall_take.
      constructor; [apply strip_trimmed|constructor].
    + split; [by apply bool_decide_eq_false_2|]. apply Forall_take.
      apply Forall_cons in Htrim as [Ht Hrest]. constructor; [done|].
      apply Forall_app. split; [done|].
      constructor; [apply strip_trimmed|constructor].
Qed.
End ParseThreadFacts.

(** ** social_media_generator.py: the platforms *)

Section SocialPostsFacts.
Import ContentAggregator SocialMediaGenerator.

(** X20: [generate_social_posts] sends one request to the completion
    service for the platforms ["twitter"] and ["linkedin"], built from the
    cleaned newsletter text, the first five articles and the first three
    trends, and none for any other platform, for which it reports
    ["Unsupported platform"].  A thread it returns has at most 6 posts of
    at most 280 characters; a LinkedIn result holds the text of the answer
    as its only post, with its length and its hashtags. *)
Theorem generate_social_posts_dispatch (client : Llm.Client)
    (newsletter_content : str) (articles : list Article) (trends : list Trend)
    (platform_name tone now : str) (log : list Llm.Request) :
  let content := clean_html_for_ai newsletter_content in
  let articles_summary := prepare_articles_summary (take 5 articles) in
  let trends_summary := prepare_trends_summary (take 3 trends) in
  let result :=
    generate_social_posts client newsletter_content articles trends
                          platform_name tone now log in
  snd result
  = log ++ (if bool_decide (platform_name = lit "twitter")
            then [twitter_request content articles_summary trends_summary tone]
            else if bool_decide (platform_name = lit "linkedin")
            then [linkedin_request content articles_summary trends_summary tone]
            else [])
  /\ match fst result with
     | Ok (TwitterThread thread) =>
         platform_name = lit "twitter"
         /\ length (posts thread) <= 6
         /\ Forall (fun p => length p <= 280) (posts thread)
     | Ok (LinkedinText post) =>
         platform_name = lit "linkedin"
         /\ li_posts post = [li_full_text post]
         /\ li_char_count post = length (li_full_text post)
         /\ li_hashtags post = extract_hashtags (li_full_text post)
         /\ client log (linkedin_request content articles_summary
                          trends_summary tone)
            = Ok (li_full_text post)
     | Raise e =>
         if bool_decide (platform_name = lit "twitter")
         then client log (twitter_request content articles_summary
                            trends_summary tone) = Raise e
         else if bool_decide (platform_name = lit "linkedin")
         then client log (linkedin_request content articles_summary
                            trends_summary tone) = Raise e
         else e = lit "Unsupported platform"
     end.
Proof.
  cbv zeta. unfold generate_social_posts.
  destruct (bool_decide (platform_name = lit "twitter")) eqn:Et.
  { apply bool_decide_eq_true in Et.
    unfold generate_twitter_thread, Llm.create, mbind, Llm.M_bind, mret, Llm.M_ret.
    destruct (client log _) as [thread_text|e] eqn:Ec; cbn [fst snd].
    - split; [done|]. split; [done|]. cbn [posts].
      split; [rewrite length_map; apply parse_twitter_thread_length|].
      apply Forall_forall. intros p Hp.
      apply list_elem_of_fmap in Hp as (t & -> & _). apply truncate_tweet_length.
    - done. }
  destruct (bool_decide (platform_name = lit "linkedin")) eqn:El.
  { apply bool_decide_eq_true in El.
    unfold generate_linkedin_post, Llm.create, mbind, Llm.M_bind, mret, Llm.M_ret.
    destruct (client log _) as [post_text|e] eqn:Ec; cbn [fst snd].
    - done.
    - done. }
  cbn. split; [by rewrite app_nil_r|done].
Qed.
End SocialPostsFacts.

(** ** style_trainer.py: which tone is dominant *)

Section DominantToneFacts.
Import StyleTrainer.

Lemma fold_max_first (rest : list (str * nat)) :
  forall (best : str * nat) (pre mid : list (str * nat)),
    Forall (fun kv => snd kv < snd best) pre ->
    Forall (fun kv => snd kv <= snd best) mid ->
    exists pre' post,
      pre ++ best :: mid ++ rest
      = pre' ++ fold_left (fun best kv' => if snd best <? snd kv' then kv' else best)
                          rest best :: post
      /\ Forall (fun kv => snd kv
                           < snd (fold_left
                                    (fun best kv' =>
                                       if snd best <? snd kv' then kv' else best)
                                    rest best)) pre'
      /\ Forall (fun kv => snd kv
                           <= snd (fold_left
                                     (fun best kv' =>
                                        if snd best <? snd kv' then kv' else best)
                                     rest best)) post.
Proof.
  induction rest as [|kv rest IH]; intros best pre mid Hpre Hmid.
  - exists pre, mid. by rewrite app_nil_r.
  - cbn [fold_left]. destruct (Nat.ltb_spec (snd best) (snd kv)) as [Hlt|Hge].
    + destruct (IH kv (pre ++ best :: mid) []) as (pre' & post & Heq & H1 & H2).
      * apply Forall_app. split.
        -- eapply Forall_impl; [exact Hpre|]. intros x Hx. cbn beta in *. lia.
        -- constructor; [done|].
           eapply Forall_impl; [exact Hmid|]. intros x Hx. cbn beta in *. lia.
      * constructor.
      * exists pre', post. split; [|done]. rewrite <- Heq.
        by rewrite <- !app_assoc.
    + destruct (IH best pre (mid ++ [kv])) as (pre' & post & Heq & H1 & H2).
      * done.
      * apply Forall_app. split; [done|]. by constructor.
      * exists pre', post. split; [|done]. rewrite <- Heq.
        by rewrite <- !app_assoc.
Qed.

(** X21: the dominant tone [detect_tone_indicators] reports is one of the
    four tones it scores, never ["neutral"]; its score is the greatest of
    the four, and every tone listed before it has a strictly smaller
    score, so that of several tones with the greatest score the first one
    is reported. *)
Theorem detect_tone_indicators_dominant (text : str) :
  scores (detect_tone_indicators text) = tone_scores_of (lower text)
  /\ map fst (scores (detect_tone_indicators text))
     = [lit "casual"; lit "professional"; lit "enthusiastic"; lit "analytical"]
  /\ exists before score after,
       scores (detect_tone_indicators text)
       = before ++ (dominant_tone (detect_tone_indicators text), score) :: after
       /\ Forall (fun kv => snd kv < score) before
       /\ Forall (fun kv => snd kv <= score) after.
Proof.
  unfold detect_tone_indicators.
  destruct (tone_scores_shape (lower text)) as (a & b & c & d & Hs).
  cbv zeta. rewrite Hs. unfold max_key. cbn [scores dominant_tone].
  split; [done|]. split; [done|].
  destruct (fold_max_first
              [(lit "professional", b); (lit "enthusiastic", c);
               (lit "analytical", d)]
              (lit "casual", a) [] [])
    as (pre & post & Heq & H1 & H2); [constructor..|].
  cbn [app] in Heq.
  set (best := fold_left _ _ _) in *.
  exists pre, (snd best), post. split; [|done].
  rewrite Heq. by destruct best.
Qed.
End DominantToneFacts.

(** ** content_aggregator.py: reading several feeds *)

Section FeedFacts.
Import ContentAggregator.
Variable fetch : nat -> str -> Result Feed.
Variable strptime : str -> option Z.
Variable clock : nat -> Z.

Lemma date_keys_snd (articles : list Article) :
  map snd (date_keys strptime clock articles) = articles.
Proof.
  unfold date_keys. generalize clock as c.
  induction articles as [|a l IH]; intros c; [done|].
  cbn [imap map snd]. f_equal. apply (IH (c ∘ S)).
Qed.

Lemma sort_by_date_perm (articles : list Article) :
  sort_by_date strptime clock articles ≡ₚ articles.
Proof.
  unfold sort_by_date.
  rewrite (sort_desc_perm fst (date_keys strptime clock articles)).
  by rewrite date_keys_snd.
Qed.

Lemma parse_rss_feed_spec (n : nat) (url : str) (max_articles : Z) (a : Article) :
  a ∈ parse_rss_feed fetch n url max_articles ->
  has_title_and_link a = true
  /\ exists feed entry,
       fetch n url = Ok feed /\ entry ∈ entries feed
       /\ a = article_of_entry feed entry.
Proof.
  unfold parse_rss_feed. destruct (fetch n url) as [feed|e]; [|by intros ?%elem_of_nil].
  intros Ha. apply list_elem_of_In, filter_In in Ha as [Ha Hok].
  split; [done|]. apply list_elem_of_In, list_elem_of_fmap in Ha as (entry & -> & He).
  exists feed, entry. split; [done|]. split; [|done].
  unfold slice_to in He. destruct (0 <=? max_articles)%Z;
    by apply (subseteq_take _ _ _ He).
Qed.

Lemma parse_rss_feed_length (n : nat) (url : str) (max_articles : Z) :
  (0 <= max_articles)%Z ->
  length (parse_rss_feed fetch n url max_articles) <= Z.to_nat max_articles.
Proof.
  intros Hmax. unfold parse_rss_feed.
  destruct (fetch n url) as [feed|e]; [|cbn; lia].
  etransitivity; [apply filter_length_le|].
  rewrite length_map. unfold slice_to.
  destruct (Z.leb_spec 0 max_articles); [|lia].
  rewrite length_take. lia.
Qed.

Lemma concat_imap_length {A B : Type} (f : nat -> A -> list B) (l : list A) (m : nat) :
  (forall i x, length (f i x) <= m) ->
  length (concat (imap f l)) <= length l * m.
Proof.
  revert f. induction l as [|x l IH]; intros f Hf; [done|].
  cbn [imap concat length]. rewrite length_app.
  specialize (IH (f ∘ S) (fun i x => Hf (S i) x)). specialize (Hf 0 x).
  cbn [Nat.mul]. lia.
Qed.

Lemma elem_of_concat_imap {A B : Type} (f : nat -> A -> list B) (l : list A) (b : B) :
  b ∈ concat (imap f l) -> exists i x, l !! i = Some x /\ b ∈ f i x.
Proof.
  revert f. induction l as [|x l IH]; intros f Hb; [by apply elem_of_nil in Hb|].
  cbn [imap concat] in Hb. apply elem_of_app in Hb as [Hb|Hb].
  - by exists 0, x.
  - apply IH in Hb as (i & y & Hi & Hy). by exists (S i), y.
Qed.

Lemma clean_html_length (html : str) : length (clean_html html) <= 303.
Proof.
  rewrite clean_html_unfold. cbv zeta.
  destruct (Nat.ltb_spec 300 (length (strip (collapse_ws (strip_tags html))))).
  - rewrite length_app, length_take. change (length (lit "...")) with 3. lia.
  - lia.
Qed.

Lemma sort_desc_keys_sorted (pairs : list (Z * Article)) :
  StronglySorted (fun x y => (y <= x)%Z) (map fst (PyList.sort_desc fst pairs)).
Proof.
  pose proof (sort_desc_sorted fst pairs) as Hs.
  induction Hs as [|p l Hs IH Hp]; cbn [map]; constructor; [done|].
  apply Forall_map. exact Hp.
Qed.

(** X22: the articles [parse_multiple_feeds] returns have a title and a
    link, a summary of at most 303 characters, and links that are pairwise
    distinct; each one is built from an entry of a feed that was fetched
    for one of the addresses; they are the articles left by
    [remove_duplicate_articles], rearranged so that the instants
    [parse_date] gave for them never increase; and with a limit per feed
    that is not negative there are no more of them than the limit times
    the number of addresses. *)
Theorem parse_multiple_feeds_articles (rss_urls : list str)
    (max_articles_per_feed : Z) :
  let all_articles :=
    concat (imap (fun n url => parse_rss_feed fetch n url max_articles_per_feed)
                 rss_urls) in
  let result :=
    parse_multiple_feeds fetch strptime clock rss_urls max_articles_per_feed in
  Forall (fun a =>
            title a <> [] /\ link a <> [] /\ length (summary a) <= 303
            /\ exists n url feed entry,
                 rss_urls !! n = Some url /\ fetch n url = Ok feed
                 /\ entry ∈ entries feed /\ a = article_of_entry feed entry)
         result
  /\ NoDup (map link result)
  /\ result ≡ₚ remove_duplicate_articles all_articles
  /\ (exists keyed,
        result = map snd keyed
        /\ keyed ≡ₚ date_keys strptime clock
                      (remove_duplicate_articles all_articles)
        /\ StronglySorted (fun x y => (y <= x)%Z) (map fst keyed))
  /\ (if (0 <=? max_articles_per_feed)%Z
      then length result <= length rss_urls * Z.to_nat max_articles_per_feed
      else True).
Proof.
  intros all_articles result.
  assert (Hperm : result ≡ₚ remove_duplicate_articles all_articles)
    by apply sort_by_date_perm.
  assert (Hsub : forall a, a ∈ result -> a ∈ all_articles).
  { intros a Ha. rewrite Hperm in Ha.
    rewrite remove_duplicate_articles_unfold in Ha.
    by apply (elem_of_sublist _ _ _ Ha), dedup_from_sublist. }
  assert (Hall : forall a, a ∈ all_articles ->
             has_title_and_link a = true
             /\ exists n url feed entry,
                  rss_urls !! n = Some url /\ fetch n url = Ok feed
                  /\ entry ∈ entries feed /\ a = article_of_entry feed entry).
  { intros a Ha. apply elem_of_concat_imap in Ha as (n & url & Hn & Ha).
    apply parse_rss_feed_spec in Ha as (Hok & feed & entry & Hf & He & ->).
    split; [done|]. by exists n, url, feed, entry. }
  assert (Hlink : forall a, a ∈ result -> unique_key a = link a).
  { intros a Ha. apply Hsub, Hall in Ha as [Hok _].
    unfold has_title_and_link in Hok. apply andb_prop in Hok as [_ Hl].
    unfold unique_key. destruct (link a); [done|done]. }
  split; [|split; [|split; [done|split]]].
  - apply Forall_forall. intros a Ha.
    apply Hsub, Hall in Ha as [Hok (n & url & feed & entry & Hn & Hf & He & ->)].
    unfold has_title_and_link in Hok. apply andb_prop in Hok as [Ht Hl].
    apply negb_true_iff, bool_decide_eq_false in Ht, Hl.
    split; [done|]. split; [done|]. split; [apply clean_html_length|].
    by exists n, url, feed, entry.
  - assert (Hkeys : NoDup (unique_key <$> result)).
    { rewrite Hperm, remove_duplicate_articles_unfold. apply dedup_from_NoDup. }
    assert (Heq : map link result = unique_key <$> result).
    { apply list_eq_Forall2, Forall2_fmap, Forall_Forall2_diag, Forall_forall.
      intros a Ha. by rewrite Hlink. }
    by rewrite Heq.
  - exists (PyList.sort_desc fst
              (date_keys strptime clock (remove_duplicate_articles all_articles))).
    split; [done|]. split; [apply sort_desc_perm|apply sort_desc_keys_sorted].
  - destruct (Z.leb_spec 0 max_articles_per_feed) as [Hmax|]; [|done].
    rewrite Hperm. etransitivity.
    { apply sublist_length. rewrite remove_duplicate_articles_unfold.
      apply dedup_from_sublist. }
    apply concat_imap_length. intros i x. by apply parse_rss_feed_length.
Qed.
End FeedFacts.

(** ** draft_generator.py: the requests of the AI newsletter *)

Section AiNewsletterFacts.
Import ContentAggregator DraftGenerator.

Lemma summarize_spec (client : Llm.Client) (tone : str)
    (articles_to_process : list Article) :
  forall log : list Llm.Request,
    snd (summarize client tone articles_to_process log)
    = log ++ map (fun a => summary_request a tone) articles_to_process
    /\ length (fst (summarize client tone articles_to_process log))
       = length articles_to_process
    /\ forall i a,
         articles_to_process !! i = Some a ->
         fst (summarize client tone articles_to_process log) !! i
         = Some match client
                        (log ++ map (fun a => summary_request a tone)
                                    (take i articles_to_process))
                        (summary_request a tone) with
                | Ok content => strip content
                | Raise _ =>
                    join (lit ". ") (take 2 (split_on (lit ".") (summary a)))
                    ++ lit "."
                end.
Proof.
  induction articles_to_process as [|article rest IH]; intros log.
  - cbn. rewrite app_nil_r. repeat split. intros i a Hi. done.
  - cbn [summarize]. unfold mbind, Llm.M_bind, Llm.create, mret, Llm.M_ret.
    destruct (IH (log ++ [summary_request article tone])) as (IH1 & IH2 & IH3).
    destruct (summarize client tone rest (log ++ [summary_request article tone]))
      as [summaries log'] eqn:Es.
    cbn [fst snd] in *. split; [|split].
    + rewrite IH1. cbn [map]. by rewrite <- app_assoc.
    + cbn [length]. by rewrite IH2.
    + intros [|i] a Hi.
      * cbn in Hi. injection Hi as ->. cbn. by rewrite app_nil_r.
      * cbn in Hi. specialize (IH3 i a Hi). cbn. rewrite <- app_assoc in IH3.
        exact IH3.
Qed.

(** X23: with at least one article that is neither a tweet nor a video,
    [generate_newsletter_with_ai] asks for one summary per article it
    processes, in their order, then for the introduction, then for the
    conclusion, and sends nothing else.  A summary request that fails does
    not stop it: the summary is then cut from the article's own summary.
    A failure of the request for the introduction or the conclusion is
    raised to the caller, the first one before the conclusion is asked
    for.  When both are answered the document is built from as many
    summaries as articles processed. *)
Theorem generate_newsletter_with_ai_requests (client : Llm.Client)
    (today : str) (articles : list Article) (trends : list Trend)
    (title_text topic tone : str) (max_articles : Z) (log : list Llm.Request) :
  List.filter is_rss articles <> [] ->
  let processed := slice_to max_articles (List.filter is_rss articles) in
  let summary_log := log ++ map (fun a => summary_request a tone) processed in
  let result :=
    generate_newsletter_with_ai client today articles trends title_text topic
                                tone max_articles log in
  exists combined_title trend_titles,
    let intro := intro_request combined_title trend_titles tone in
    let conclusion := conclusion_request combined_title tone in
    match client summary_log intro with
    | Raise e => result = (Raise e, summary_log ++ [intro])
    | Ok intro_text =>
        match client (summary_log ++ [intro]) conclusion with
        | Raise e => result = (Raise e, summary_log ++ [intro; conclusion])
        | Ok conclusion_text =>
            exists summaries,
              result
              = (Ok (create_html_newsletter_v3 today combined_title topic tone
                       (strip intro_text) summaries (strip conclusion_text)
                       processed
                       (take 3 (List.filter
                                  (fun a => bool_decide (source a = lit "Twitter"))
                                  articles))
                       (take 3 (List.filter
                                  (fun a => bool_decide (source a = lit "YouTube"))
                                  articles))
                       (take 5 trends)),
                 summary_log ++ [intro; conclusion])
              /\ length summaries = length processed
              /\ forall i a,
                   processed !! i = Some a ->
                   summaries !! i
                   = Some match client
                                  (log ++ map (fun a => summary_request a tone)
                                              (take i processed))
                                  (summary_request a tone) with
                          | Ok content => strip content
                          | Raise _ =>
                              join (lit ". ")
                                   (take 2 (split_on (lit ".") (summary a)))
                              ++ lit "."
                          end
        end
    end.
Proof.
  intros Hrss. cbv zeta. unfold generate_newsletter_with_ai.
  destruct (List.filter is_rss articles) as [|a0 rss] eqn:Erss; [done|].
  cbn [length Nat.ltb Nat.leb].
  unfold mbind, Llm.M_bind, Llm.create, mret, Llm.M_ret.
  destruct (summarize_spec client tone (slice_to max_articles (a0 :: rss)) log)
    as (H1 & H2 & H3).
  destruct (summarize client tone (slice_to max_articles (a0 :: rss)) log)
    as [summaries log'] eqn:Es.
  cbn [fst snd] in *. subst log'.
  exists (if contains (lower topic) (lower title_text) then strip title_text
          else strip title_text ++ lit " " ++ strip topic),
         (match trends with
          | _ :: _ => join (lit ", ") (map trend_title (take 3 trends))
          | [] => lit "key topics"
          end).
  destruct (client _ (intro_request _ _ tone)) as [intro_text|e]; [|done].
  destruct (client _ (conclusion_request _ tone)) as [conclusion_text|e].
  - exists summaries. split; [|split; [done|exact H3]].
    f_equal. by rewrite <- !app_assoc.
  - f_equal. by rewrite <- !app_assoc.
Qed.

Lemma generate_newsletter_with_ai_requests_witness :
  let processed :=
    slice_to 6 (List.filter is_rss Samples.blockchain_articles) in
  let summary_log :=
    [] ++ map (fun a => summary_request a (lit "Casual")) processed in
  let result :=
    generate_newsletter_with_ai Samples.failing_client (lit "January 07, 2025")
      Samples.blockchain_articles [] (lit "Weekly") (lit "Proofs")
      (lit "Casual") 6 [] in
  exists combined_title trend_titles,
    let intro := intro_request combined_title trend_titles (lit "Casual") in
    let conclusion := conclusion_request combined_title (lit "Casual") in
    match Samples.failing_client summary_log intro with
    | Raise e => result = (Raise e, summary_log ++ [intro])
    | Ok intro_text =>
        match Samples.failing_client (summary_log ++ [intro]) conclusion with
        | Raise e => result = (Raise e, summary_log ++ [intro; conclusion])
        | Ok conclusion_text =>
            exists summaries,
              result
              = (Ok (create_html_newsletter_v3 (lit "January 07, 2025")
                       combined_title (lit "Proofs") (lit "Casual")
                       (strip intro_text) summaries (strip conclusion_text)
                       processed
                       (take 3 (List.filter
                                  (fun a => bool_decide (source a = lit "Twitter"))
                                  Samples.blockchain_articles))
                       (take 3 (List.filter
                                  (fun a => bool_decide (source a = lit "YouTube"))
                                  Samples.blockchain_articles))
                       (take 5 [])),
                 summary_log ++ [intro; conclusion])
              /\ length summaries = length processed
              /\ forall i a,
                   processed !! i = Some a ->
                   summaries !! i
                   = Some match Samples.failing_client
                                  ([] ++ map (fun a =>
                                                summary_request a (lit "Casual"))
                                             (take i processed))
                                  (summary_request a (lit "Casual")) with
                          | Ok content => strip content
                          | Raise _ =>
                              join (lit ". ")
                                   (take 2 (split_on (lit ".") (summary a)))
                              ++ lit "."
                          end
        end
    end.
Proof.
  apply (generate_newsletter_with_ai_requests Samples.failing_client
           (lit "January 07, 2025") Samples.blockchain_articles []
           (lit "Weekly") (lit "Proofs") (lit "Casual") 6 []).
  vm_compute. discriminate.
Defined.
End AiNewsletterFacts.

(** ** email_service.py: the Telegram message *)

Section TelegramFacts.
Import ContentAggregator EmailService.

(** X24: a Telegram message built by [create_telegram_summary] never has
    more than 4096 characters.  When [max_length] is at least 300 and the
    title is short enough for [max_length] plus its length to stay within
    4355, nothing is cut from the message: it is the heading with the
    title, a summary of at most [max_length - 297] characters, and the
    closing lines. *)
Theorem create_telegram_summary_fits (glyph : ascii)
    (title_text html_content : str) (max_length : Z) :
  length (create_telegram_summary glyph title_text html_content max_length)
  <= 4096
  /\ ((300 <= max_length)%Z ->
      (Z.of_nat (length title_text) + max_length <= 4355)%Z ->
      exists summary_text,
        create_telegram_summary glyph title_text html_content max_length
        = glyph :: lit " *" ++ title_text ++ lit "*" ++ nl ++ nl
          ++ summary_text ++ telegram_footer
        /\ (Z.of_nat (length summary_text) <= max_length - 297)%Z).
Proof.
  unfold create_telegram_summary. cbv zeta.
  split; [rewrite length_take; lia|].
  intros Hmax Htitle.
  set (full := join (lit ". ") _ ++ lit ".").
  set (summary_text :=
         if (max_length - 300 <? Z.of_nat (length full))%Z
         then slice_to (max_length - 300) full ++ lit "..." else full).
  assert (Hs : (Z.of_nat (length summary_text) <= max_length - 297)%Z).
  { subst summary_text.
    destruct (Z.ltb_spec (max_length - 300) (Z.of_nat (length full))); [|lia].
    rewrite length_app. change (length (lit "...")) with 3. unfold slice_to.
    destruct (Z.leb_spec 0 (max_length - 300)); [|lia].
    rewrite length_take. lia. }
  assert (Hlen :
    length (glyph :: lit " *" ++ title_text ++ lit "*" ++ nl ++ nl
            ++ summary_text ++ telegram_footer)
    = length title_text + length summary_text + 38).
  { cbn [length]. rewrite !length_app.
    change (length (lit " *")) with 2. change (length (lit "*")) with 1.
    change (length nl) with 1. change (length telegram_footer) with 32. lia. }
  exists summary_text. split; [|done].
  apply take_ge. rewrite Hlen. lia.
Qed.

Lemma create_telegram_summary_fits_witness :
  length (create_telegram_summary "G"%char (lit "Weekly")
            (lit "<p>Hello. World</p>") 4000)
  <= 4096
  /\ exists summary_text,
       create_telegram_summary "G"%char (lit "Weekly")
         (lit "<p>Hello. World</p>") 4000
       = "G"%char :: lit " *" ++ lit "Weekly" ++ lit "*" ++ nl ++ nl
         ++ summary_text ++ telegram_footer
       /\ (Z.of_nat (length summary_text) <= 4000 - 297)%Z.
Proof.
  destruct (create_telegram_summary_fits "G"%char (lit "Weekly")
              (lit "<p>Hello. World</p>") 4000) as [Hfits Hwhole].
  split; [exact Hfits|]. apply Hwhole.
  - lia.
  - vm_compute. discriminate.
Defined.
End TelegramFacts.

(** ** feedback_system.py: tracking a measurement *)

Section MetricsFacts.
Import Supabase FeedbackSystem.
Context {F : Type} `{FloatOps F}.

(** X25: when the backend answers, [track_engagement_metrics] reports
    success and appends one measurement, whatever newsletter it names, and
    changes nothing else.  The analytics of a user afterwards are what they
    were when the newsletter named is not one of the user's newsletters in
    the window; when it is one of them, the analytics are no longer
    ["no_data"] and count all the user's newsletters in the window. *)
Theorem track_engagement_metrics_then_analytics (db : Database F)
    (now later : Z) (newsletter_id metric_type : str) (value : F)
    (user_id : str) (days : Z) :
  available db = true ->
  let tracked :=
    track_engagement_metrics db now newsletter_id metric_type value in
  let newsletter_ids :=
    map n_id (newsletters_in_window db later user_id days) in
  snd tracked = true
  /\ newsletters (fst tracked) = newsletters db
  /\ user_sources (fst tracked) = user_sources db
  /\ newsletter_feedback (fst tracked) = newsletter_feedback db
  /\ scheduled_deliveries (fst tracked) = scheduled_deliveries db
  /\ newsletter_metrics (fst tracked)
     = newsletter_metrics db
       ++ [ {| m_newsletter_id := newsletter_id;
               m_metric_type := metric_type;
               m_value := value;
               m_recorded_at := now |} ]
  /\ if bool_decide (newsletter_id ∈ newsletter_ids)
     then exists a,
            get_engagement_analytics (fst tracked) later user_id days = Some a
            /\ trend a <> lit "no_data"
            /\ total_sent a = Some (length newsletter_ids)
     else get_engagement_analytics (fst tracked) later user_id days
          = get_engagement_analytics db later user_id days.
Proof.
  intros Hav. cbv zeta. unfold track_engagement_metrics, execute. rewrite Hav.
  cbn [insert fst snd set_newsletter_metrics newsletters newsletter_metrics
       user_sources newsletter_feedback scheduled_deliveries].
  do 6 (split; [done|]).
  set (m := {| m_newsletter_id := newsletter_id; m_metric_type := metric_type;
               m_value := value; m_recorded_at := now |}).
  set (db' := set_newsletter_metrics db (newsletter_metrics db ++ [m])).
  change {| newsletters := newsletters db;
            user_sources := user_sources db;
            newsletter_feedback := newsletter_feedback db;
            newsletter_metrics := newsletter_metrics db ++ [m];
            scheduled_deliveries := scheduled_deliveries db;
            available := available db |} with db'.
  assert (Hwin : newsletters_in_window db' later user_id days
                 = newsletters_in_window db later user_id days) by done.
  unfold get_engagement_analytics, execute.
  change (available db') with (available db). rewrite Hav, Hwin.
  set (ns := newsletters_in_window db later user_id days).
  assert (Hmet : metrics_of db' (map n_id ns)
                 = metrics_of db (map n_id ns)
                   ++ (if bool_decide (newsletter_id ∈ map n_id ns)
                       then [m] else [])).
  { unfold metrics_of, select.
    change (newsletter_metrics db') with (newsletter_metrics db ++ [m]).
    rewrite List.filter_app. f_equal. cbn [List.filter].
    rewrite matches_single. unfold in_. cbn [m_newsletter_id m].
    by destruct (bool_decide (newsletter_id ∈ map n_id ns)). }
  rewrite Hmet.
  destruct (bool_decide (newsletter_id ∈ map n_id ns)) eqn:Ein.
  - apply bool_decide_eq_true in Ein.
    destruct ns as [|n ns']; [by apply elem_of_nil in Ein|].
    destruct (metrics_of db (map n_id (n :: ns')) ++ [m]) as [|m0 ms] eqn:Ems.
    { by destruct (metrics_of db (map n_id (n :: ns'))). }
    eexists. split; [reflexivity|]. cbn [trend total_sent]. split; [|done].
    destruct (open_rate_trend_labels (rates_of (lit "open_rate") (m0 :: ms)))
      as [Hs|[_ [Hs|Hs]]]; rewrite Hs; discriminate.
  - by rewrite app_nil_r.
Qed.
End MetricsFacts.

Section MetricsInstances.
Import Supabase FeedbackSystem.

Lemma track_engagement_metrics_then_analytics_witness :
  let tracked :=
    track_engagement_metrics Samples.store 1600 (lit "n1") (lit "open_rate")
                             (45 # 1) in
  let newsletter_ids :=
    map n_id (newsletters_in_window Samples.store 3000 (lit "bob") 30) in
  snd tracked = true
  /\ newsletters (fst tracked) = newsletters Samples.store
  /\ user_sources (fst tracked) = user_sources Samples.store
  /\ newsletter_feedback (fst tracked) = newsletter_feedback Samples.store
  /\ scheduled_deliveries (fst tracked) = scheduled_deliveries Samples.store
  /\ newsletter_metrics (fst tracked)
     = newsletter_metrics Samples.store
       ++ [ {| m_newsletter_id := lit "n1";
               m_metric_type := lit "open_rate";
               m_value := 45 # 1;
               m_recorded_at := 1600 |} ]
  /\ if bool_decide (lit "n1" ∈ newsletter_ids)
     then exists a,
            get_engagement_analytics (fst tracked) 3000 (lit "bob") 30 = Some a
            /\ trend a <> lit "no_data"
            /\ total_sent a = Some (length newsletter_ids)
     else get_engagement_analytics (fst tracked) 3000 (lit "bob") 30
          = get_engagement_analytics Samples.store 3000 (lit "bob") 30.
Proof.
  apply (track_engagement_metrics_then_analytics Samples.store 1600 3000
           (lit "n1") (lit "open_rate") (45 # 1) (lit "bob") 30).
  reflexivity.
Defined.
End MetricsInstances.

(** ** scheduler_service.py: generation and delivery for one user *)

Section DeliveryFacts.
Import Supabase Scheduler.
Context {F : Type}.
Variable users : list User.
Variable fetch : nat -> str -> Result ContentAggregator.Feed.
Variable strptime : str -> option Z.
Variable clock : nat -> Z.
Variable groq_api_key : option str.
Variable client : Llm.Client.
Variable send_newsletter_email : Email -> bool.

Lemma map_update_fresh {R : Type} (p : R -> bool) (u : R -> R) (rows : list R) :
  Forall (fun r => p r = false) rows ->
  map (fun r => if p r then u r else r) rows = rows.
Proof.
  induction 1 as [|r rows Hr _ IH]; cbn [map]; [done|]. by rewrite Hr, IH.
Qed.

Lemma generate_newsletter_with_ai_log (today : str)
    (articles : list ContentAggregator.Article)
    (trends : list ContentAggregator.Trend) (title_text topic tone : str)
    (max_articles : Z) (log : list Llm.Request) :
  exists more,
    snd (DraftGenerator.generate_newsletter_with_ai client today articles trends
           title_text topic tone max_articles log) = log ++ more.
Proof.
  destruct (List.filter DraftGenerator.is_rss articles) as [|a l] eqn:Erss.
  - unfold DraftGenerator.generate_newsletter_with_ai. rewrite Erss. cbn.
    exists []. by rewrite app_nil_r.
  - unfold DraftGenerator.generate_newsletter_with_ai. rewrite Erss.
    cbn [length Nat.ltb Nat.leb].
    unfold mbind, Llm.M_bind, Llm.create, mret, Llm.M_ret.
    destruct (summarize_spec client tone (slice_to max_articles (a :: l)) log)
      as (H1 & _).
    destruct (DraftGenerator.summarize client tone
                (slice_to max_articles (a :: l)) log) as [summaries log'].
    cbn [snd] in H1. subst log'.
    destruct (client _ (DraftGenerator.intro_request _ _ tone)); cbn [snd].
    + destruct (client _ (DraftGenerator.conclusion_request _ tone)); cbn [snd];
        eexists; by rewrite <- !app_assoc.
    + eexists. by rewrite <- !app_assoc.
Qed.

(** X26: [generate_and_send_newsletter] never touches the sources, the
    reactions or the measurements, and only adds to the log of requests.
    When the identifier given to the saved row is new, either nothing is
    saved, no message is sent and no schedule is changed; or the insert is
    answered and one row is added to the newsletters, a draft of this
    user.  Then either no message is sent and nothing else changes, or
    one message with the content of the row is sent to the address of this
    user, and what follows depends on the backend: the schedules of this
    user, and only these, get the instant of the delivery when the update
    of the schedules is answered, and are unchanged when it raises; the
    row is marked as sent when both this update and the update of the
    status are answered, and otherwise stays a draft although the message
    is sent.  With no active source of the user that is a feed, or when
    the select of the sources raises, nothing changes at all. *)
Theorem generate_and_send_newsletter_effects (w : World F) (answers : Answers)
    (user_id : str) (title_date today new_id : str)
    (saved_at delivered_at sent_at : Z) :
  Forall (fun n => n_id n <> new_id) (newsletters (w_db w)) ->
  let w' :=
    generate_and_send_newsletter users fetch strptime clock groq_api_key client
      send_newsletter_email w answers user_id title_date today new_id
      saved_at delivered_at sent_at in
  user_sources (w_db w') = user_sources (w_db w)
  /\ newsletter_feedback (w_db w') = newsletter_feedback (w_db w)
  /\ newsletter_metrics (w_db w') = newsletter_metrics (w_db w)
  /\ available (w_db w') = available (w_db w)
  /\ (exists more, w_requests w' = w_requests w ++ more)
  /\ ((newsletters (w_db w') = newsletters (w_db w)
       /\ scheduled_deliveries (w_db w') = scheduled_deliveries (w_db w)
       /\ w_outbox w' = w_outbox w)
      \/ exists row,
           n_id row = new_id /\ n_user_id row = user_id
           /\ n_status row = lit "draft" /\ n_created_at row = saved_at
           /\ n_sent_at row = None
           /\ save_answered answers = true
           /\ ((newsletters (w_db w') = newsletters (w_db w) ++ [row]
                /\ scheduled_deliveries (w_db w') = scheduled_deliveries (w_db w)
                /\ w_outbox w' = w_outbox w)
               \/ ((exists user message,
                      user ∈ users /\ u_id user = user_id
                      /\ recipient_email message = u_email user
                      /\ html_content message = n_content row
                      /\ send_newsletter_email message = true
                      /\ w_outbox w' = w_outbox w ++ [message])
                   /\ scheduled_deliveries (w_db w')
                      = (if schedule_answered answers
                         then map (fun r =>
                                     if bool_decide (sd_user_id r = user_id)
                                     then mark_delivered delivered_at r else r)
                                  (scheduled_deliveries (w_db w))
                         else scheduled_deliveries (w_db w))
                   /\ newsletters (w_db w')
                      = newsletters (w_db w)
                        ++ [if schedule_answered answers
                               && status_answered answers
                            then mark_sent sent_at row else row])))
  /\ (Forall (fun source => s_type source ∉ [lit "rss_feed"; lit "rss"])
             (Models.get_user_sources
                (answering (w_db w) (sources_answered answers)) user_id) ->
      w' = w).
Proof.
  intros Hfresh w'.
  assert (Hw : w' = generate_and_send_newsletter users fetch strptime clock
                      groq_api_key client send_newsletter_email w answers
                      user_id title_date today new_id saved_at delivered_at
                      sent_at)
    by done.
  clearbody w'.
  set (no_feed :=
         Forall (fun source => s_type source ∉ [lit "rss_feed"; lit "rss"])
                (Models.get_user_sources
                   (answering (w_db w) (sources_answered answers)) user_id)).
  assert (Hnone : w' = w ->
    user_sources (w_db w') = user_sources (w_db w)
    /\ newsletter_feedback (w_db w') = newsletter_feedback (w_db w)
    /\ newsletter_metrics (w_db w') = newsletter_metrics (w_db w)
    /\ available (w_db w') = available (w_db w)
    /\ (exists more, w_requests w' = w_requests w ++ more)
    /\ ((newsletters (w_db w') = newsletters (w_db w)
         /\ scheduled_deliveries (w_db w') = scheduled_deliveries (w_db w)
         /\ w_outbox w' = w_outbox w)
        \/ exists row,
             n_id row = new_id /\ n_user_id row = user_id
             /\ n_status row = lit "draft" /\ n_created_at row = saved_at
             /\ n_sent_at row = None
             /\ save_answered answers = true
             /\ ((newsletters (w_db w') = newsletters (w_db w) ++ [row]
                  /\ scheduled_deliveries (w_db w')
                     = scheduled_deliveries (w_db w)
                  /\ w_outbox w' = w_outbox w)
                 \/ ((exists user message,
                        user ∈ users /\ u_id user = user_id
                        /\ recipient_email message = u_email user
                        /\ html_content message = n_content row
                        /\ send_newsletter_email message = true
                        /\ w_outbox w' = w_outbox w ++ [message])
                     /\ scheduled_deliveries (w_db w')
                        = (if schedule_answered answers
                           then map (fun r =>
                                       if bool_decide (sd_user_id r = user_id)
                                       then mark_delivered delivered_at r else r)
                                    (scheduled_deliveries (w_db w))
                           else scheduled_deliveries (w_db w))
                     /\ newsletters (w_db w')
                        = newsletters (w_db w)
                          ++ [if schedule_answered answers
                                 && status_answered answers
                              then mark_sent sent_at row else row])))
    /\ (no_feed -> w' = w)).
  { intros ->. repeat split; try done.
    - exists []. by rewrite app_nil_r.
    - by left. }
  unfold generate_and_send_newsletter in Hw.
  destruct (available (w_db w)) eqn:Hav; unfold execute at 1 in Hw;
    rewrite Hav in Hw; [|by apply Hnone].
  destruct (select [eq_ u_id user_id] users) as [|user [|user2 others]] eqn:Eu;
    [by apply Hnone| |by apply Hnone].
  assert (Huser : user ∈ users /\ u_id user = user_id).
  { assert (Hin : user ∈ select [eq_ u_id user_id] users) by (rewrite Eu; left).
    apply select_elem in Hin as [Hin Hm]. split; [done|].
    rewrite matches_single in Hm. by apply bool_decide_eq_true in Hm. }
  assert (Hfeeds :
    no_feed ->
    map s_url
        (List.filter
           (fun source =>
              bool_decide (s_type source ∈ [lit "rss_feed"; lit "rss"]))
           (Models.get_user_sources
              (answering (w_db w) (sources_answered answers)) user_id)) = []).
  { intros Hno. rewrite filter_none; [done|].
    eapply Forall_impl; [exact Hno|]. intros s0 Hs. cbn beta.
    by apply bool_decide_eq_false_2. }
  destruct (map s_url _) as [|feed feeds'] eqn:Efeeds; [by apply Hnone|].
  assert (Hrss : forall P : Prop, no_feed -> P).
  { intros P Hno. by apply Hfeeds in Hno. }
  clear Hfeeds Hnone. clearbody no_feed.
  destruct (ContentAggregator.parse_multiple_feeds _ _ _ _ _)
    as [|article articles] eqn:Earts.
  { subst w'. repeat split; try done; [exists []; by rewrite app_nil_r|by left]. }
  destruct groq_api_key as [[|k key]|].
  1,3: subst w'; repeat split; try done;
       [exists []; by rewrite app_nil_r|by left].
  destruct (generate_newsletter_with_ai_log today (article :: articles)
              (ContentAggregator.extract_trends (article :: articles) 5)
              (lit "Daily Digest - " ++ title_date)
              (lit "Technology & Innovation") (lit "Professional") 6
              (w_requests w)) as [more Hlog].
  destruct (DraftGenerator.generate_newsletter_with_ai _ _ _ _ _ _ _ _ _)
    as [generated requests].
  cbn [snd] in Hlog. subst requests.
  destruct generated as [content|e].
  2:{ subst w'. cbn [w_db w_requests w_outbox]. repeat split; try done.
      - by exists more.
      - by left.
      - apply Hrss. }
  unfold Models.save_newsletter in Hw. cbn [Models.nd_user_id] in Hw.
  destruct user_id as [|c uid] eqn:Euid.
  { subst w'.
    cbn [w_db w_requests w_outbox answering newsletters user_sources
         newsletter_feedback newsletter_metrics scheduled_deliveries available].
    repeat split; try done.
    - by exists more.
    - by left.
    - apply Hrss. }
  rewrite <- Euid in *. unfold execute at 1 in Hw.
  cbn [available answering] in Hw.
  destruct (save_answered answers) eqn:Hsave.
  2:{ subst w'.
      cbn [w_db w_requests w_outbox answering newsletters user_sources
           newsletter_feedback newsletter_metrics scheduled_deliveries
           available].
      repeat split; try done.
      - by exists more.
      - by left.
      - apply Hrss. }
  cbn [insert Models.nd_title Models.nd_content Models.nd_status
       Models.nd_created_at n_id newsletters] in Hw.
  set (row := {| n_id := new_id; n_user_id := user_id |}) in *.
  destruct new_id as [|i id'] eqn:Eid.
  { subst w'.
    cbn [w_db w_requests w_outbox Models.set_newsletters answering newsletters
         user_sources newsletter_feedback newsletter_metrics
         scheduled_deliveries available].
    repeat split; try done.
    - by exists more.
    - right. exists row. repeat split; try done. by left.
    - apply Hrss. }
  rewrite <- Eid in *.
  set (message := {| recipient_email := u_email user |}) in *.
  destruct (send_newsletter_email message) eqn:Esend.
  2:{ subst w'.
      cbn [w_db w_requests w_outbox Models.set_newsletters answering newsletters
           user_sources newsletter_feedback newsletter_metrics
           scheduled_deliveries available].
      repeat split; try done.
      - by exists more.
      - right. exists row. repeat split; try done. by left.
      - apply Hrss. }
  assert (Hmsg : exists user0 message0,
             user0 ∈ users /\ u_id user0 = user_id
             /\ recipient_email message0 = u_email user0
             /\ html_content message0 = n_content row
             /\ send_newsletter_email message0 = true
             /\ w_outbox w ++ [message] = w_outbox w ++ [message0]).
  { exists user, message. destruct Huser as [Hin Hid]. repeat split; done. }
  unfold execute at 1 in Hw.
  cbn [available Models.set_newsletters answering] in Hw.
  destruct (schedule_answered answers) eqn:Hsched.
  2:{ subst w'.
      cbn [w_db w_requests w_outbox Models.set_newsletters answering newsletters
           user_sources newsletter_feedback newsletter_metrics
           scheduled_deliveries available andb].
      repeat split; try done.
      - by exists more.
      - right. exists row. repeat split; try done. by right.
      - apply Hrss. }
  cbn [update fst scheduled_deliveries] in Hw.
  unfold Models.update_newsletter, execute in Hw.
  cbn [available set_scheduled_deliveries Models.set_newsletters answering
       newsletters] in Hw.
  destruct (status_answered answers) eqn:Hstatus; subst w';
    cbn [update fst w_db w_requests w_outbox Models.set_newsletters answering
         set_scheduled_deliveries newsletters
         user_sources newsletter_feedback newsletter_metrics
         scheduled_deliveries available andb].
  - repeat split; try done.
    + by exists more.
    + right. exists row. repeat split; try done. right.
      split; [exact Hmsg|]. split.
      * apply map_ext. intros r. by rewrite matches_single.
      * rewrite map_app. cbn [map].
        rewrite map_update_fresh.
        -- f_equal. rewrite matches_two. unfold eq_. cbn [n_id n_user_id row].
           by rewrite !bool_decide_eq_true_2.
        -- eapply Forall_impl; [exact Hfresh|]. intros n Hn. cbn beta in *.
           rewrite matches_two. unfold eq_ at 1.
           by rewrite bool_decide_eq_false_2.
    + apply Hrss.
  - repeat split; try done.
    + by exists more.
    + right. exists row. repeat split; try done. right.
      split; [exact Hmsg|]. split; [|done].
      apply map_ext. intros r. by rewrite matches_single.
    + apply Hrss.
Qed.
End DeliveryFacts.

Section DeliveryInstances.
Import Supabase Scheduler.

(** The three behaviours of the backend after the message is sent: the
    row is marked as sent only when both updates are answered. *)
Lemma deliver_outcomes :
  (let w' := Samples.deliver Samples.all_answered in
   map (fun n => (n_id n, n_status n, n_sent_at n)) (newsletters (w_db w'))
   = [ (lit "n1", lit "draft", None); (lit "n2", lit "draft", None);
       (lit "n9", lit "sent", Some 3002%Z) ]
   /\ map (fun r => (sd_user_id r, sd_last_delivered_at r))
          (scheduled_deliveries (w_db w'))
      = [ (lit "bob", Some 3001%Z); (lit "alice", None); (lit "carol", None) ]
   /\ map recipient_email (w_outbox w') = [ lit "bob@example.org" ]
   /\ length (w_requests w') = 3)
  /\ (let w' := Samples.deliver Samples.schedule_raises in
      map (fun n => (n_id n, n_status n, n_sent_at n)) (newsletters (w_db w'))
      = [ (lit "n1", lit "draft", None); (lit "n2", lit "draft", None);
          (lit "n9", lit "draft", None) ]
      /\ map (fun r => (sd_user_id r, sd_last_delivered_at r))
             (scheduled_deliveries (w_db w'))
         = [ (lit "bob", None); (lit "alice", None); (lit "carol", None) ]
      /\ map recipient_email (w_outbox w') = [ lit "bob@example.org" ])
  /\ (let w' := Samples.deliver Samples.status_raises in
      map (fun n => (n_id n, n_status n, n_sent_at n)) (newsletters (w_db w'))
      = [ (lit "n1", lit "draft", None); (lit "n2", lit "draft", None);
          (lit "n9", lit "draft", None) ]
      /\ map (fun r => (sd_user_id r, sd_last_delivered_at r))
             (scheduled_deliveries (w_db w'))
         = [ (lit "bob", Some 3001%Z); (lit "alice", None); (lit "carol", None) ]
      /\ map recipient_email (w_outbox w') = [ lit "bob@example.org" ]).
Proof. vm_compute. repeat split. Qed.

Lemma generate_and_send_newsletter_effects_witness :
  let w' := Samples.deliver Samples.schedule_raises in
  exists row message,
    n_status row = lit "draft"
    /\ n_sent_at row = None
    /\ newsletters (w_db w')
       = newsletters (w_db Samples.world) ++ [row]
    /\ scheduled_deliveries (w_db w')
       = scheduled_deliveries (w_db Samples.world)
    /\ html_content message = n_content row
    /\ w_outbox w' = [message].
Proof.
  intros w'.
  assert (Hfresh : Forall (fun n => n_id n <> lit "n9")
                          (newsletters (w_db Samples.world))).
  { apply (bool_decide_unpack _). vm_compute. exact I. }
  pose proof (generate_and_send_newsletter_effects
                Samples.subscribers Samples.fetch_feed (fun _ => None)
                (fun _ => 0%Z) (Some (lit "key")) Samples.plain_client
                (fun _ => true) Samples.world Samples.schedule_raises
                (lit "bob") (lit "January 07, 2025") (lit "January 07, 2025")
                (lit "n9") 3000 3001 3002 Hfresh) as Heffects.
  cbv zeta in Heffects.
  fold (Samples.deliver Samples.schedule_raises) in Heffects.
  fold w' in Heffects.
  destruct Heffects as (_ & _ & _ & _ & _ & Hcases & _).
  destruct Hcases as [(_ & _ & Hout)|(row & _ & _ & Hdraft & _ & Hnot & _ & Hsent)].
  { vm_compute in Hout. discriminate Hout. }
  destruct Hsent as [(_ & _ & Hout)|(Hmsg & Hsched & Hrows)].
  { vm_compute in Hout. discriminate Hout. }
  destruct Hmsg as (user & message & _ & _ & _ & Hcontent & _ & Hout).
  exists row, message. repeat split; done.
Defined.
End DeliveryInstances.

(** ** style_trainer.py: common phrases and the style prompt *)

Section PhraseFacts.
Import ContentAggregator StyleTrainer.

Lemma slice_to_sublist {A : Type} (k : Z) (l : list A) :
  slice_to k l `sublist_of` l.
Proof. unfold slice_to. destruct (0 <=? k)%Z; apply sublist_take. Qed.

Lemma List_filter_sublist {A : Type} (P : A -> bool) (l : list A) :
  List.filter P l `sublist_of` l.
Proof.
  induction l as [|x l IH]; cbn [List.filter]; [done|].
  destruct (P x); [by apply sublist_skip|by apply sublist_cons].
Qed.

Lemma sort_desc_counts_sorted (cnt : list (str * nat)) :
  StronglySorted (fun x y => snd y <= snd x) (PyList.sort_desc count_key cnt).
Proof.
  pose proof (sort_desc_sorted count_key cnt) as Hs.
  induction Hs as [|x l Hl IH Hx]; constructor; [done|].
  eapply Forall_impl; [exact Hx|].
  intros y. unfold PyList.desc, count_key. lia.
Qed.

Lemma sorted_counts_fst (occ : str -> nat) (l : list (str * nat)) :
  StronglySorted (fun x y => snd y <= snd x) l ->
  Forall (fun kc => snd kc = occ (fst kc)) l ->
  StronglySorted (fun p q => occ q <= occ p) (map fst l).
Proof.
  induction 1 as [|x l Hl IH Hx]; intros Hocc; cbn [map]; [constructor|].
  apply Forall_cons in Hocc as [Hx0 Hocc]. constructor; [by apply IH|].
  apply Forall_map. rewrite Forall_forall in Hx, Hocc. apply Forall_forall.
  intros y Hy. cbn beta. rewrite <- Hx0, <- (Hocc y Hy). by apply Hx.
Qed.

(** X27: every phrase [extract_common_phrases] returns occurs at least
    twice among the phrases of two and of three consecutive words of the
    text and is none of the stop phrases; no phrase is returned twice; the
    phrases come with the more frequent first; and with a limit that is
    not negative there are no more of them than the limit. *)
Theorem extract_common_phrases_frequent (text : str) (top_n : Z) :
  let phrases := bigrams (words_of text) ++ trigrams (words_of text) in
  Forall (fun p => (p ∉ stop_phrases) /\ 2 <= occurrences p phrases)
         (extract_common_phrases text top_n)
  /\ NoDup (extract_common_phrases text top_n)
  /\ StronglySorted (fun p q => occurrences q phrases <= occurrences p phrases)
                    (extract_common_phrases text top_n)
  /\ (if (0 <=? top_n)%Z
      then length (extract_common_phrases text top_n) <= Z.to_nat top_n
      else True).
Proof.
  intros phrases. unfold extract_common_phrases.
  set (sorted := PyList.sort_desc count_key (filtered_phrases text)).
  assert (Hsub : slice_to top_n sorted `sublist_of` sorted)
    by apply slice_to_sublist.
  assert (Hfilt : forall kc, kc ∈ sorted ->
             (fst kc ∉ stop_phrases) /\ 2 <= snd kc
             /\ snd kc = occurrences (fst kc) phrases).
  { intros [p c] Hin. subst sorted. rewrite sort_desc_perm in Hin.
    unfold filtered_phrases in Hin. cbv zeta in Hin. fold phrases in Hin.
    apply list_elem_of_In, filter_In in Hin as [Hin Hok].
    apply list_elem_of_In, Counter_spec in Hin as [-> _].
    apply andb_prop in Hok as [Hstop Hc]. cbn [fst snd] in *.
    apply negb_true_iff, bool_decide_eq_false in Hstop.
    apply Nat.ltb_lt in Hc. split; [done|]. split; [lia|done]. }
  assert (Hnd : NoDup (sorted.*1)).
  { subst sorted. rewrite sort_desc_perm. unfold filtered_phrases. cbv zeta.
    eapply sublist_NoDup; [apply Counter_NoDup|].
    apply fmap_sublist. apply List_filter_sublist. }
  split; [|split; [|split]].
  - apply Forall_forall. intros p Hp.
    apply list_elem_of_fmap in Hp as (kc & -> & Hkc).
    apply (elem_of_sublist _ _ _ Hkc), Hfilt in Hsub as (H1 & H2 & H3).
    split; [done|]. by rewrite <- H3.
  - eapply sublist_NoDup; [exact Hnd|]. by apply fmap_sublist.
  - apply sorted_counts_fst.
    + eapply StronglySorted_sublist; [exact Hsub|].
      apply sort_desc_counts_sorted.
    + apply Forall_forall. intros kc Hkc.
      by apply (elem_of_sublist _ _ _ Hkc), Hfilt in Hsub as (_ & _ & H3).
  - destruct (Z.leb_spec 0 top_n) as [Hn|]; [|done].
    rewrite length_map. unfold slice_to.
    destruct (Z.leb_spec 0 top_n); [|lia]. rewrite length_take. lia.
Qed.
End PhraseFacts.

Section StylePromptFacts.
Import StyleTrainer.
Context {F : Type} `{FloatOps F}.

(** X28: with fewer than three past newsletters [analyze_writing_style]
    reports insufficient data and [generate_style_prompt] gives the empty
    text.  With three or more, the profile counts the newsletters, and the
    prompt is not empty: it opens with the advice for the dominant tone of
    the profile, which is always one of the four tones with an advice of
    their own, followed by a space and the advice on sentences and
    paragraphs. *)
Theorem generate_style_prompt_of_analysis (past_newsletters : list str) :
  if length past_newsletters <? 3
  then (exists message,
          analyze_writing_style past_newsletters = InsufficientData message)
       /\ generate_style_prompt (analyze_writing_style past_newsletters) = []
  else exists style_profile guidance rest,
         analyze_writing_style past_newsletters = Profile style_profile
         /\ sample_count style_profile = length past_newsletters
         /\ tone_indicators style_profile
            = detect_tone_indicators (join (lit " ") past_newsletters)
         /\ (dominant_tone (tone_indicators style_profile), guidance)
            ∈ tone_guidance
         /\ generate_style_prompt (analyze_writing_style past_newsletters)
            = guidance ++ lit " " ++ rest
         /\ rest <> [].
Proof.
  unfold analyze_writing_style.
  destruct (length past_newsletters <? 3); [split; [by eexists|done]|].
  eexists. cbn [generate_style_prompt tone_indicators sample_count].
  set (text := join (lit " ") past_newsletters).
  pose proof (detect_tone_indicators_is_a_key text) as Hkey.
  set (tone := dominant_tone (detect_tone_indicators text)) in *.
  assert (Hg : exists guidance,
             (tone, guidance) ∈ tone_guidance
             /\ get_or tone_guidance tone
                  (lit "Write in a clear, engaging tone.") = guidance).
  { clearbody tone. unfold tone_guidance.
    repeat (apply elem_of_cons in Hkey as [->|Hkey];
            [eexists; split; [|reflexivity]; set_solver|]).
    by apply elem_of_nil in Hkey. }
  destruct Hg as (guidance & Hin & Hget). rewrite Hget.
  exists guidance. eexists.
  split; [reflexivity|]. split; [done|]. split; [done|]. split; [exact Hin|].
  split; [cbn [app join]; reflexivity|].
  cbn [join avg_sentence_length].
  repeat match goal with
         | |- context [if ?b then _ else _] => destruct b
         end;
    unfold lit at 1; cbn [list_ascii_of_string app]; discriminate.
Qed.
End StylePromptFacts.

(** ** content_aggregator.py: the text of a scraped post *)

Section TweetTextFacts.
Import ContentAggregator.

Lemma url_at_inv (t : str) :
  url_at t = true ->
  exists word x r,
    t = word ++ x :: r /\ is_space x = false
    /\ (word = lit "http" \/ word = lit "www").
Proof.
  unfold url_at. intros Hu. apply orb_prop in Hu as [Hu|Hu];
    apply andb_prop in Hu as [Hs Hx].
  - destruct t as [|a [|b [|c [|d [|x r]]]]]; try done.
    cbn in Hs, Hx. repeat (apply andb_prop in Hs as [?%bool_decide_eq_true Hs]).
    subst. exists (lit "http"), x, r. split; [done|].
    split; [by apply negb_true_iff|by left].
  - destruct t as [|a [|b [|c [|x r]]]]; try done.
    cbn in Hs, Hx. repeat (apply andb_prop in Hs as [?%bool_decide_eq_true Hs]).
    subst. exists (lit "www"), x, r. split; [done|].
    split; [by apply negb_true_iff|by right].
Qed.

Lemma url_at_intro (word : str) (x : ascii) (r : str) :
  word = lit "http" \/ word = lit "www" -> is_space x = false ->
  url_at (word ++ x :: r) = true.
Proof.
  intros [-> | ->] Hx; unfold url_at.
  - rewrite (startswith_app (lit "http") (x :: r)).
    change ((lit "http" ++ x :: r) !! 4) with (Some x).
    cbn [from_option]. by rewrite Hx.
  - rewrite (startswith_app (lit "www") (x :: r)).
    change ((lit "www" ++ x :: r) !! 3) with (Some x).
    cbn [from_option]. rewrite Hx. cbn [negb andb]. by rewrite orb_true_r.
Qed.

Lemma url_at_space (c : ascii) (r : str) :
  is_space c = true -> url_at (c :: r) = false.
Proof.
  intros Hc. destruct (url_at (c :: r)) eqn:Hu; [|done].
  apply url_at_inv in Hu as (word & x & r' & Heq & _ & [-> | ->]);
    cbn in Heq; injection Heq as -> _; by vm_compute in Hc.
Qed.

Lemma run_prefix_cons (c : ascii) (t s : str) :
  is_space c = false -> run_prefix (c :: t) s = true ->
  exists s', s = c :: s' /\ run_prefix t s' = true.
Proof.
  intros Hc Hp. cbn [run_prefix] in Hp. rewrite Hc in Hp.
  destruct s as [|d s']; [done|].
  apply andb_prop in Hp as [->%bool_decide_eq_true Hp]. by exists s'.
Qed.

Lemma url_at_run_prefix (t s : str) :
  run_prefix t s = true -> url_at t = true -> url_at s = true.
Proof.
  intros Hp Hu. apply url_at_inv in Hu as (word & x & r & -> & Hx & Hw).
  assert (Hs : exists r', s = word ++ x :: r').
  { destruct Hw as [-> | ->]; unfold lit in *; cbn [list_ascii_of_string app] in *.
    - apply run_prefix_cons in Hp as (s1 & -> & Hp); [|done].
      apply run_prefix_cons in Hp as (s2 & -> & Hp); [|done].
      apply run_prefix_cons in Hp as (s3 & -> & Hp); [|done].
      apply run_prefix_cons in Hp as (s4 & -> & Hp); [|done].
      apply run_prefix_cons in Hp as (s5 & -> & Hp); [|done].
      by exists s5.
    - apply run_prefix_cons in Hp as (s1 & -> & Hp); [|done].
      apply run_prefix_cons in Hp as (s2 & -> & Hp); [|done].
      apply run_prefix_cons in Hp as (s3 & -> & Hp); [|done].
      apply run_prefix_cons in Hp as (s4 & -> & Hp); [|done].
      by exists s4. }
  destruct Hs as [r' ->]. by apply url_at_intro.
Qed.

Lemma run_prefix_skipping (s s2 : str) :
  run_prefix (remove_urls_go true s) s2 = true.
Proof.
  induction s as [|c s IH]; cbn [remove_urls_go]; [done|].
  destruct (is_space c) eqn:Ec; [|done]. cbn [run_prefix]. by rewrite Ec.
Qed.

Lemma run_prefix_remove_urls (s : str) :
  run_prefix (remove_urls_go false s) s = true.
Proof.
  induction s as [|c s IH]; [done|]. cbn [remove_urls_go].
  destruct (url_at (c :: s)); [apply run_prefix_skipping|].
  cbn [run_prefix]. destruct (is_space c); [done|].
  by rewrite bool_decide_eq_true_2, IH.
Qed.

Lemma remove_urls_go_free (s : str) (skipping : bool) :
  url_free (remove_urls_go skipping s) = true.
Proof.
  revert skipping. induction s as [|c s IH]; intros skipping; [done|].
  cbn [remove_urls_go]. destruct skipping.
  - destruct (is_space c) eqn:Ec; [|apply IH].
    cbn [url_free]. by rewrite url_at_space, IH.
  - destruct (url_at (c :: s)) eqn:Hu; [apply IH|].
    cbn [url_free]. rewrite IH, andb_true_r. apply negb_true_iff.
    destruct (url_at (c :: remove_urls_go false s)) eqn:Hu'; [|done].
    rewrite <- Hu. symmetry. eapply url_at_run_prefix; [|exact Hu'].
    cbn [run_prefix]. destruct (is_space c); [done|].
    by rewrite bool_decide_eq_true_2, run_prefix_remove_urls.
Qed.

Lemma run_prefix_collapse (s : str) :
  run_prefix (collapse_ws_go false s) s = true.
Proof.
  induction s as [|c s IH]; [done|]. cbn [collapse_ws_go].
  destruct (is_space c) eqn:Ec; cbn [run_prefix].
  - done.
  - by rewrite Ec, bool_decide_eq_true_2, IH.
Qed.

Lemma collapse_ws_go_free (s : str) (in_ws : bool) :
  url_free s = true -> url_free (collapse_ws_go in_ws s) = true.
Proof.
  revert in_ws. induction s as [|c s IH]; intros in_ws Hf; [done|].
  cbn [url_free] in Hf. apply andb_prop in Hf as [Hc Hf].
  cbn [collapse_ws_go]. destruct (is_space c) eqn:Ec.
  - destruct in_ws; [by apply IH|].
    cbn [url_free]. rewrite url_at_space by done. by rewrite IH.
  - cbn [url_free]. rewrite IH by done. rewrite andb_true_r.
    apply negb_true_iff. apply negb_true_iff in Hc.
    destruct (url_at (c :: collapse_ws_go false s)) eqn:Hu'; [|done].
    rewrite <- Hc. symmetry. eapply url_at_run_prefix; [|exact Hu'].
    cbn [run_prefix]. by rewrite Ec, bool_decide_eq_true_2, run_prefix_collapse.
Qed.

Lemma run_prefix_app (t b : str) : run_prefix t (t ++ b) = true.
Proof.
  induction t as [|c t IH]; [done|]. cbn [run_prefix app].
  destruct (is_space c); [done|]. by rewrite bool_decide_eq_true_2, IH.
Qed.

Lemma url_free_app_r (a t : str) : url_free (a ++ t) = true -> url_free t = true.
Proof.
  induction a as [|c a IH]; [done|]. cbn [app url_free].
  intros [_ Hf]%andb_prop. by apply IH.
Qed.

Lemma url_free_app_l (t b : str) : url_free (t ++ b) = true -> url_free t = true.
Proof.
  induction t as [|c t IH]; [done|]. cbn [app url_free].
  intros [Hc Hf]%andb_prop. rewrite IH by done. rewrite andb_true_r.
  apply negb_true_iff. apply negb_true_iff in Hc.
  destruct (url_at (c :: t)) eqn:Hu; [|done].
  rewrite <- Hc. symmetry. eapply url_at_run_prefix; [|exact Hu].
  apply (run_prefix_app (c :: t) b).
Qed.

Lemma clean_tweet_text_unfold (text : str) :
  clean_tweet_text text =
  let cleaned := strip (collapse_ws (remove_urls text)) in
  if 280 <? length cleaned then take 280 cleaned ++ lit "..." else cleaned.
Proof. by destruct text. Qed.

(** X29: the text [clean_tweet_text] returns has at most 283 characters;
    its only whitespace is single spaces and it does not start with one;
    and no address is left in its first 280 characters: nowhere in them do
    the letters [http] or [www] stand before a character that is not
    whitespace. *)
Theorem clean_tweet_text_clean (text : str) :
  length (clean_tweet_text text) <= 283
  /\ single_spaced (clean_tweet_text text) = true
  /\ starts_space (clean_tweet_text text) = false
  /\ url_free (take 280 (clean_tweet_text text)) = true.
Proof.
  rewrite clean_tweet_text_unfold. cbv zeta.
  set (cleaned := strip (collapse_ws (remove_urls text))).
  assert (Hfree : url_free cleaned = true).
  { destruct (strip_segment (collapse_ws (remove_urls text))) as (a & b & Hseg).
    apply (url_free_app_l _ b), (url_free_app_r a). fold cleaned in Hseg.
    rewrite <- Hseg. apply collapse_ws_go_free, remove_urls_go_free. }
  assert (Hsp : single_spaced cleaned = true).
  { destruct (strip_segment (collapse_ws (remove_urls text))) as (a & b & Hseg).
    apply (single_spaced_app_l _ b), (single_spaced_app_r a).
    fold cleaned in Hseg. rewrite <- Hseg. apply collapse_ws_go_single_spaced. }
  assert (Hst : starts_space cleaned = false) by apply strip_starts.
  destruct (Nat.ltb_spec 280 (length cleaned)) as [Hlong|Hshort].
  - split; [|split; [|split]].
    + rewrite length_app, length_take. change (length (lit "...")) with 3. lia.
    + apply single_spaced_app; [|done|done].
      apply (single_spaced_app_l _ (drop 280 cleaned)). by rewrite take_drop.
    + destruct cleaned as [|c cleaned']; [cbn in Hlong; lia|]. done.
    + rewrite take_app_le by (rewrite length_take; lia).
      rewrite take_take. apply (url_free_app_l _ (drop 280 cleaned)).
      rewrite Nat.min_id. by rewrite take_drop.
  - split; [lia|]. split; [done|]. split; [done|].
    apply (url_free_app_l _ (drop 280 cleaned)). by rewrite take_drop.
Qed.
End TweetTextFacts.

(** ** models.py: saving a source *)

Section SaveSourceFacts.
Import Supabase Models.
Context {F : Type}.

(** X30: when the backend answers, [save_user_sources] reports success
    and appends the source to the table as it is given, without looking
    for a source that is already there.  Afterwards [get_user_sources]
    lists for every user the sources listed before, and the new one as
    well for its own user when it is active; the list is still ordered
    with the newest first.  When the backend raises, the store is
    unchanged and the call reports failure. *)
Theorem save_user_sources_then_listed (db : Database F)
    (source_data : UserSource) (user_id : str) :
  let saved := save_user_sources db source_data in
  if available db then
    snd saved = true
    /\ user_sources (fst saved) = user_sources db ++ [source_data]
    /\ newsletters (fst saved) = newsletters db
    /\ get_user_sources (fst saved) user_id
       ≡ₚ (if bool_decide (s_user_id source_data = user_id)
              && s_active source_data
           then [source_data] else [])
          ++ get_user_sources db user_id
    /\ StronglySorted (fun a b => (s_created_at b <= s_created_at a)%Z)
                      (get_user_sources (fst saved) user_id)
  else saved = (db, false).
Proof.
  cbv zeta. unfold save_user_sources, execute.
  destruct (available db) eqn:Hav; [|done].
  cbn [insert fst snd set_user_sources user_sources newsletters].
  split; [done|]. split; [done|]. split; [done|].
  unfold get_user_sources, execute.
  cbn [available set_user_sources user_sources]. rewrite Hav.
  split.
  - rewrite !sort_desc_perm. unfold select. rewrite List.filter_app.
    rewrite Permutation_app_comm. apply Permutation_app; [|done].
    cbn [List.filter]. rewrite matches_two. unfold eq_.
    destruct (bool_decide (s_user_id source_data = user_id)); [|done].
    cbn [andb]. destruct (s_active source_data); done.
  - pose proof (sort_desc_sorted s_created_at
                  (select [eq_ s_user_id user_id; eq_ s_active true]
                          (user_sources db ++ [source_data]))) as Hs.
    exact Hs.
Qed.
End SaveSourceFacts.
